(** * read_session.py: session transcripts rendered as reports

    A shallow embedding of [skills/session-reader/scripts/read_session.py]:
    the record parser ([parse_session]), the turn normaliser
    ([extract_turns]), the windowed renderers and the entry point, with the
    properties the specification states about them.

    Conventions of the embedding.
    - A Python [str] is a [string]; every [ascii] stands for one character,
      so [String.length] is Python's [len].
    - A value produced by [json.loads] is a [json]; a Python [dict] is an
      association list in which the first binding of a key is the live one.
    - JSON numbers are exact rationals ([Q]); the rounding of binary
      floating point is not modelled, so a sum or a quotient stands for the
      value Python computes only as far as that value is exact, and the
      non-finite numbers [json.loads] accepts have no counterpart.
    - An uncaught Python exception is the [Raise] result; standard output
      is the list of lines printed so far. Writing to standard output is
      taken to succeed: a failure of the stream itself (a character it
      cannot encode, a closed pipe) is outside the model, and no property
      below speaks of it.
    - A printed line keeps the structure of its f-string; characters
      outside ASCII are written with an ASCII stand-in (rules, dashes) or
      named ([Glyph]).
    - The library calls ([json.loads], [json.dumps], the [datetime]
      conversions, [Path.exists]) are parameters of the renderers. The
      [datetime] conversions may raise: [format_timestamp] catches their
      [ValueError], [AttributeError] and [OSError] and nothing else, so the
      [OverflowError] of a number out of range goes through. *)

From Stdlib Require Import ZArith QArith List Bool Ascii String Lia.
From Stdlib Require Import Numbers.DecimalString.
Import ListNotations.

Local Open Scope string_scope.
Local Open Scope Z_scope.

(** ** Python strings *)

Module PyStr.

(** [str(n)] for a non-negative integer. *)
Definition of_nat (n : nat) : string :=
  NilEmpty.string_of_uint (Nat.to_uint n).

(** [text[:n]] for [n >= 0]. *)
Fixpoint take (n : nat) (s : string) : string :=
  match n, s with
  | O, _ => EmptyString
  | S _, EmptyString => EmptyString
  | S n', String c s' => String c (take n' s')
  end.

(** [str.isspace] on one character (the Latin-1 range). *)
Definition is_space (c : ascii) : bool :=
  let n := nat_of_ascii c in
  ((9 <=? n) && (n <=? 13) || (28 <=? n) && (n <=? 32)
   || (n =? 133) || (n =? 160))%nat.

Fixpoint lstrip (s : string) : string :=
  match s with
  | EmptyString => EmptyString
  | String c s' => if is_space c then lstrip s' else s
  end.

(** [rstrip] keeps a character when it is not a space or when something
    survives to its right. *)
Fixpoint rstrip (s : string) : string :=
  match s with
  | EmptyString => EmptyString
  | String c s' =>
      match rstrip s' with
      | EmptyString => if is_space c then EmptyString else String c EmptyString
      | r => String c r
      end
  end.

(** [s.strip()]. *)
Definition strip (s : string) : string := rstrip (lstrip s).

(** [s.replace("\n", " ")]. *)
Fixpoint newlines_to_spaces (s : string) : string :=
  match s with
  | EmptyString => EmptyString
  | String c s' =>
      String (if Ascii.eqb c "010"%char then " "%char else c)
             (newlines_to_spaces s')
  end.

(** [sep.join(xs)]. *)
Fixpoint join (sep : string) (xs : list string) : string :=
  match xs with
  | [] => ""
  | [x] => x
  | x :: rest => x ++ sep ++ join sep rest
  end.

End PyStr.

(** ** [truncate] *)

(** The marker appended to a cut text: [f"\n... [truncated, {n} chars total]"]. *)
Definition truncation_suffix (total : nat) : string :=
  String "010"%char "... [truncated, " ++ PyStr.of_nat total ++ " chars total]".

Definition truncate (text : string) (max_len : Z) : string :=
  if (max_len <=? 0) || (Z.of_nat (String.length text) <=? max_len)
  then text
  else PyStr.take (Z.to_nat max_len) text
       ++ truncation_suffix (String.length text).


(** ** JSON values as Python sees them *)

#[warnings="-register-all"]
Inductive json : Type :=
| JNull
| JBool (b : bool)
| JNum (q : Q)
| JStr (s : string)
| JList (items : list json)
| JDict (fields : list (string * json)).

(** Uncaught exceptions, by class. *)
Inductive exn : Type :=
| JSONDecodeError
| AttributeError
| TypeError
| ValueError
| KeyError
| IndexError
| OverflowError
| SystemExit.

Inductive result (A : Type) : Type :=
| Ok (a : A)
| Raise (e : exn).

Arguments Ok {A} a.
Arguments Raise {A} e.

Module Py.

Definition bind {A B} (r : result A) (k : A -> result B) : result B :=
  match r with
  | Ok a => k a
  | Raise e => Raise e
  end.

(** Lookup in a [dict]. *)
Fixpoint lookup (k : string) (d : list (string * json)) : option json :=
  match d with
  | [] => None
  | (k', v) :: d' => if String.eqb k k' then Some v else lookup k d'
  end.

(** [d.get(k, default)] once [d] is known to be a dict. *)
Definition dict_get (d : list (string * json)) (k : string) (default : json)
  : json :=
  match lookup k d with
  | Some v => v
  | None => default
  end.

(** [x.get(k, default)] on any value: only a dict has [get]. *)
Definition get (x : json) (k : string) (default : json) : result json :=
  match x with
  | JDict d => Ok (dict_get d k default)
  | _ => Raise AttributeError
  end.

(** [x == "lit"] against a string literal. *)
Definition eq_str (x : json) (lit : string) : bool :=
  match x with
  | JStr s => String.eqb s lit
  | _ => false
  end.

(** Python truthiness: [if x]. *)
Definition truthy (x : json) : bool :=
  match x with
  | JNull => false
  | JBool b => b
  | JNum q => negb (Qeq_bool q 0)
  | JStr s => negb (String.eqb s "")
  | JList [] => false
  | JList (_ :: _) => true
  | JDict [] => false
  | JDict (_ :: _) => true
  end.

Definition is_dict (x : json) : bool :=
  match x with JDict _ => true | _ => false end.

(** [x.strip()]: only a [str] has [strip]. *)
Definition strip (x : json) : result string :=
  match x with
  | JStr s => Ok (PyStr.strip s)
  | _ => Raise AttributeError
  end.

(** A value used as a number: [bool] is a subclass of [int]. *)
Definition number (x : json) : result Q :=
  match x with
  | JNum q => Ok q
  | JBool b => Ok (if b then 1%Q else 0%Q)
  | _ => Raise TypeError
  end.

(** A value used where only a [str] works ([join], slicing a text). *)
Definition text (x : json) : result string :=
  match x with
  | JStr s => Ok s
  | _ => Raise TypeError
  end.

(** [for x in v]: a list yields its items. Iterating a number, a bool or
    [None] raises; a dict yields its keys and a str its characters. *)
Definition iter (v : json) : result (list json) :=
  match v with
  | JList l => Ok l
  | JDict d => Ok (map (fun kv => JStr (fst kv)) d)
  | JStr s => Ok (map (fun c => JStr (String c "")) (list_ascii_of_string s))
  | _ => Raise TypeError
  end.

(** Sequential [for] over a list with a fallible body. *)
Fixpoint mapM {A B} (f : A -> result B) (xs : list A) : result (list B) :=
  match xs with
  | [] => Ok []
  | x :: xs' =>
      bind (f x) (fun y => bind (mapM f xs') (fun ys => Ok (y :: ys)))
  end.

Fixpoint foldM {A S} (f : S -> A -> result S) (xs : list A) (s : S)
  : result S :=
  match xs with
  | [] => Ok s
  | x :: xs' => bind (f s x) (foldM f xs')
  end.

End Py.

Declare Scope py_scope.
Delimit Scope py_scope with py.
Notation "x <- c ;; k" := (Py.bind c (fun x => k))
  (at level 61, c at next level, right associativity) : py_scope.
Notation "' p <- c ;; k" := (Py.bind c (fun p => k))
  (at level 61, p pattern, c at next level, right associativity) : py_scope.
Local Open Scope py_scope.

(** ** The turn produced by [extract_turns]

    The Python turn is a dict; the keys set on every turn are plain fields,
    the keys set only for some roles are options. *)

Record tool_call : Type := ToolCall {
  tc_id : json;
  tc_name : json;
  tc_arguments : json
}.

Record turn : Type := Turn {
  role : json;
  timestamp : json;
  texts : list json;
  tool_calls : list tool_call;
  thinking : list json;
  is_error : json;
  model : option json;
  provider : option json;
  usage : option json;
  stop_reason : option json;
  tool_call_id : option json;
  tool_name : option json;
  subagent_details : option json
}.

(** [turn.get(key, default)] for an optional key. *)
Definition opt_get (field : option json) (default : json) : json :=
  match field with
  | Some v => v
  | None => default
  end.

(** [turn[key]] for an optional key. *)
Definition opt_item (field : option json) : result json :=
  match field with
  | Some v => Ok v
  | None => Raise KeyError
  end.

(** ** Command-line arguments *)

Inductive mode_t : Type :=
| Overview | Conversation | Full | Tools | Costs | Subagents.

Record args_t : Type := Args {
  mode : mode_t;
  offset : Z;
  limit : Z;
  max_content : Z
}.

(** ** [extract_subagent_details] *)

Definition extract_subagent_details (msg : json) : result (option json) :=
  r <- Py.get msg "role" JNull ;;
  if negb (Py.eq_str r "toolResult") then Ok None
  else
    n <- Py.get msg "toolName" JNull ;;
    if negb (Py.eq_str n "subagent") then Ok None
    else
      details <- Py.get msg "details" JNull ;;
      if negb (Py.truthy details) then Ok None else Ok (Some details).

(** ** [extract_turns] *)

(** The three lists a content item may extend. *)
Record segments : Type := Segments {
  seg_texts : list json;
  seg_tool_calls : list tool_call;
  seg_thinking : list json
}.

(** One iteration of [for item in content] over the generic content. *)
Definition content_item (acc : segments) (item : json) : result segments :=
  match item with
  | JDict d =>
      let item_type := Py.dict_get d "type" (JStr "") in
      is_text <-
        (if Py.eq_str item_type "text"
         then s <- Py.strip (Py.dict_get d "text" (JStr "")) ;;
              Ok (negb (String.eqb s ""))
         else Ok false) ;;
      if is_text then
        match Py.lookup "text" d with
        | Some t =>
            Ok (Segments (seg_texts acc ++ [t]) (seg_tool_calls acc)
                  (seg_thinking acc))
        | None => Raise KeyError
        end
      else if Py.eq_str item_type "toolCall" then
        Ok (Segments (seg_texts acc)
              (seg_tool_calls acc
                 ++ [ToolCall (Py.dict_get d "id" (JStr ""))
                       (Py.dict_get d "name" (JStr ""))
                       (Py.dict_get d "arguments" (JDict []))])
              (seg_thinking acc))
      else if Py.eq_str item_type "thinking" then
        let thinking_text := Py.dict_get d "thinking" (JStr "") in
        if Py.truthy thinking_text then
          Ok (Segments (seg_texts acc) (seg_tool_calls acc)
                (seg_thinking acc ++ [thinking_text]))
        else Ok acc
      else Ok acc
  | _ => Ok acc
  end.

(** The generic content rule: a string or a list of tagged items. *)
Definition generic_content (content : json) : result segments :=
  let empty := Segments [] [] [] in
  match content with
  | JStr s =>
      if negb (String.eqb (PyStr.strip s) "")
      then Ok (Segments [content] [] [])
      else Ok empty
  | JList items => Py.foldM content_item items empty
  | _ => Ok empty
  end.

(** One iteration of [for item in result_content] of a toolResult. *)
Definition result_item (acc : list json) (item : json) : list json :=
  match item with
  | JDict d =>
      if Py.eq_str (Py.dict_get d "type" JNull) "text"
      then acc ++ [Py.dict_get d "text" (JStr "")]
      else acc
  | _ => acc
  end.

(** The texts of a toolResult, rebuilt from its own content. *)
Definition result_texts (result_content : json) : list json :=
  match result_content with
  | JList items => fold_left result_item items []
  | JStr s =>
      if negb (String.eqb (PyStr.strip s) "") then [result_content] else []
  | _ => []
  end.

(** The body of [for entry in messages]. *)
Definition extract_turn (entry : json) : result turn :=
  msg <- Py.get entry "message" (JDict []) ;;
  role <- Py.get msg "role" (JStr "") ;;
  content <- Py.get msg "content" (JStr "") ;;
  inner_ts <- Py.get msg "timestamp" (JStr "") ;;
  timestamp <- Py.get entry "timestamp" inner_ts ;;
  is_error <- Py.get msg "isError" (JBool false) ;;
  let t0 := Turn role timestamp [] [] [] is_error
              None None None None None None None in
  t1 <-
    (if Py.eq_str role "assistant" then
       usage <- Py.get msg "usage" (JDict []) ;;
       if Py.truthy usage then
         m <- Py.get msg "model" (JStr "") ;;
         p <- Py.get msg "provider" (JStr "") ;;
         sr <- Py.get msg "stopReason" (JStr "") ;;
         Ok (Turn role timestamp [] [] [] is_error
               (Some m) (Some p) (Some usage) (Some sr) None None None)
       else Ok t0
     else Ok t0) ;;
  seg <- generic_content content ;;
  let t2 := Turn role timestamp (seg_texts seg) (seg_tool_calls seg)
              (seg_thinking seg) is_error
              (model t1) (provider t1) (usage t1) (stop_reason t1)
              None None None in
  if Py.eq_str role "toolResult" then
    tcid <- Py.get msg "toolCallId" (JStr "") ;;
    tname <- Py.get msg "toolName" (JStr "") ;;
    result_content <- Py.get msg "content" (JStr "") ;;
    subagent <- extract_subagent_details msg ;;
    Ok (Turn role timestamp (result_texts result_content)
          (tool_calls t2) (thinking t2) is_error
          (model t2) (provider t2) (usage t2) (stop_reason t2)
          (Some tcid) (Some tname) subagent)
  else Ok t2.

Definition extract_turns (messages : list json) : result (list turn) :=
  Py.mapM extract_turn messages.

(** ** Standard output

    A printed line is kept as the sequence of pieces its f-string is made
    of: the literal text and [str] values as [Str], numbers with the format
    they are printed in. One [print] call is one [line]. *)

Inductive piece : Type :=
| Str (s : string)                (* literal text, or a computed [str] *)
| Glyph (name : string)           (* a status glyph, named *)
| Repr (v : json)                 (* [{v}]: [str(v)] of a session value *)
| ReprTake (n : nat) (v : json)   (* [{str(v)[:n]}] *)
| Int (z : Z)                     (* [{n}] of an [int] counter *)
| Fixed4 (width : nat) (q : Q)    (* [{q:>w.4f}], [w = 0] for [{q:.4f}] *)
| Grouped (width : nat) (q : Q)   (* [{n:>w,}], [w = 0] for [{n:,}] *)
| Padded (width : nat) (p : piece)      (* [{x:<w}], left-aligned *)
| PaddedRight (width : nat) (p : piece). (* [{x:>w}], right-aligned *)

Definition line : Type := list piece.

(** A computation that prints and may raise: the lines printed so far and
    either a value or the exception that ended it. *)
Definition out (A : Type) : Type := (list line * result A)%type.

Module Out.

Definition ret {A} (a : A) : out A := ([], Ok a).

Definition bind {A B} (c : out A) (k : A -> out B) : out B :=
  match c with
  | (o, Ok a) => let (o', r) := k a in ((o ++ o')%list, r)
  | (o, Raise e) => (o, Raise e)
  end.

Definition print (l : line) : out unit := ([l], Ok tt).

Definition lift {A} (r : result A) : out A := ([], r).

(** [for s in xs: print(f s)]. *)
Definition print_each {A} (f : A -> line) (xs : list A) : out unit :=
  (map f xs, Ok tt).

Definition stdout {A} (c : out A) : list line := fst c.
Definition outcome {A} (c : out A) : result A := snd c.

End Out.

Notation "x <~ c ;; k" := (Out.bind c (fun x => k))
  (at level 61, c at next level, right associativity) : py_scope.
Notation "' p <~ c ;; k" := (Out.bind c (fun p => k))
  (at level 61, p pattern, c at next level, right associativity) : py_scope.
Notation "c ;;; k" := (Out.bind c (fun _ => k))
  (at level 61, right associativity) : py_scope.

(** How an iteration of a [for] loop ends: it falls through or hits
    [continue] ([Next]), or it hits [break] ([Break]). *)
Inductive flow : Type := Next | Break.

(** [for x in xs: body], threading the loop's local variables. *)
Fixpoint for_each {S A} (body : S -> A -> out (S * flow)) (xs : list A)
  (s : S) : out S :=
  match xs with
  | [] => Out.ret s
  | x :: xs' =>
      ' (s', f) <~ body s x ;;
      match f with
      | Next => for_each body xs' s'
      | Break => Out.ret s'
      end
  end.

(** ** The offset/limit tests of the renderers *)

(** [if args.offset and turn_num <= args.offset: continue] *)
Definition before_window (a : args_t) (turn_num : Z) : bool :=
  negb (offset a =? 0) && (turn_num <=? offset a).

(** [if args.limit and turn_num > args.offset + args.limit: break] *)
Definition after_window (a : args_t) (turn_num : Z) : bool :=
  negb (limit a =? 0) && (turn_num >? offset a + limit a).

(** The two tests in sequence, in front of the block that prints. *)
Definition windowed {S} (a : args_t) (turn_num : Z) (s : S)
  (block : out S) : out (S * flow) :=
  if before_window a turn_num then Out.ret (s, Next)
  else if after_window a turn_num then Out.ret (s, Break)
  else s' <~ block ;; Out.ret (s', Next).

(** ** Formatting helpers *)

(** [int(q)]: truncation toward zero. *)
Definition Qtrunc (q : Q) : Z := Z.quot (Qnum q) (Zpos (Qden q)).

(** What [format_duration] does with the whole seconds [secs], a Python
    [int]: the test, [//] and [%] are exact integer operations. *)
Definition format_seconds (secs : Z) : list piece :=
  if secs <? 60 then [Int secs; Str "s"]
  else [Int (secs / 60); Str "m"; Int (secs mod 60); Str "s"].

(** [secs = int(ms / 1000)] is computed here on the exact quotient; the
    script divides in floating point, so for a duration too large for the
    quotient to be exact the seconds shown may differ from these. *)
Definition format_duration (ms : Q) : list piece :=
  format_seconds (Qtrunc (ms / 1000)).

(** [x == 0] for a session value. *)
Definition is_zero (x : json) : bool :=
  match x with
  | JNum q => Qeq_bool q 0
  | JBool b => negb b
  | _ => false
  end.

(** [v[:n].replace("\n", " ")] on a value expected to be a [str]: a list
    can be sliced but has no [replace]; a dict is looked up at the slice,
    which is none of its keys; nothing else can be subscripted. *)
Definition preview (n : nat) (v : json) : result string :=
  match v with
  | JStr s => Ok (PyStr.newlines_to_spaces (PyStr.take n s))
  | JList _ => Raise AttributeError
  | JDict _ => Raise KeyError
  | _ => Raise TypeError
  end.

(** [sep.join(texts)]: every element must be a [str]. *)
Definition join_texts (sep : string) (vs : list json) : result string :=
  ss <- Py.mapM Py.text vs ;; Ok (PyStr.join sep ss).

(** [sep.join(parts)] for parts that are formatted lines. *)
Fixpoint join_lines (sep : string) (parts : list line) : line :=
  match parts with
  | [] => []
  | [p] => p
  | p :: rest => (p ++ Str sep :: join_lines sep rest)%list
  end.

Definition nl : string := String "010"%char "".

(** The double quote character, as a [str]. *)
Definition dquote : string := String "034"%char "".

(** [q > 0] *)
Definition positive (q : Q) : bool := negb (Qle_bool q 0).

(** [x[key]] on a session value. *)
Definition py_item (x : json) (k : string) : result json :=
  match x with
  | JDict d =>
      match Py.lookup k d with
      | Some v => Ok v
      | None => Raise KeyError
      end
  | _ => Raise TypeError
  end.

(** A value under a format spec with [,] or [.4f]: numbers only. *)
Definition fmt_number (x : json) : result Q :=
  match x with
  | JStr _ => Raise ValueError
  | _ => Py.number x
  end.

(** A value under an alignment spec: [object.__format__] refuses one. *)
Definition fmt_padded (width : nat) (x : json) : result piece :=
  match x with
  | JStr _ | JNum _ | JBool _ => Ok (Padded width (Repr x))
  | _ => Raise TypeError
  end.

(** [s * n] for a one-character rule. *)
Fixpoint rule (c : ascii) (n : nat) : string :=
  match n with
  | O => ""
  | S n' => String c (rule c n')
  end.

(** ** [format_subagent_summary] *)

(** One iteration of [for r in results]: the running cost, the running
    duration and the lines collected so far. *)
Definition summary_run (acc : Q * Q * list line) (r : json)
  : result (Q * Q * list line) :=
  let '(total_cost, total_duration, parts) := acc in
  agent <- Py.get r "agent" (JStr "?") ;;
  exit_code <- Py.get r "exitCode" (JNum (-1)) ;;
  let status_icon := if is_zero exit_code then Glyph "ok" else Glyph "failed" in
  model <- Py.get r "model" (JStr "") ;;
  usage <- Py.get r "usage" (JDict []) ;;
  cost <- Py.get usage "cost" (JNum 0) ;;
  c <- Py.number cost ;;
  progress <- Py.get r "progressSummary" (JDict []) ;;
  duration <- Py.get progress "durationMs" (JNum 0) ;;
  d <- Py.number duration ;;
  tool_count <- Py.get progress "toolCount" (JNum 0) ;;
  task0 <- Py.get r "task" (JStr "") ;;
  task <- preview 100 task0 ;;
  let head := [Str "  "; status_icon; Str " "; Repr agent; Str " (";
               Repr model; Str "): "; Str task] in
  let detail := ([Str "    $"; Fixed4 0 c; Str " | "] ++ format_duration d
                 ++ [Str " | "; Repr tool_count; Str " tools"])%list in
  Ok ((total_cost + c)%Q, (total_duration + d)%Q,
      if Py.truthy cost || Py.truthy duration
      then (parts ++ [head; detail])%list
      else (parts ++ [head])%list).

Definition format_subagent_summary (details : json) : result line :=
  mode <- Py.get details "mode" (JStr "?") ;;
  results <- Py.get details "results" (JList []) ;;
  rs <- Py.iter results ;;
  ' (total_cost, total_duration, parts) <-
      Py.foldM summary_run rs (0%Q, 0%Q, []) ;;
  let header := ([Glyph "subagent"; Str " SUBAGENT ["; Repr mode; Str "] -- ";
                  Int (Z.of_nat (List.length rs)); Str " run(s), $";
                  Fixed4 0 total_cost; Str ", "]
                 ++ format_duration total_duration)%list in
  Ok (header ++ Str nl :: join_lines nl parts)%list.

(** ** The renderers *)

Section Renderers.

(** The library calls the script relies on: [json.loads] ([None] when it
    raises [JSONDecodeError]), [json.dumps], the [try] block of
    [format_timestamp] for a non-empty timestamp, and [Path.exists].
    [clock ts] is the time the [datetime] conversions give, or the fallback
    [str(ts)[:8]] when they raise one of the exceptions the [except] clause
    names; it is [Raise] for an exception the clause does not name, such as
    the [OverflowError] of [ts / 1000] or of [datetime.fromtimestamp] on a
    number out of range. *)
Variable json_loads : string -> option json.
Variable json_dumps : json -> string.
Variable clock : json -> result string.
Variable path_exists : string -> bool.

Definition format_timestamp (ts : json) : result string :=
  if negb (Py.truthy ts) then Ok "?" else clock ts.

(** [block] run for its output, the loop variables [s] unchanged. *)
Definition keep {S} (s : S) (block : out unit) : out S :=
  block ;;; Out.ret s.

(** [truncate(v, max_len)] inside an f-string, for a session value [v]
    that need not be a [str]: the test [max_len <= 0] comes first, then
    [len(v)], then the slice and the concatenation with the marker. *)
Definition truncate_value (v : json) (max_len : Z) : result piece :=
  match v with
  | JStr s => Ok (Str (truncate s max_len))
  | JList l =>
      if (max_len <=? 0) || (Z.of_nat (List.length l) <=? max_len)
      then Ok (Repr v) else Raise TypeError
  | JDict d =>
      if (max_len <=? 0) || (Z.of_nat (List.length d) <=? max_len)
      then Ok (Repr v) else Raise KeyError
  | _ => if max_len <=? 0 then Ok (Repr v) else Raise TypeError
  end.

(** [for text in vs: print(f"{prefix}{truncate(text, args.max_content)}")] *)
Fixpoint print_texts (a : args_t) (prefix : list piece) (vs : list json)
  : out unit :=
  match vs with
  | [] => Out.ret tt
  | v :: vs' =>
      p <~ Out.lift (truncate_value v (max_content a)) ;;
      Out.print (prefix ++ [p])%list ;;;
      print_texts a prefix vs'
  end.

(** *** [print_overview] *)

Definition overview_event (evt : json) : out unit :=
  ty <~ Out.lift (py_item evt "type") ;;
  if Py.eq_str ty "model_change" then
    p <~ Out.lift (Py.get evt "provider" (JStr "")) ;;
    m <~ Out.lift (Py.get evt "modelId" (JStr "")) ;;
    Out.print [Str "  Model:     "; Repr p; Str "/"; Repr m]
  else if Py.eq_str ty "thinking_level_change" then
    l <~ Out.lift (Py.get evt "thinkingLevel" (JStr "")) ;;
    Out.print [Str "  Thinking:  "; Repr l]
  else Out.ret tt.

Fixpoint overview_events (events : list json) : out unit :=
  match events with
  | [] => Out.ret tt
  | evt :: rest => overview_event evt ;;; overview_events rest
  end.

(** One iteration of the session cost loop:
    [(total_cost, total_input, total_output)]. *)
Definition overview_cost_step (acc : Q * Q * Q) (t : turn) : result (Q * Q * Q) :=
  let '(total_cost, total_input, total_output) := acc in
  let usage := opt_get (usage t) (JDict []) in
  cost <- Py.get usage "cost" (JDict []) ;;
  total <- Py.get cost "total" (JNum 0) ;;
  c <- Py.number total ;;
  input <- Py.get usage "input" (JNum 0) ;;
  i <- Py.number input ;;
  output <- Py.get usage "output" (JNum 0) ;;
  o <- Py.number output ;;
  Ok ((total_cost + c)%Q, (total_input + i)%Q, (total_output + o)%Q).

(** The session cost loop, from its initial state. *)
Definition overview_totals (turns : list turn) : result (Q * Q * Q) :=
  Py.foldM overview_cost_step turns (0%Q, 0%Q, 0%Q).

(** [subagent_cost += r.get("usage", {}).get("cost", 0)] *)
Definition subagent_cost_run (subagent_cost : Q) (r : json) : result Q :=
  u <- Py.get r "usage" (JDict []) ;;
  cost <- Py.get u "cost" (JNum 0) ;;
  c <- Py.number cost ;;
  Ok (subagent_cost + c)%Q.

(** One iteration of the subagent cost loop:
    [(subagent_cost, subagent_count)]. *)
Definition overview_subagent_step (acc : Q * Z) (t : turn) : result (Q * Z) :=
  let '(subagent_cost, subagent_count) := acc in
  let details := opt_get (subagent_details t) JNull in
  if Py.truthy details then
    results <- Py.get details "results" (JList []) ;;
    rs <- Py.iter results ;;
    sc <- Py.foldM subagent_cost_run rs subagent_cost ;;
    Ok (sc, subagent_count + 1)
  else Ok acc.

(** [sum(1 for t in turns if t["role"] == r)] *)
Definition count_role (r : string) (turns : list turn) : Z :=
  Z.of_nat (List.length (filter (fun t => Py.eq_str (role t) r) turns)).

Definition overview_user (ts : string) (turn_num : Z) (t : turn) : out unit :=
  joined <~ Out.lift (join_texts " " (texts t)) ;;
  let text := PyStr.newlines_to_spaces (PyStr.take 200 joined) in
  Out.print [Str nl; Str "["; Str ts; Str "] "; Glyph "user"; Str " USER #";
             Int turn_num; Str ": "; Str text].

Definition overview_assistant (ts : string) (t : turn) : out unit :=
  parts1 <~ Out.lift
    (match texts t with
     | [] => Ok []
     | first :: _ =>
         text_preview <- preview 150 first ;;
         Ok [dquote ++ text_preview ++ dquote]
     end) ;;
  parts2 <~ Out.lift
    (match tool_calls t with
     | [] => Ok parts1
     | _ :: _ =>
         names <- join_texts ", " (map tc_name (tool_calls t)) ;;
         Ok (parts1 ++ [("tools: [" ++ names ++ "]")%string])%list
     end) ;;
  let usage := opt_get (usage t) (JDict []) in
  cost <~ Out.lift (Py.get usage "cost" (JDict [])) ;;
  total <~ Out.lift (Py.get cost "total" JNull) ;;
  cost_str <~ Out.lift
    (if Py.truthy total
     then c <- fmt_number total ;; Ok [Str " ($"; Fixed4 0 c; Str ")"]
     else Ok []) ;;
  let summary := match parts2 with
                 | [] => "(empty)"
                 | _ :: _ => PyStr.join " | " parts2
                 end in
  Out.print ([Str "["; Str ts; Str "] "; Glyph "assistant"; Str " ASSISTANT: ";
              Str summary] ++ cost_str)%list.

Definition overview_result (ts : string) (t : turn) : out unit :=
  let details := opt_get (subagent_details t) JNull in
  if Py.truthy details then
    summary <~ Out.lift (format_subagent_summary details) ;;
    Out.print ([Str "["; Str ts; Str "]   "] ++ summary)%list
  else
    text <~ Out.lift (join_texts " " (texts t)) ;;
    let preview := if negb (String.eqb text "")
                   then PyStr.newlines_to_spaces (PyStr.take 100 text)
                   else "(empty)" in
    let err := if Py.truthy (is_error t) then [Str " "; Glyph "failed"] else [] in
    Out.print ([Str "["; Str ts; Str "]   "; Glyph "result"; Str " ";
                Repr (opt_get (tool_name t) (JStr "?"))] ++ err
               ++ [Str ": "; Str preview])%list.

(** The body of the turn summary loop; the loop variable is [turn_num].
    The timestamp is formatted first, for every turn. *)
Definition overview_body (a : args_t) (turn_num : Z) (t : turn)
  : out (Z * flow) :=
  ts <~ Out.lift (format_timestamp (timestamp t)) ;;
  if Py.eq_str (role t) "user" then
    let turn_num := turn_num + 1 in
    windowed a turn_num turn_num (keep turn_num (overview_user ts turn_num t))
  else if Py.eq_str (role t) "assistant" then
    windowed a turn_num turn_num (keep turn_num (overview_assistant ts t))
  else if Py.eq_str (role t) "toolResult" then
    windowed a turn_num turn_num (keep turn_num (overview_result ts t))
  else Out.ret (turn_num, Next).

(** The header of the overview: metadata, events, cost summary, counts. *)
Definition overview_header (metadata : json) (events : list json)
  (turns : list turn) : out unit :=
  Out.print [Str (rule "=" 70)] ;;;
  Out.print [Str "SESSION OVERVIEW"] ;;;
  Out.print [Str (rule "=" 70)] ;;;
  id <~ Out.lift (Py.get metadata "id" (JStr "N/A")) ;;
  Out.print [Str "  ID:        "; Repr id] ;;;
  cwd <~ Out.lift (Py.get metadata "cwd" (JStr "N/A")) ;;
  Out.print [Str "  CWD:       "; Repr cwd] ;;;
  started <~ Out.lift (Py.get metadata "timestamp" (JStr "N/A")) ;;
  Out.print [Str "  Started:   "; Repr started] ;;;
  version <~ Out.lift (Py.get metadata "version" (JStr "N/A")) ;;
  Out.print [Str "  Version:   "; Repr version] ;;;
  overview_events events ;;;
  ' (total_cost, total_input, total_output) <~
      Out.lift (overview_totals turns) ;;
  ' (subagent_cost, subagent_count) <~
      Out.lift (Py.foldM overview_subagent_step turns (0%Q, 0)) ;;
  (if positive total_cost then
     Out.print [Str "  Session cost: $"; Fixed4 0 total_cost] ;;;
     Out.print [Str "  Session tokens: ";
                Grouped 0 (total_input + total_output)%Q; Str " (in:";
                Grouped 0 total_input; Str " out:"; Grouped 0 total_output;
                Str ")"]
   else Out.ret tt) ;;;
  (if positive subagent_cost then
     Out.print [Str "  Subagent cost:  $"; Fixed4 0 subagent_cost; Str " (";
                Int subagent_count; Str " invocations)"] ;;;
     Out.print [Str "  TOTAL cost:     $";
                Fixed4 0 (total_cost + subagent_cost)%Q]
   else Out.ret tt) ;;;
  Out.print [Str "  Turns:     "; Int (Z.of_nat (List.length turns));
             Str " total ("; Int (count_role "user" turns); Str " user, ";
             Int (count_role "assistant" turns); Str " assistant, ";
             Int (count_role "toolResult" turns); Str " tool results)"] ;;;
  (if negb (subagent_count =? 0) then
     Out.print [Str "  Subagent invocations: "; Int subagent_count]
   else Out.ret tt) ;;;
  Out.print [] ;;;
  Out.print [Str (rule "-" 70)] ;;;
  Out.print [Str "TURN SUMMARY"] ;;;
  Out.print [Str (rule "-" 70)].

Definition print_overview (metadata : json) (events : list json)
  (turns : list turn) (a : args_t) : out unit :=
  overview_header metadata events turns ;;;
  _ <~ for_each (overview_body a) turns 0 ;;
  Out.ret tt.

(** *** [print_conversation] *)

Definition conversation_user (a : args_t) (t : turn) : out unit :=
  ts <~ Out.lift (format_timestamp (timestamp t)) ;;
  Out.print [Str nl; Str (rule "-" 50)] ;;;
  Out.print [Glyph "user"; Str " USER ["; Str ts; Str "]"] ;;;
  Out.print [Str (rule "-" 50)] ;;;
  print_texts a [] (texts t).

Definition conversation_assistant (a : args_t) (t : turn) : out unit :=
  ts <~ Out.lift (format_timestamp (timestamp t)) ;;
  Out.print [Str nl; Glyph "assistant"; Str " ASSISTANT ["; Str ts; Str "]"] ;;;
  print_texts a [] (texts t).

Definition conversation_result (t : turn) : out unit :=
  details <~ Out.lift (opt_item (subagent_details t)) ;;
  summary <~ Out.lift (format_subagent_summary details) ;;
  Out.print (Str nl :: summary).

Definition nonempty {A} (l : list A) : bool :=
  match l with [] => false | _ :: _ => true end.

Definition conversation_body (a : args_t) (turn_num : Z) (t : turn)
  : out (Z * flow) :=
  if Py.eq_str (role t) "user" then
    let turn_num := turn_num + 1 in
    windowed a turn_num turn_num (keep turn_num (conversation_user a t))
  else if Py.eq_str (role t) "assistant" && nonempty (texts t) then
    windowed a turn_num turn_num (keep turn_num (conversation_assistant a t))
  else if Py.eq_str (role t) "toolResult"
          && Py.truthy (opt_get (subagent_details t) JNull) then
    windowed a turn_num turn_num (keep turn_num (conversation_result t))
  else Out.ret (turn_num, Next).

Definition print_conversation (turns : list turn) (a : args_t) : out unit :=
  Out.print [Str (rule "=" 70)] ;;;
  Out.print [Str "CONVERSATION"] ;;;
  Out.print [Str (rule "=" 70)] ;;;
  _ <~ for_each (conversation_body a) turns 0 ;;
  Out.ret tt.

(** *** [print_full] *)

Definition full_user (a : args_t) (ts : string) (t : turn) : out unit :=
  Out.print [Str nl; Str (rule "=" 60)] ;;;
  Out.print [Glyph "user"; Str " USER ["; Str ts; Str "]"] ;;;
  Out.print [Str (rule "=" 60)] ;;;
  print_texts a [] (texts t).

Fixpoint full_tool_calls (a : args_t) (tcs : list tool_call) : out unit :=
  match tcs with
  | [] => Out.ret tt
  | tc :: rest =>
      let args_str := json_dumps (tc_arguments tc) in
      Out.print [Str nl; Str "  "; Glyph "tool"; Str " TOOL CALL: ";
                 Repr (tc_name tc)] ;;;
      Out.print [Str "     "; Str (truncate args_str (max_content a))] ;;;
      full_tool_calls a rest
  end.

Definition full_assistant (a : args_t) (ts : string) (t : turn) : out unit :=
  let model := opt_get (model t) (JStr "") in
  Out.print ([Str nl; Glyph "assistant"; Str " ASSISTANT ["; Str ts; Str "]"]
             ++ (if Py.truthy model then [Str " ("; Repr model; Str ")"]
                 else []))%list ;;;
  print_texts a [Str "  "; Glyph "thinking"; Str " THINKING: "] (thinking t) ;;;
  print_texts a [] (texts t) ;;;
  full_tool_calls a (tool_calls t).

(** The drill-down paths of one run result. *)
Definition full_artifacts (r : json) : out unit :=
  ap <~ Out.lift (Py.get r "artifactPaths" (JDict [])) ;;
  sf <~ Out.lift (Py.get r "sessionFile" (JStr "")) ;;
  (if Py.truthy sf
   then Out.print [Str "    "; Glyph "folder"; Str " session: "; Repr sf]
   else Out.ret tt) ;;;
  jp <~ Out.lift (Py.get ap "jsonlPath" JNull) ;;
  (if Py.truthy jp
   then Out.print [Str "    "; Glyph "folder"; Str " artifact jsonl: "; Repr jp]
   else Out.ret tt) ;;;
  op <~ Out.lift (Py.get ap "outputPath" JNull) ;;
  (if Py.truthy op
   then Out.print [Str "    "; Glyph "folder"; Str " output: "; Repr op]
   else Out.ret tt).

Fixpoint full_artifacts_all (rs : list json) : out unit :=
  match rs with
  | [] => Out.ret tt
  | r :: rest => full_artifacts r ;;; full_artifacts_all rest
  end.

Definition full_result (a : args_t) (t : turn) : out unit :=
  let details := opt_get (subagent_details t) JNull in
  if Py.truthy details then
    summary <~ Out.lift (format_subagent_summary details) ;;
    Out.print ([Str nl; Str "  "] ++ summary)%list ;;;
    results <~ Out.lift (Py.get details "results" (JList [])) ;;
    rs <~ Out.lift (Py.iter results) ;;
    full_artifacts_all rs
  else
    let err := if Py.truthy (is_error t)
               then [Str " "; Glyph "failed"; Str " ERROR"] else [] in
    Out.print ([Str nl; Str "  "; Glyph "result"; Str " RESULT (";
                Repr (opt_get (tool_name t) (JStr "?")); Str ")"] ++ err
               ++ [Str ":"])%list ;;;
    print_texts a [Str "     "] (texts t).

(** The timestamp is formatted first, for every turn. *)
Definition full_body (a : args_t) (turn_num : Z) (t : turn)
  : out (Z * flow) :=
  ts <~ Out.lift (format_timestamp (timestamp t)) ;;
  if Py.eq_str (role t) "user" then
    let turn_num := turn_num + 1 in
    windowed a turn_num turn_num (keep turn_num (full_user a ts t))
  else if Py.eq_str (role t) "assistant" then
    windowed a turn_num turn_num (keep turn_num (full_assistant a ts t))
  else if Py.eq_str (role t) "toolResult" then
    windowed a turn_num turn_num (keep turn_num (full_result a t))
  else Out.ret (turn_num, Next).

Definition print_full (turns : list turn) (a : args_t) : out unit :=
  Out.print [Str (rule "=" 70)] ;;;
  Out.print [Str "FULL SESSION"] ;;;
  Out.print [Str (rule "=" 70)] ;;;
  _ <~ for_each (full_body a) turns 0 ;;
  Out.ret tt.

(** *** [print_tools] *)

(** [for tc in turn["tool_calls"]], numbering the calls. *)
Fixpoint tools_calls (a : args_t) (ts : string) (tool_num : Z)
  (tcs : list tool_call) : out Z :=
  match tcs with
  | [] => Out.ret tool_num
  | tc :: rest =>
      let tool_num := tool_num + 1 in
      let args_str := json_dumps (tc_arguments tc) in
      Out.print [Str nl; Str "["; Str ts; Str "] #"; Int tool_num; Str " ";
                 Repr (tc_name tc)] ;;;
      Out.print [Str "  args: "; Str (truncate args_str (max_content a))] ;;;
      tools_calls a ts tool_num rest
  end.

(** The displayed text of a result that is not a subagent's. *)
Definition tools_result_text (a : args_t) (t : turn) : result string :=
  text <- join_texts " " (texts t) ;;
  Ok (truncate text (Z.min (max_content a) 500)).

Definition tools_result (a : args_t) (t : turn) : out unit :=
  let details := opt_get (subagent_details t) JNull in
  if Py.truthy details then
    summary <~ Out.lift (format_subagent_summary details) ;;
    Out.print (Str "  " :: summary)
  else
    let err := if Py.truthy (is_error t) then [Str " "; Glyph "failed"]
               else [Str " "; Glyph "ok"] in
    shown <~ Out.lift (tools_result_text a t) ;;
    Out.print ([Str "  result"] ++ err ++ [Str ": "; Str shown])%list.

(** The loop variables are [(turn_num, tool_num)]. *)
Definition tools_body (a : args_t) (st : Z * Z) (t : turn)
  : out (Z * Z * flow) :=
  let '(turn_num, tool_num) := st in
  let turn_num := if Py.eq_str (role t) "user" then turn_num + 1
                  else turn_num in
  if Py.eq_str (role t) "assistant" && nonempty (tool_calls t) then
    windowed a turn_num (turn_num, tool_num)
      (ts <~ Out.lift (format_timestamp (timestamp t)) ;;
       n <~ tools_calls a ts tool_num (tool_calls t) ;;
       Out.ret (turn_num, n))
  else if Py.eq_str (role t) "toolResult" then
    windowed a turn_num (turn_num, tool_num)
      (keep (turn_num, tool_num) (tools_result a t))
  else Out.ret (turn_num, tool_num, Next).

Definition print_tools (turns : list turn) (a : args_t) : out unit :=
  Out.print [Str (rule "=" 70)] ;;;
  Out.print [Str "TOOL CALLS"] ;;;
  Out.print [Str (rule "=" 70)] ;;;
  _ <~ for_each (tools_body a) turns (0, 0) ;;
  Out.ret tt.

(** *** [print_costs] *)

(** The row of one assistant turn; returns the new [total_cost]. *)
Definition costs_row (total_cost : Q) (assistant_num : Z) (t : turn)
  : out Q :=
  usage <~ Out.lift (opt_item (usage t)) ;;
  cost <~ Out.lift (Py.get usage "cost" (JDict [])) ;;
  total <~ Out.lift (Py.get cost "total" (JNum 0)) ;;
  c <~ Out.lift (Py.number total) ;;
  let total_cost := (total_cost + c)%Q in
  ts <~ Out.lift (format_timestamp (timestamp t)) ;;
  let model := opt_get (model t) (JStr "?") in
  m <~ Out.lift (fmt_padded 30 model) ;;
  input <~ Out.lift (Py.get usage "input" (JNum 0)) ;;
  i <~ Out.lift (fmt_number input) ;;
  output <~ Out.lift (Py.get usage "output" (JNum 0)) ;;
  o <~ Out.lift (fmt_number output) ;;
  cache <~ Out.lift (Py.get usage "cacheRead" (JNum 0)) ;;
  r <~ Out.lift (fmt_number cache) ;;
  Out.print [Padded 4 (Int assistant_num); Str " "; Padded 10 (Str ts);
             Str " "; m; Str " "; Grouped 8 i; Str " "; Grouped 8 o; Str " ";
             Grouped 8 r; Str " $"; Fixed4 9 c] ;;;
  Out.ret total_cost.

(** The loop variables are [(total_cost, turn_num, assistant_num)]. *)
Definition costs_body (a : args_t) (st : Q * Z * Z) (t : turn)
  : out (Q * Z * Z * flow) :=
  let '(total_cost, turn_num, assistant_num) := st in
  let turn_num := if Py.eq_str (role t) "user" then turn_num + 1
                  else turn_num in
  if negb (Py.eq_str (role t) "assistant")
     || negb (Py.truthy (opt_get (usage t) JNull))
  then Out.ret (total_cost, turn_num, assistant_num, Next)
  else
    let assistant_num := assistant_num + 1 in
    windowed a turn_num (total_cost, turn_num, assistant_num)
      (c <~ costs_row total_cost assistant_num t ;;
       Out.ret (c, turn_num, assistant_num)).

(** The row of one subagent run: [(subagent_cost, sub_num)]. *)
Definition costs_subagent_run (st : Q * Z) (r : json) : out (Q * Z) :=
  let '(subagent_cost, sub_num) := st in
  let sub_num := sub_num + 1 in
  usage <~ Out.lift (Py.get r "usage" (JDict [])) ;;
  cost <~ Out.lift (Py.get usage "cost" (JNum 0)) ;;
  c <~ Out.lift (Py.number cost) ;;
  let subagent_cost := (subagent_cost + c)%Q in
  model <~ Out.lift (Py.get r "model" (JStr "?")) ;;
  agent <~ Out.lift (Py.get r "agent" (JStr "?")) ;;
  progress <~ Out.lift (Py.get r "progressSummary" (JDict [])) ;;
  tokens_in <~ Out.lift (Py.get usage "input" (JNum 0)) ;;
  tokens_out <~ Out.lift (Py.get usage "output" (JNum 0)) ;;
  cache <~ Out.lift (Py.get usage "cacheRead" (JNum 0)) ;;
  ag <~ Out.lift (Py.text agent) ;;
  md <~ Out.lift (Py.text model) ;;
  i <~ Out.lift (fmt_number tokens_in) ;;
  o <~ Out.lift (fmt_number tokens_out) ;;
  ch <~ Out.lift (fmt_number cache) ;;
  Out.print [Padded 4 (Str ("S" ++ PyStr.of_nat (Z.to_nat sub_num))); Str " ";
             Padded 10 (Str "subagent"); Str " ";
             Padded 30 (Str (ag ++ "/" ++ md)); Str " "; Grouped 8 i; Str " ";
             Grouped 8 o; Str " "; Grouped 8 ch; Str " $"; Fixed4 9 c] ;;;
  Out.ret (subagent_cost, sub_num).

Fixpoint costs_subagent_runs (st : Q * Z) (rs : list json) : out (Q * Z) :=
  match rs with
  | [] => Out.ret st
  | r :: rest => st' <~ costs_subagent_run st r ;; costs_subagent_runs st' rest
  end.

Definition costs_subagent_body (st : Q * Z) (t : turn) : out (Q * Z * flow) :=
  let details := opt_get (subagent_details t) JNull in
  if negb (Py.truthy details) then Out.ret (st, Next)
  else
    results <~ Out.lift (Py.get details "results" (JList [])) ;;
    rs <~ Out.lift (Py.iter results) ;;
    st' <~ costs_subagent_runs st rs ;;
    Out.ret (st', Next).

(** The windowed loop over the assistant turns, from its initial state. *)
Definition costs_rows (turns : list turn) (a : args_t) : out (Q * Z * Z) :=
  for_each (costs_body a) turns (0%Q, 0, 0).

Definition print_costs (turns : list turn) (a : args_t) : out unit :=
  Out.print [Str (rule "=" 70)] ;;;
  Out.print [Str "COST BREAKDOWN"] ;;;
  Out.print [Str (rule "=" 70)] ;;;
  Out.print [Padded 4 (Str "#"); Str " "; Padded 10 (Str "Time"); Str " ";
             Padded 30 (Str "Model"); Str " "; PaddedRight 8 (Str "In");
             Str " "; PaddedRight 8 (Str "Out"); Str " ";
             PaddedRight 8 (Str "Cache"); Str " ";
             PaddedRight 10 (Str "Cost")] ;;;
  Out.print [Str (rule "-" 80)] ;;;
  ' (total_cost, _, _) <~ costs_rows turns a ;;
  ' (subagent_cost, _) <~ for_each costs_subagent_body turns (0%Q, 0) ;;
  Out.print [Str (rule "-" 80)] ;;;
  let grand_total := (total_cost + subagent_cost)%Q in
  (if positive subagent_cost then
     Out.print [Padded 54 (Str "SESSION"); Str " $"; Fixed4 9 total_cost] ;;;
     Out.print [Padded 54 (Str "SUBAGENTS"); Str " $"; Fixed4 9 subagent_cost]
   else Out.ret tt) ;;;
  Out.print [Padded 54 (Str "TOTAL"); Str " $"; Fixed4 9 grand_total].

(** *** [print_subagents] *)

(** [range(start, stop, -1)] *)
Definition range_down (start stop : Z) : list Z :=
  map (fun k => start - Z.of_nat k) (seq 0 (Z.to_nat (start - stop))).

(** The inner [for item in prev_content], left by [break] at the first
    [subagent] toolCall: the arguments of that item, if there is one. *)
Fixpoint subagent_call_in (items : list json) : option json :=
  match items with
  | [] => None
  | JDict d :: rest =>
      if Py.eq_str (Py.dict_get d "type" JNull) "toolCall"
         && Py.eq_str (Py.dict_get d "name" JNull) "subagent"
      then Some (Py.dict_get d "arguments" (JDict []))
      else subagent_call_in rest
  | _ :: rest => subagent_call_in rest
  end.

(** One iteration of [for j in range(i - 1, max(i - 5, -1), -1)]; the loop
    variable is [call_args]. *)
Definition lookback_step (messages : list json) (call_args : json) (j : Z)
  : result json :=
  match nth_error messages (Z.to_nat j) with
  | None => Raise IndexError
  | Some entry =>
      prev_msg <- Py.get entry "message" (JDict []) ;;
      prev_content <- Py.get prev_msg "content" (JList []) ;;
      match prev_content with
      | JList items =>
          match subagent_call_in items with
          | Some arguments => Ok arguments
          | None => Ok call_args
          end
      | _ => Ok call_args
      end
  end.

(** The arguments recovered for the toolResult at index [i]. *)
Definition find_call_args (messages : list json) (i : Z) : result json :=
  Py.foldM (lookback_step messages)
    (range_down (i - 1) (Z.max (i - 5) (-1))) (JDict []).

(** [len(v)] *)
Definition py_len (v : json) : result Z :=
  match v with
  | JList l => Ok (Z.of_nat (List.length l))
  | JDict d => Ok (Z.of_nat (List.length d))
  | JStr s => Ok (Z.of_nat (String.length s))
  | _ => Raise TypeError
  end.

(** One line of the chain or task plan. *)
Definition plan_step (step : json) : out unit :=
  agent <~ Out.lift (Py.get step "agent" (JStr "?")) ;;
  task <~ Out.lift (Py.get step "task" (JStr "")) ;;
  Out.print [Str "    "; Glyph "arrow"; Str " "; Repr agent; Str ": ";
             ReprTake 120 task].

Fixpoint plan_steps (steps : list json) : out unit :=
  match steps with
  | [] => Out.ret tt
  | s :: rest => plan_step s ;;; plan_steps rest
  end.

Definition print_plan (call_args : json) : out unit :=
  chain <~ Out.lift (Py.get call_args "chain" JNull) ;;
  if Py.truthy chain then
    n <~ Out.lift (py_len chain) ;;
    Out.print [Str "  Chain steps: "; Int n] ;;;
    steps <~ Out.lift (Py.iter chain) ;;
    plan_steps steps
  else
    tasks <~ Out.lift (Py.get call_args "tasks" JNull) ;;
    if Py.truthy tasks then
      n <~ Out.lift (py_len tasks) ;;
      Out.print [Str "  Parallel tasks: "; Int n] ;;;
      steps <~ Out.lift (Py.iter tasks) ;;
      plan_steps steps
    else Out.ret tt.

(** [Path(p).exists()] and the marker it selects. *)
Definition deleted_marker (p : json) : result (list piece) :=
  s <- Py.text p ;;
  Ok (if path_exists s then [] else [Str " (deleted)"]).

(** One iteration of [for r in results]:
    [(sub_num, total_cost, total_duration)]. *)
Definition subagents_run (st : Z * Q * Q) (r : json) : out (Z * Q * Q) :=
  let '(sub_num, total_cost, total_duration) := st in
  let sub_num := sub_num + 1 in
  agent <~ Out.lift (Py.get r "agent" (JStr "?")) ;;
  exit_code <~ Out.lift (Py.get r "exitCode" (JNum (-1))) ;;
  let status := if is_zero exit_code then [Glyph "ok"; Str " completed"]
                else [Glyph "failed"; Str " failed"] in
  model <~ Out.lift (Py.get r "model" (JStr "")) ;;
  usage <~ Out.lift (Py.get r "usage" (JDict [])) ;;
  cost <~ Out.lift (Py.get usage "cost" (JNum 0)) ;;
  c <~ Out.lift (Py.number cost) ;;
  turns_count <~ Out.lift (Py.get usage "turns" (JNum 0)) ;;
  progress <~ Out.lift (Py.get r "progressSummary" (JDict [])) ;;
  duration <~ Out.lift (Py.get progress "durationMs" (JNum 0)) ;;
  d <~ Out.lift (Py.number duration) ;;
  tool_count <~ Out.lift (Py.get progress "toolCount" (JNum 0)) ;;
  skills <~ Out.lift (Py.get r "skills" (JList [])) ;;
  task <~ Out.lift (Py.get r "task" (JStr "")) ;;
  session_file <~ Out.lift (Py.get r "sessionFile" (JStr "")) ;;
  artifact_paths <~ Out.lift (Py.get r "artifactPaths" (JDict [])) ;;
  Out.print [Str nl; Str "  -- Run #"; Int sub_num; Str ": "; Repr agent;
             Str " --"] ;;;
  Out.print (Str "  Status:   " :: status) ;;;
  Out.print [Str "  Model:    "; Repr model] ;;;
  task_text <~ Out.lift
    (match task with JStr s => Ok s | _ => Raise AttributeError end) ;;
  Out.print [Str "  Task:     ";
             Str (truncate (PyStr.newlines_to_spaces task_text) 300)] ;;;
  (if Py.truthy skills then
     names <~ Out.lift (items <- Py.iter skills ;; join_texts ", " items) ;;
     Out.print [Str "  Skills:   "; Str names]
   else Out.ret tt) ;;;
  Out.print [Str "  Cost:     $"; Fixed4 0 c] ;;;
  Out.print (Str "  Duration: " :: format_duration d) ;;;
  input <~ Out.lift (Py.get usage "input" (JNum 0)) ;;
  i <~ Out.lift (fmt_number input) ;;
  output <~ Out.lift (Py.get usage "output" (JNum 0)) ;;
  o <~ Out.lift (fmt_number output) ;;
  cache <~ Out.lift (Py.get usage "cacheRead" (JNum 0)) ;;
  ch <~ Out.lift (fmt_number cache) ;;
  Out.print [Str "  Tokens:   "; Grouped 0 i; Str " in / "; Grouped 0 o;
             Str " out / "; Grouped 0 ch; Str " cached"] ;;;
  Out.print [Str "  Tools:    "; Repr tool_count; Str " calls in ";
             Repr turns_count; Str " turns"] ;;;
  (if Py.truthy session_file then
     marker <~ Out.lift (deleted_marker session_file) ;;
     Out.print ([Str "  Session:  "; Repr session_file] ++ marker)%list
   else Out.ret tt) ;;;
  jp <~ Out.lift (Py.get artifact_paths "jsonlPath" JNull) ;;
  (if Py.truthy jp then
     marker <~ Out.lift (deleted_marker jp) ;;
     Out.print ([Str "  JSONL:    "; Repr jp] ++ marker)%list
   else Out.ret tt) ;;;
  op <~ Out.lift (Py.get artifact_paths "outputPath" JNull) ;;
  (if Py.truthy op then
     marker <~ Out.lift (deleted_marker op) ;;
     Out.print ([Str "  Output:   "; Repr op] ++ marker)%list
   else Out.ret tt) ;;;
  Out.ret (sub_num, (total_cost + c)%Q, (total_duration + d)%Q).

Fixpoint subagents_runs (st : Z * Q * Q) (rs : list json) : out (Z * Q * Q) :=
  match rs with
  | [] => Out.ret st
  | r :: rest => st' <~ subagents_run st r ;; subagents_runs st' rest
  end.

(** The block printed for one invocation; returns the new [sub_num]. *)
Definition subagents_invocation (messages : list json) (i : Z)
  (details : json) (sub_num : Z) : out Z :=
  mode <~ Out.lift (Py.get details "mode" (JStr "?")) ;;
  results <~ Out.lift (Py.get details "results" (JList [])) ;;
  artifacts <~ Out.lift (Py.get details "artifacts" (JDict [])) ;;
  call_args <~ Out.lift (find_call_args messages i) ;;
  Out.print [Str nl; Str (rule "=" 60)] ;;;
  Out.print [Str "INVOCATION #"; Int (sub_num + 1); Str " -- mode: ";
             Repr mode] ;;;
  Out.print [Str (rule "=" 60)] ;;;
  print_plan call_args ;;;
  rs <~ Out.lift (Py.iter results) ;;
  ' (sub_num', total_cost, total_duration) <~
      subagents_runs (sub_num, 0%Q, 0%Q) rs ;;
  n <~ Out.lift (py_len results) ;;
  (if n >? 1 then
     Out.print ([Str nl; Str "  Combined: $"; Fixed4 0 total_cost; Str " | "]
                ++ format_duration total_duration)%list
   else Out.ret tt) ;;;
  Out.ret sub_num'.

(** The body of [for i, entry in enumerate(messages)]; the loop variables
    are [(sub_num, found_any)]. *)
Definition subagents_body (messages : list json) (st : Z * bool)
  (ie : Z * json) : out (Z * bool * flow) :=
  let '(sub_num, found_any) := st in
  let '(i, entry) := ie in
  msg <~ Out.lift (Py.get entry "message" (JDict [])) ;;
  details <~ Out.lift (extract_subagent_details msg) ;;
  match details with
  | None => Out.ret (sub_num, found_any, Next)
  | Some d =>
      n <~ subagents_invocation messages i d sub_num ;;
      Out.ret (n, true, Next)
  end.

(** [enumerate(xs)] *)
Definition enumerate {A} (xs : list A) : list (Z * A) :=
  combine (map Z.of_nat (seq 0 (List.length xs))) xs.

Definition print_subagents (turns : list turn) (messages : list json)
  (a : args_t) : out unit :=
  Out.print [Str (rule "=" 70)] ;;;
  Out.print [Str "SUBAGENT RUNS"] ;;;
  Out.print [Str (rule "=" 70)] ;;;
  ' (_, found_any) <~
      for_each (subagents_body messages) (enumerate messages) (0, false) ;;
  if negb found_any
  then Out.print [Str nl; Str "  No subagent invocations found in this session."]
  else Out.ret tt.

(** ** [parse_session] *)

(** One iteration of [for line in f]; the loop variables are
    [(metadata, events, messages)]. *)
Definition parse_line (st : json * list json * list json) (line : string)
  : result (json * list json * list json) :=
  let '(metadata, events, messages) := st in
  let line := PyStr.strip line in
  if String.eqb line "" then Ok st
  else
    match json_loads line with
    | None => Raise JSONDecodeError
    | Some obj =>
        t <- Py.get obj "type" JNull ;;
        if Py.eq_str t "session" then Ok (obj, events, messages)
        else if Py.eq_str t "model_change"
                || Py.eq_str t "thinking_level_change"
        then Ok (metadata, (events ++ [obj])%list, messages)
        else if Py.eq_str t "message"
        then Ok (metadata, events, (messages ++ [obj])%list)
        else Ok st
    end.

(** The session file is the list of its lines. *)
Definition parse_session (file : list string)
  : result (json * list json * list json) :=
  Py.foldM parse_line file (JDict [], [], []).

(** ** [main]

    [file] is [None] when the path does not exist: the diagnostic goes to
    standard error and the process exits with status 1. *)
Definition main (file : option (list string)) (a : args_t) : out unit :=
  match file with
  | None => ([], Raise SystemExit)
  | Some lines =>
      ' (metadata, events, messages) <~ Out.lift (parse_session lines) ;;
      turns <~ Out.lift (extract_turns messages) ;;
      match mode a with
      | Overview => print_overview metadata events turns a
      | Conversation => print_conversation turns a
      | Full => print_full turns a
      | Tools => print_tools turns a
      | Costs => print_costs turns a
      | Subagents => print_subagents turns messages a
      end
  end.

End Renderers.

(** ** The specification's vocabulary

    The definitions below follow the words of the specification; the
    theorems compare them with the code above. *)

Definition is_user (t : turn) : bool := Py.eq_str (role t) "user".
Definition is_assistant (t : turn) : bool := Py.eq_str (role t) "assistant".
Definition is_tool_result (t : turn) : bool := Py.eq_str (role t) "toolResult".

(** A role that is none of [user], [assistant], [toolResult]. *)
Definition other_role (t : turn) : bool :=
  negb (is_user t) && negb (is_assistant t) && negb (is_tool_result t).

(** The number of the nearest user turn, scanning backward from the turn
    ([recent] lists the preceding turns, the nearest first): a user turn's
    number is its 1-based rank among the user turns; 0 when none precedes. *)
Fixpoint nearest_user_number (recent : list turn) : Z :=
  match recent with
  | [] => 0
  | t :: earlier =>
      if is_user t then 1 + count_role "user" earlier
      else nearest_user_number earlier
  end.

(** The turn number of [t], the turns [before] it given in file order. *)
Definition turn_number (before : list turn) (t : turn) : Z :=
  if is_user t then 1 + count_role "user" before
  else nearest_user_number (rev before).

(** The window as the specification writes it. *)
Definition claimed_window (offset limit n : Z) : bool :=
  (n >? offset) && ((limit =? 0) || (n <=? offset + limit)).

(** The window with offset 0 imposing no lower bound at all. *)
Definition shown_window (offset limit n : Z) : bool :=
  ((offset =? 0) || (n >? offset)) && ((limit =? 0) || (n <=? offset + limit)).

(** A turn number that is not below the window and is past its upper
    bound. *)
Definition past_window (offset limit n : Z) : bool :=
  ((offset =? 0) || (n >? offset)) && negb (limit =? 0)
  && (n >? offset + limit).

(** A loop step [step] taken in state [s] is windowed under the number [k]:
    below the window (a lower bound exists only for a non-zero offset) it
    does nothing and the loop goes on; inside the lower bound and past the
    upper one (which exists only for a non-zero limit) it does nothing and
    the loop ends; inside the window it is [shown]. *)
Definition windowed_under {S} (offset limit k : Z) (s : S)
  (shown step : out (S * flow)) : Prop :=
  (offset <> 0 /\ k <= offset -> step = Out.ret (s, Next))
  /\ (offset = 0 \/ offset < k ->
      limit <> 0 /\ offset + limit < k -> step = Out.ret (s, Break))
  /\ (offset = 0 \/ offset < k ->
      limit = 0 \/ k <= offset + limit -> step = shown).

(** What a loop printed and how it ended, its variables forgotten. *)
Definition printed {S} (c : out S) : out unit := c ;;; Out.ret tt.

(** A windowed view as the specification describes it. The view goes
    through the turns in order; every turn has its turn number. For each
    turn it comes to, the view first does [guard] (which may raise, ending
    the view). A turn the view has a block for is displayed exactly when
    the window predicate [P] holds of its number; the view ends at the
    first such turn whose number satisfies [stop]. [pre] is what the view
    does for a turn it has a block for, displayed or not. *)
Section WindowedView.

Variables S G : Type.
Variable P : Z -> bool.
Variable stop : Z -> bool.
Variable guard : turn -> out G.
Variable shows : turn -> bool.
Variable pre : S -> turn -> S.
Variable block : G -> Z -> S -> turn -> out S.

Fixpoint windowed_view (before : list turn) (s : S) (turns : list turn)
  : out unit :=
  match turns with
  | [] => Out.ret tt
  | t :: rest =>
      let n := turn_number before t in
      g <~ guard t ;;
      if shows t then
        let s1 := pre s t in
        if P n then
          s2 <~ block g n s1 t ;;
          windowed_view (before ++ [t])%list s2 rest
        else if stop n then Out.ret tt
        else windowed_view (before ++ [t])%list s1 rest
      else windowed_view (before ++ [t])%list s rest
  end.

(** One iteration of the loop of such a view, as the renderers write it:
    the state of the loop is [pack turn_num s]; the counter is advanced
    for a user turn, then the two window tests stand in front of the
    block. *)
Definition windowed_step {St : Type} (pack : Z -> S -> St) (a : args_t)
  (n : Z) (s : S) (t : turn) : out (St * flow) :=
  g <~ guard t ;;
  let n' := if is_user t then n + 1 else n in
  if shows t then
    windowed a n' (pack n' (pre s t))
      (s2 <~ block g n' (pre s t) t ;; Out.ret (pack n' s2))
  else Out.ret (pack n' s, Next).

End WindowedView.

Arguments windowed_view {S G} P stop guard shows pre block before s turns.
Arguments windowed_step {S G} guard shows pre block {St} pack a n s t.

(** What each view displays, and for which turns. *)
Section Views.

Variable json_dumps : json -> string.
Variable clock : json -> result string.

(** The overview and the full view format the timestamp of every turn
    they come to; the other views do nothing before their tests. *)
Definition timestamp_guard (t : turn) : out string :=
  Out.lift (format_timestamp clock (timestamp t)).

Definition no_guard (t : turn) : out unit := Out.ret tt.

Definition overview_shows (t : turn) : bool :=
  is_user t || is_assistant t || is_tool_result t.

Definition overview_block (ts : string) (n : Z) (s : unit) (t : turn)
  : out unit :=
  if is_user t then overview_user ts n t
  else if is_assistant t then overview_assistant ts t
  else overview_result ts t.

Definition conversation_shows (t : turn) : bool :=
  is_user t
  || is_assistant t && nonempty (texts t)
  || is_tool_result t && Py.truthy (opt_get (subagent_details t) JNull).

Definition conversation_block (a : args_t) (g : unit) (n : Z) (s : unit)
  (t : turn) : out unit :=
  if is_user t then conversation_user clock a t
  else if is_assistant t then conversation_assistant clock a t
  else conversation_result t.

Definition full_block (a : args_t) (ts : string) (n : Z) (s : unit)
  (t : turn) : out unit :=
  if is_user t then full_user a ts t
  else if is_assistant t then full_assistant json_dumps a ts t
  else full_result a t.

Definition tools_shows (t : turn) : bool :=
  is_assistant t && nonempty (tool_calls t) || is_tool_result t.

(** The state of the tools view is [tool_num]. *)
Definition tools_block (a : args_t) (g : unit) (n : Z) (tool_num : Z)
  (t : turn) : out Z :=
  if is_assistant t && nonempty (tool_calls t)
  then ts <~ Out.lift (format_timestamp clock (timestamp t)) ;;
       tools_calls json_dumps a ts tool_num (tool_calls t)
  else keep tool_num (tools_result a t).

Definition costs_shows (t : turn) : bool :=
  is_assistant t && Py.truthy (opt_get (usage t) JNull).

(** The state of the costs view is [(total_cost, assistant_num)]. *)
Definition costs_count (s : Q * Z) (t : turn) : Q * Z := (fst s, snd s + 1).

Definition costs_block (g : unit) (n : Z) (s : Q * Z) (t : turn)
  : out (Q * Z) :=
  c <~ costs_row clock (fst s) (snd s) t ;; Out.ret (c, snd s).

End Views.

(** The generic content rule applied to the content of a toolResult: what
    its texts would be if the two rules were the same. *)
Definition generic_texts (content : json) : result (list json) :=
  seg <- generic_content content ;; Ok (seg_texts seg).

(** A content item tagged [text]. *)
Definition is_text_item (item : json) : bool :=
  match item with
  | JDict d => Py.eq_str (Py.dict_get d "type" JNull) "text"
  | _ => false
  end.

(** The text of a content item, the empty string when it has none. *)
Definition item_text (item : json) : json :=
  match item with
  | JDict d => Py.dict_get d "text" (JStr "")
  | _ => JStr ""
  end.

(** A string that is not blank. *)
Definition non_blank (v : json) : bool :=
  match v with
  | JStr s => negb (String.eqb (PyStr.strip s) "")
  | _ => false
  end.

(** ** Session files, as the specification speaks of them *)

Section SessionFiles.

Variable json_loads : string -> option json.

(** The records of a file: the values of its non-blank lines, in file
    order. *)
Definition records (file : list string) : list json :=
  flat_map (fun line =>
              let l := PyStr.strip line in
              if String.eqb l "" then []
              else match json_loads l with
                   | Some obj => [obj]
                   | None => []
                   end) file.

(** A record of type [message]. *)
Definition is_message_record (obj : json) : bool :=
  match obj with
  | JDict d => Py.eq_str (Py.dict_get d "type" JNull) "message"
  | _ => false
  end.

Definition message_records (file : list string) : list json :=
  filter is_message_record (records file).

(** A content item tagged [text] carries a string, if it carries a text. *)
Definition text_item_ok (item : json) : bool :=
  match item with
  | JDict d =>
      if Py.eq_str (Py.dict_get d "type" (JStr "")) "text"
      then match Py.dict_get d "text" (JStr "") with
           | JStr _ => true
           | _ => false
           end
      else true
  | _ => true
  end.

(** The inner message of a message record is an object, when present, and
    its content items are well formed. *)
Definition message_ok (entry : json) : bool :=
  match entry with
  | JDict e =>
      match Py.dict_get e "message" (JDict []) with
      | JDict m =>
          match Py.dict_get m "content" (JStr "") with
          | JList items => forallb text_item_ok items
          | _ => true
          end
      | _ => false
      end
  | _ => false
  end.

(** A line is blank or holds one JSON object; a message record is as
    above. *)
Definition line_ok (line : string) : bool :=
  let l := PyStr.strip line in
  if String.eqb l "" then true
  else match json_loads l with
       | Some (JDict d) =>
           if is_message_record (JDict d) then message_ok (JDict d) else true
       | _ => false
       end.

Definition well_formed (file : list string) : bool := forallb line_ok file.

End SessionFiles.

(** ** Loops and totals, as the specification speaks of them *)

(** The loop started in [s0] has run through the items [done] without
    [break] and without an exception, and stands in state [s]. *)
Inductive reaches {S A : Type} (body : S -> A -> out (S * flow))
  : S -> list A -> S -> Prop :=
| reaches_nil (s : S) : reaches body s [] s
| reaches_cons (s : S) (x : A) (o : list line) (s' : S) (xs : list A) (s'' : S) :
    body s x = (o, Ok (s', Next)) ->
    reaches body s' xs s'' ->
    reaches body s (x :: xs) s''.

(** The inner role of a message record, the default [""] when absent. *)
Definition inner_role (entry : json) : json :=
  match entry with
  | JDict e =>
      match Py.dict_get e "message" (JDict []) with
      | JDict m => Py.dict_get m "role" (JStr "")
      | _ => JNull
      end
  | _ => JNull
  end.

(** The usage cost total field of a turn: [usage.cost.total]. *)
Definition usage_cost_total (t : turn) : result Q :=
  cost <- Py.get (opt_get (usage t) (JDict [])) "cost" (JDict []) ;;
  total <- Py.get cost "total" (JNum 0) ;;
  Py.number total.

(** The cost of a turn: that field for an assistant turn carrying usage,
    nothing for any other turn. *)
Definition turn_cost (t : turn) : Q :=
  if is_assistant t && Py.truthy (opt_get (usage t) JNull)
  then match usage_cost_total t with
       | Ok c => c
       | Raise _ => 0%Q
       end
  else 0%Q.

(** The sum over the turns, in order, of their cost. *)
Definition session_cost (turns : list turn) : Q :=
  fold_left (fun acc t => (acc + turn_cost t)%Q) turns 0%Q.

(** The same sum restricted to the turns whose turn number is inside the
    window, added to [acc]; [before] lists the turns that precede. *)
Fixpoint window_cost_from (offset limit : Z) (before turns : list turn)
  (acc : Q) : Q :=
  match turns with
  | [] => acc
  | t :: rest =>
      window_cost_from offset limit (before ++ [t])%list rest
        (if shown_window offset limit (turn_number before t)
         then (acc + turn_cost t)%Q else acc)
  end.

(** The cost of the turns inside the window. *)
Definition window_cost (offset limit : Z) (turns : list turn) : Q :=
  window_cost_from offset limit [] turns 0%Q.

(** ** Sample sessions

    Small inputs on which the properties are exercised. Their timestamps
    are absent, so [format_timestamp] answers ["?"] without consulting the
    [datetime] library; [no_clock] stands for that library there. *)

Definition no_clock (ts : json) : result string := Ok "?".

(** A [datetime] library whose [fromtimestamp] refuses, with
    [OverflowError], a number of milliseconds from 10^22 on (more seconds
    than a 64-bit [time_t] holds). *)
Definition bounded_clock (ts : json) : result string :=
  match ts with
  | JNum q =>
      if Qle_bool (inject_Z (10 ^ 22)) q then Raise OverflowError
      else Ok "00:00:00"
  | _ => Ok "?"
  end.

(** A timestamp of 10^30 milliseconds. *)
Definition far_timestamp : json := JNum (inject_Z (10 ^ 30)).

(** A message record with the given inner message fields. *)
Definition message_record (fields : list (string * json)) : json :=
  JDict [("type", JStr "message"); ("message", JDict fields)].

(** A tool result of 501 characters. *)
Definition long_result : json :=
  message_record [("role", JStr "toolResult"); ("toolName", JStr "bash");
                  ("content", JStr (rule "x" 501))].

Definition long_result_turn : turn :=
  Turn (JStr "toolResult") (JStr "") [JStr (rule "x" 501)] [] []
    (JBool false) None None None None
    (Some (JStr "")) (Some (JStr "bash")) None.


(** JSON text is written with [quoted]: [quoted "type"] is the JSON string
    literal for [type]. *)
Definition quoted (s : string) : string := dquote ++ s ++ dquote.

Definition session_line : string :=
  "{" ++ quoted "type" ++ ": " ++ quoted "session" ++ ", "
      ++ quoted "id" ++ ": " ++ quoted "S1" ++ "}" ++ nl.

Definition session_value : json :=
  JDict [("type", JStr "session"); ("id", JStr "S1")].

Definition user_line : string :=
  "{" ++ quoted "type" ++ ": " ++ quoted "message" ++ ", "
      ++ quoted "message" ++ ": {" ++ quoted "role" ++ ": " ++ quoted "user"
      ++ ", " ++ quoted "content" ++ ": " ++ quoted "hello" ++ "}}" ++ nl.

Definition user_value : json :=
  message_record [("role", JStr "user"); ("content", JStr "hello")].

Definition assistant_line : string :=
  "{" ++ quoted "type" ++ ": " ++ quoted "message" ++ ", "
      ++ quoted "message" ++ ": {" ++ quoted "role" ++ ": "
      ++ quoted "assistant" ++ ", " ++ quoted "content" ++ ": [{"
      ++ quoted "type" ++ ": " ++ quoted "text" ++ ", " ++ quoted "text"
      ++ ": " ++ quoted "hi" ++ "}], " ++ quoted "usage" ++ ": {"
      ++ quoted "cost" ++ ": {" ++ quoted "total" ++ ": 0.02}}}}" ++ nl.

Definition assistant_value : json :=
  message_record
    [("role", JStr "assistant");
     ("content", JList [JDict [("type", JStr "text"); ("text", JStr "hi")]]);
     ("usage", JDict [("cost", JDict [("total", JNum (2 # 100))])])].

(** [json.loads] on the lines of the samples; any other text is refused,
    as the text [not json] is by the real parser. *)
Definition sample_loads (s : string) : option json :=
  Py.lookup s
    [(PyStr.strip session_line, session_value);
     (PyStr.strip user_line, user_value);
     (PyStr.strip assistant_line, assistant_value)].

(** The scenario of the specification: a session record, a blank line, a
    user message and an assistant message with a cost. *)
Definition hello_file : list string :=
  [session_line; nl; user_line; assistant_line].

(** The same file with a line that is not JSON in the middle. *)
Definition broken_file : list string :=
  [session_line; user_line; "not json" ++ nl; assistant_line].


(** An assistant message that calls the [subagent] tool. *)
Definition subagent_call (arguments : json) : json :=
  message_record
    [("role", JStr "assistant");
     ("content",
      JList [JDict [("type", JStr "toolCall"); ("name", JStr "subagent");
                    ("arguments", arguments)]])].

(** The result of a [subagent] call, carrying details. *)
Definition subagent_result : json :=
  message_record
    [("role", JStr "toolResult"); ("toolName", JStr "subagent");
     ("content", JList [JDict [("type", JStr "text"); ("text", JStr "done")]]);
     ("details", JDict [("mode", JStr "chain"); ("results", JList [])])].

Definition first_args : json :=
  JDict [("chain",
          JList [JDict [("agent", JStr "scout"); ("task", JStr "first")]])].

Definition second_args : json :=
  JDict [("tasks",
          JList [JDict [("agent", JStr "worker"); ("task", JStr "second")]])].

(** Two subagent invocations in a row: call, result, call, result. *)
Definition two_invocations : list json :=
  [subagent_call first_args; subagent_result;
   subagent_call second_args; subagent_result].

(** A call whose result comes five messages later. *)
Definition distant_call : list json :=
  [subagent_call first_args; user_value; user_value; user_value; user_value;
   subagent_result].


(** A tool result whose only content item is an empty text. *)
Definition blank_content : json :=
  JList [JDict [("type", JStr "text"); ("text", JStr "")]].

Definition blank_result : json :=
  message_record [("role", JStr "toolResult"); ("toolName", JStr "bash");
                  ("content", blank_content)].

Definition blank_result_turn : turn :=
  Turn (JStr "toolResult") (JStr "") [JStr ""] [] []
    (JBool false) None None None None
    (Some (JStr "")) (Some (JStr "bash")) None.


(** The turns of [hello_file]. *)
Definition user_turn : turn :=
  Turn (JStr "user") (JStr "") [JStr "hello"] [] [] (JBool false)
    None None None None None None None.

Definition assistant_turn : turn :=
  Turn (JStr "assistant") (JStr "") [JStr "hi"] [] [] (JBool false)
    (Some (JStr "")) (Some (JStr ""))
    (Some (JDict [("cost", JDict [("total", JNum (2 # 100))])]))
    (Some (JStr "")) None None None.

(** A user turn, and a turn of another role, stamped [far_timestamp]. *)
Definition far_user_turn : turn :=
  Turn (JStr "user") far_timestamp [JStr "hello"] [] [] (JBool false)
    None None None None None None None.

Definition far_system_turn : turn :=
  Turn (JStr "system") far_timestamp [JStr "note"] [] [] (JBool false)
    None None None None None None None.

(** An assistant message that comes before any user message. *)
Definition early_message : json :=
  message_record [("role", JStr "assistant"); ("content", JStr "hi")].

Definition early_turn : turn :=
  Turn (JStr "assistant") (JStr "") [JStr "hi"] [] [] (JBool false)
    None None None None None None None.


(** A message whose role is none of the three, and one with no role. *)
Definition system_message : json :=
  message_record [("role", JStr "system"); ("content", JStr "note")].

Definition roleless_message : json :=
  message_record [("content", JStr "note")].

Definition system_turn : turn :=
  Turn (JStr "system") (JStr "") [JStr "note"] [] [] (JBool false)
    None None None None None None None.

(** ** More of the specification's vocabulary *)

(** A record of type [session]. *)
Definition is_session_record (obj : json) : bool :=
  match obj with
  | JDict d => Py.eq_str (Py.dict_get d "type" JNull) "session"
  | _ => false
  end.

(** A record of type [model_change] or [thinking_level_change]. *)
Definition is_event_record (obj : json) : bool :=
  match obj with
  | JDict d =>
      Py.eq_str (Py.dict_get d "type" JNull) "model_change"
      || Py.eq_str (Py.dict_get d "type" JNull) "thinking_level_change"
  | _ => false
  end.

(** A line that is empty once stripped. *)
Definition blank (line : string) : bool := String.eqb (PyStr.strip line) "".

(** A turn carrying subagent details. *)
Definition has_details (t : turn) : bool :=
  Py.truthy (opt_get (subagent_details t) JNull).


(** A message record whose inner message is a string, not an object. *)
Definition stringly_message : json :=
  JDict [("type", JStr "message"); ("message", JStr "hello")].

Definition stringly_line : string :=
  "{" ++ quoted "type" ++ ": " ++ quoted "message" ++ ", "
      ++ quoted "message" ++ ": " ++ quoted "hello" ++ "}" ++ nl.

(** [json.loads] on the lines of the samples, [stringly_line] included. *)
Definition sample_loads' (s : string) : option json :=
  if String.eqb s (PyStr.strip stringly_line) then Some stringly_message
  else sample_loads s.

(** A file every line of which is a JSON object, with a message record
    the normaliser cannot read. *)
Definition stringly_file : list string :=
  [session_line; user_line; stringly_line].


(** The details of one subagent invocation with a single successful run
    of 1500 ms costing 0.05, and the turn that carries them. *)
Definition run_details : json :=
  JDict [("mode", JStr "chain");
         ("results",
          JList [JDict [("agent", JStr "scout"); ("exitCode", JNum 0);
                        ("model", JStr "m1");
                        ("usage", JDict [("cost", JNum (5 # 100))]);
                        ("progressSummary",
                         JDict [("durationMs", JNum 1500)]);
                        ("task", JStr "look around")]])].

Definition subagent_turn : turn :=
  Turn (JStr "toolResult") (JStr "") [JStr "done"] [] [] (JBool false)
    None None None None
    (Some (JStr "")) (Some (JStr "subagent")) (Some run_details).


(** The arguments of the first [subagent] toolCall among the content
    items of a raw message, when its content is a list holding one. *)
Definition triggering_call (entry : json) : option json :=
  match entry with
  | JDict e =>
      match Py.dict_get e "message" (JDict []) with
      | JDict m =>
          match Py.dict_get m "content" (JList []) with
          | JList items => subagent_call_in items
          | _ => None
          end
      | _ => None
      end
  | _ => None
  end.

(** The indices the look-back from index [i] may visit. *)
Definition in_lookback (i j : Z) : Prop := 0 <= j /\ i - 4 <= j <= i - 1.


(** An assistant turn that calls two tools. *)
Definition calling_turn : turn :=
  Turn (JStr "assistant") (JStr "") []
    [ToolCall (JStr "c1") (JStr "read") (JDict []);
     ToolCall (JStr "c2") (JStr "bash") (JDict [])]
    [] (JBool false) None None None None None None None.

(** A computation returns, or raises an exception that [R] accounts
    for. *)
Definition returns_or {A} (R : exn -> Prop) (c : out A) : Prop :=
  (exists o x, c = (o, Ok x)) \/ (exists o e, c = (o, Raise e) /\ R e).

(** The exception is that of the timestamp conversion of [t]. *)
Definition from_timestamp (clock : json -> result string) (t : turn)
  (e : exn) : Prop :=
  format_timestamp clock (timestamp t) = Raise e.

(** The cost and the duration of one run result of a subagent
    invocation: [r.get("usage", {}).get("cost", 0)] and
    [r.get("progressSummary", {}).get("durationMs", 0)]. *)
Definition run_cost (r : json) : result json :=
  u <- Py.get r "usage" (JDict []) ;; Py.get u "cost" (JNum 0).

Definition run_duration (r : json) : result json :=
  p <- Py.get r "progressSummary" (JDict []) ;; Py.get p "durationMs" (JNum 0).

(** * Properties *)

(** ** Strings *)

Lemma take_length n s :
  (n <= String.length s)%nat -> String.length (PyStr.take n s) = n.
Proof.
  revert s; induction n as [|n IH]; intros [|c s] H; simpl in *; try lia.
  rewrite IH; lia.
Qed.

Lemma take_all n s : (String.length s <= n)%nat -> PyStr.take n s = s.
Proof.
  revert s; induction n as [|n IH]; intros [|c s] H; simpl in *;
    try reflexivity; try lia.
  rewrite IH; [reflexivity | lia].
Qed.

Lemma string_app_length s t :
  String.length (s ++ t) = (String.length s + String.length t)%nat.
Proof. induction s as [|c s IH]; simpl; [reflexivity | now rewrite IH]. Qed.

(** ** [truncate] *)

Lemma truncate_noop text max_len :
  max_len <= 0 \/ Z.of_nat (String.length text) <= max_len ->
  truncate text max_len = text.
Proof.
  intros H. unfold truncate.
  destruct (max_len <=? 0) eqn:E1; [reflexivity|].
  destruct (Z.of_nat (String.length text) <=? max_len) eqn:E2; [reflexivity|].
  apply Z.leb_gt in E1, E2. lia.
Qed.

Lemma truncate_cut text max_len :
  0 < max_len < Z.of_nat (String.length text) ->
  truncate text max_len
  = PyStr.take (Z.to_nat max_len) text
    ++ truncation_suffix (String.length text).
Proof.
  intros [H1 H2]. unfold truncate.
  destruct (max_len <=? 0) eqn:E1; [apply Z.leb_le in E1; lia|].
  destruct (Z.of_nat (String.length text) <=? max_len) eqn:E2;
    [apply Z.leb_le in E2; lia | reflexivity].
Qed.

Example truncate_short : truncate "hello" 10 = "hello".
Proof. reflexivity. Qed.

Example truncate_long :
  truncate "abcdef" 2
  = "ab" ++ String "010"%char "... [truncated, 6 chars total]".
Proof. reflexivity. Qed.

Example truncate_unlimited : truncate "abcdef" 0 = "abcdef".
Proof. reflexivity. Qed.

(** C4, as stated, fails: truncating the result of a real cut again with
    the same limit cuts again, and the marker then names the length of the
    already-truncated text. *)
Lemma truncate_not_idempotent :
  truncate (truncate "abcdef" 2) 2 <> truncate "abcdef" 2.
Proof. vm_compute. discriminate. Qed.

(** C4, amended: [truncate] is the identity on a text at or under the
    limit (and under a limit that is not positive), and there truncating
    again changes nothing; a text longer than a positive limit becomes
    exactly [limit] characters of it followed by the marker naming the
    original length. *)
Theorem truncate_shape (text : string) (max_len : Z) :
  (max_len <= 0 \/ Z.of_nat (String.length text) <= max_len ->
     truncate text max_len = text
     /\ truncate (truncate text max_len) max_len = truncate text max_len)
  /\ (0 < max_len < Z.of_nat (String.length text) ->
      exists payload,
        truncate text max_len
        = payload ++ truncation_suffix (String.length text)
        /\ payload = PyStr.take (Z.to_nat max_len) text
        /\ Z.of_nat (String.length payload) = max_len).
Proof.
  split.
  - intros H. rewrite (truncate_noop text max_len H).
    split; [reflexivity | apply truncate_noop, H].
  - intros H. exists (PyStr.take (Z.to_nat max_len) text).
    split; [apply truncate_cut, H | split; [reflexivity|]].
    rewrite take_length; lia.
Qed.

Lemma truncate_shape_witness :
  (truncate "hello" 10 = "hello"
   /\ truncate (truncate "hello" 10) 10 = truncate "hello" 10)
  /\ exists payload,
       truncate "abcdef" 2 = payload ++ truncation_suffix 6
       /\ payload = "ab"
       /\ Z.of_nat (String.length payload) = 2.
Proof.
  split.
  - apply (proj1 (truncate_shape "hello" 10)). right. simpl. lia.
  - apply (proj2 (truncate_shape "abcdef" 2)). simpl. lia.
Defined.

(** ** The tools view: the cap on result text *)

Example long_result_extracted : extract_turn long_result = Ok long_result_turn.
Proof. reflexivity. Qed.

(** C8, as stated, fails: with [--max-content 0] the cap is
    [min(0, 500) = 0], which [truncate] reads as unlimited, and a result of
    501 characters is displayed whole. *)
Lemma tools_result_uncapped_at_zero :
  exists shown,
    tools_result_text (Args Tools 0 0 0) long_result_turn = Ok shown
    /\ shown = rule "x" 501
    /\ (500 < String.length shown)%nat
    /\ Out.stdout (tools_result (Args Tools 0 0 0) long_result_turn)
       = [[Str "  result"; Str " "; Glyph "ok"; Str ": "; Str shown]].
Proof.
  exists (rule "x" 501).
  split; [reflexivity|]. split; [reflexivity|]. split; [|reflexivity].
  vm_compute. lia.
Qed.

(** C8, amended: in the tools view a result that is not a subagent's is
    displayed through [truncate] with the limit [min(max_content, 500)].
    For every positive [max_content] the displayed payload is at most 500
    characters: the text itself when it has at most [min(max_content, 500)]
    characters, else its first [min(max_content, 500)] characters followed
    by the marker. When [max_content] is not positive the text is displayed
    whole. *)
Theorem tools_result_capped (a : args_t) (t : turn) (shown : string) :
  tools_result_text a t = Ok shown ->
  exists text,
    join_texts " " (texts t) = Ok text
    /\ (0 < max_content a ->
        (shown = text /\ (String.length text <= 500)%nat)
        \/ exists payload,
             shown = payload ++ truncation_suffix (String.length text)
             /\ payload = PyStr.take (Z.to_nat (Z.min (max_content a) 500)) text
             /\ Z.of_nat (String.length payload) = Z.min (max_content a) 500
             /\ (String.length payload <= 500)%nat)
    /\ (max_content a <= 0 -> shown = text).
Proof.
  unfold tools_result_text. intros H.
  destruct (join_texts " " (texts t)) as [text|e] eqn:J; simpl in H;
    [|discriminate].
  injection H as <-. exists text. split; [reflexivity|]. split.
  - intros Hpos.
    destruct (Z_le_gt_dec (Z.of_nat (String.length text))
                (Z.min (max_content a) 500)) as [Hle|Hgt].
    + left. split; [apply truncate_noop; right; exact Hle | lia].
    + right. exists (PyStr.take (Z.to_nat (Z.min (max_content a) 500)) text).
      assert (Hk : Z.of_nat (String.length
                     (PyStr.take (Z.to_nat (Z.min (max_content a) 500)) text))
                   = Z.min (max_content a) 500)
        by (rewrite take_length; lia).
      split; [apply truncate_cut; lia|].
      split; [reflexivity|]. split; [exact Hk | lia].
  - intros Hle. apply truncate_noop. left. lia.
Qed.

Lemma tools_result_capped_witness :
  exists text,
    join_texts " " (texts long_result_turn) = Ok text
    /\ (0 < 2000 ->
        (truncate (rule "x" 501) 500 = text /\ (String.length text <= 500)%nat)
        \/ exists payload,
             truncate (rule "x" 501) 500
             = payload ++ truncation_suffix (String.length text)
             /\ payload = PyStr.take (Z.to_nat (Z.min 2000 500)) text
             /\ Z.of_nat (String.length payload) = Z.min 2000 500
             /\ (String.length payload <= 500)%nat)
    /\ (2000 <= 0 -> truncate (rule "x" 501) 500 = text).
Proof.
  apply (tools_result_capped (Args Tools 0 0 2000) long_result_turn
           (truncate (rule "x" 501) 500)).
  reflexivity.
Defined.

(** ** The result monad *)

Lemma mapM_Forall2 {A B} (f : A -> result B) xs ys :
  Py.mapM f xs = Ok ys <-> Forall2 (fun x y => f x = Ok y) xs ys.
Proof.
  revert ys; induction xs as [|x xs IH]; intros ys; simpl.
  - split; intros H.
    + injection H as <-. constructor.
    + inversion H. reflexivity.
  - split; intros H.
    + destruct (f x) as [y|e] eqn:Fx; simpl in H; [|discriminate].
      destruct (Py.mapM f xs) as [ys'|e] eqn:M; simpl in H; [|discriminate].
      injection H as <-. constructor; [exact Fx | apply IH; reflexivity].
    + inversion H as [|x' y xs' ys' Fx Hrest]; subst.
      rewrite Fx; simpl.
      apply IH in Hrest. rewrite Hrest. reflexivity.
Qed.

Lemma mapM_total {A B} (f : A -> result B) xs :
  Forall (fun x => exists y, f x = Ok y) xs -> exists ys, Py.mapM f xs = Ok ys.
Proof.
  induction 1 as [|x xs [y Fx] _ [ys IH]]; simpl.
  - now exists [].
  - exists (y :: ys). rewrite Fx; simpl. rewrite IH. reflexivity.
Qed.

(** ** [parse_session] keeps the message records, in file order *)

Section ParserFacts.

Variable json_loads : string -> option json.

Lemma eq_str_exclusive v a b :
  Py.eq_str v a = true -> a <> b -> Py.eq_str v b = false.
Proof.
  destruct v; simpl; try discriminate.
  intros Ha Hab. apply String.eqb_eq in Ha. subst.
  apply String.eqb_neq. exact Hab.
Qed.

Lemma parse_line_ok st line :
  line_ok json_loads line = true ->
  exists metadata events,
    parse_line json_loads st line
    = Ok (metadata, events,
          (snd st ++ message_records json_loads [line])%list).
Proof.
  destruct st as [[metadata events] messages].
  unfold line_ok, parse_line, message_records, records. simpl.
  destruct (String.eqb (PyStr.strip line) "") eqn:Eb.
  - intros _. exists metadata, events. simpl. now rewrite app_nil_r.
  - destruct (json_loads (PyStr.strip line)) as [obj|]; [|discriminate].
    destruct obj as [| | | | |d]; try discriminate.
    intros _. simpl.
    destruct (Py.eq_str (Py.dict_get d "type" JNull) "session") eqn:E1.
    { rewrite (eq_str_exclusive _ "session" "message" E1) by discriminate.
      simpl. rewrite app_nil_r. eauto. }
    destruct (Py.eq_str (Py.dict_get d "type" JNull) "model_change") eqn:E2.
    { rewrite (eq_str_exclusive _ "model_change" "message" E2) by discriminate.
      simpl. rewrite app_nil_r. eauto. }
    destruct (Py.eq_str (Py.dict_get d "type" JNull) "thinking_level_change")
      eqn:E3.
    { rewrite (eq_str_exclusive _ "thinking_level_change" "message" E3)
        by discriminate.
      simpl. rewrite app_nil_r. eauto. }
    simpl.
    destruct (Py.eq_str (Py.dict_get d "type" JNull) "message") eqn:E4; simpl.
    + eauto.
    + rewrite app_nil_r. eauto.
Qed.

Lemma message_records_cons line file :
  message_records json_loads (line :: file)
  = (message_records json_loads [line] ++ message_records json_loads file)%list.
Proof.
  unfold message_records, records. simpl.
  rewrite app_nil_r. apply filter_app.
Qed.

Lemma parse_lines_ok file : forall st,
  well_formed json_loads file = true ->
  exists metadata events,
    Py.foldM (parse_line json_loads) file st
    = Ok (metadata, events, (snd st ++ message_records json_loads file)%list).
Proof.
  induction file as [|line file IH]; intros st Hwf; simpl.
  - destruct st as [[metadata events] messages]. exists metadata, events.
    simpl. unfold message_records. simpl. now rewrite app_nil_r.
  - simpl in Hwf. apply andb_true_iff in Hwf as [Hline Hrest].
    destruct (parse_line_ok st line Hline) as (md & ev & Hstep).
    rewrite Hstep. unfold Py.bind.
    destruct (IH (md, ev, (snd st ++ message_records json_loads [line])%list)
                Hrest) as (md' & ev' & Hfold).
    exists md', ev'. simpl in Hfold. rewrite Hfold.
    rewrite (message_records_cons line file), app_assoc. reflexivity.
Qed.

Lemma message_records_ok file :
  well_formed json_loads file = true ->
  Forall (fun entry => message_ok entry = true)
    (message_records json_loads file).
Proof.
  induction file as [|line file IH]; intros Hwf.
  - constructor.
  - simpl in Hwf. apply andb_true_iff in Hwf as [Hline Hrest].
    rewrite (message_records_cons line file).
    apply Forall_app. split; [|apply IH, Hrest].
    unfold message_records, records. simpl. unfold line_ok in Hline.
    destruct (String.eqb (PyStr.strip line) ""); [constructor|].
    destruct (json_loads (PyStr.strip line)) as [obj|]; [|discriminate].
    destruct obj as [| | | | |d]; try discriminate. simpl.
    destruct (is_message_record (JDict d)) eqn:Em.
    + simpl in Em. rewrite Em. constructor; [exact Hline | constructor].
    + simpl in Em. rewrite Em. constructor.
Qed.

End ParserFacts.

(** ** [extract_turns] *)

Lemma content_item_total acc item :
  text_item_ok item = true -> exists seg, content_item acc item = Ok seg.
Proof.
  destruct item as [| | | | |d]; simpl; eauto.
  destruct (Py.eq_str (Py.dict_get d "type" (JStr "")) "text") eqn:Et.
  - unfold Py.dict_get at 1 2.
    destruct (Py.lookup "text" d) as [v|] eqn:L.
    + destruct v; try discriminate. intros _. simpl.
      destruct (negb (String.eqb (PyStr.strip s) "")); simpl; eauto.
      destruct (Py.eq_str (Py.dict_get d "type" (JStr "")) "toolCall"); eauto.
      destruct (Py.eq_str (Py.dict_get d "type" (JStr "")) "thinking"); eauto.
      destruct (Py.truthy _); eauto.
    + intros _. simpl.
      destruct (Py.eq_str (Py.dict_get d "type" (JStr "")) "toolCall"); eauto.
      destruct (Py.eq_str (Py.dict_get d "type" (JStr "")) "thinking"); eauto.
      destruct (Py.truthy _); eauto.
  - intros _. simpl.
    destruct (Py.eq_str (Py.dict_get d "type" (JStr "")) "toolCall"); eauto.
    destruct (Py.eq_str (Py.dict_get d "type" (JStr "")) "thinking"); eauto.
    destruct (Py.truthy _); eauto.
Qed.

Lemma content_items_total items : forall acc,
  forallb text_item_ok items = true ->
  exists seg, Py.foldM content_item items acc = Ok seg.
Proof.
  induction items as [|item items IH]; intros acc H; simpl.
  - eauto.
  - apply andb_true_iff in H as [Hi Hr].
    destruct (content_item_total acc item Hi) as [seg Hs].
    rewrite Hs. simpl. apply IH, Hr.
Qed.

Lemma generic_content_total m :
  match Py.dict_get m "content" (JStr "") with
  | JList items => forallb text_item_ok items
  | _ => true
  end = true ->
  exists seg, generic_content (Py.dict_get m "content" (JStr "")) = Ok seg.
Proof.
  destruct (Py.dict_get m "content" (JStr "")) as [| | |s|items|d];
    simpl; eauto.
  - destruct (negb (String.eqb (PyStr.strip s) "")); eauto.
  - apply content_items_total.
Qed.

Ltac finish_fields :=
  repeat match goal with |- _ /\ _ => split end;
  try reflexivity; try assumption;
  try (let x := fresh in
       let Hx := fresh in
       intros x Hx; inversion Hx; subst; auto).

(** What [extract_turn] returns, field by field, when it returns. *)
Lemma extract_turn_fields entry t :
  extract_turn entry = Ok t ->
  exists e m seg,
    entry = JDict e
    /\ Py.dict_get e "message" (JDict []) = JDict m
    /\ generic_content (Py.dict_get m "content" (JStr "")) = Ok seg
    /\ role t = Py.dict_get m "role" (JStr "")
    /\ texts t = (if Py.eq_str (role t) "toolResult"
                  then result_texts (Py.dict_get m "content" (JStr ""))
                  else seg_texts seg)
    /\ (forall u, usage t = Some u ->
                  Py.eq_str (role t) "assistant" = true /\ Py.truthy u = true)
    /\ (forall d, subagent_details t = Some d ->
                  Py.eq_str (role t) "toolResult" = true
                  /\ Py.truthy d = true).
Proof.
  unfold extract_turn. intros H.
  destruct entry as [| | | | |e]; try discriminate. simpl in H.
  destruct (Py.dict_get e "message" (JDict [])) as [| | | | |m] eqn:Em;
    try discriminate.
  simpl in H.
  exists e, m.
  destruct (Py.eq_str (Py.dict_get m "role" (JStr "")) "assistant") eqn:Ea.
  - pose proof (eq_str_exclusive _ "assistant" "toolResult" Ea) as Er.
    rewrite Er in H by discriminate.
    destruct (Py.truthy (Py.dict_get m "usage" (JDict []))) eqn:Eu;
      simpl in H;
      destruct (generic_content (Py.dict_get m "content" (JStr "")))
        as [seg|x] eqn:Eg; simpl in H; try discriminate;
      injection H as <-; exists seg; simpl;
      rewrite Er by discriminate; finish_fields.
  - simpl in H.
    destruct (generic_content (Py.dict_get m "content" (JStr "")))
      as [seg|x] eqn:Eg; simpl in H; try discriminate.
    exists seg.
    destruct (Py.eq_str (Py.dict_get m "role" (JStr "")) "toolResult") eqn:Er.
    + unfold extract_subagent_details in H. simpl in H.
      assert (Hr : Py.eq_str (Py.dict_get m "role" JNull) "toolResult" = true).
      { revert Er. unfold Py.dict_get.
        destruct (Py.lookup "role" m); [auto | discriminate]. }
      rewrite Hr in H. simpl in H.
      destruct (Py.eq_str (Py.dict_get m "toolName" JNull) "subagent");
        simpl in H.
      * destruct (Py.truthy (Py.dict_get m "details" JNull)) eqn:Ed;
          simpl in H; injection H as <-; simpl; rewrite Er; finish_fields.
      * injection H as <-; simpl; rewrite Er; finish_fields.
    + injection H as <-; simpl; rewrite Er; finish_fields.
Qed.

Lemma extract_turn_total entry :
  message_ok entry = true -> exists t, extract_turn entry = Ok t.
Proof.
  unfold message_ok, extract_turn.
  destruct entry as [| | | | |e]; try discriminate. simpl.
  destruct (Py.dict_get e "message" (JDict [])) as [| | | | |m];
    try discriminate.
  intros Hc. destruct (generic_content_total m Hc) as [seg Hs]. simpl.
  destruct (Py.eq_str (Py.dict_get m "role" (JStr "")) "assistant").
  - destruct (Py.truthy (Py.dict_get m "usage" (JDict []))); simpl;
      rewrite Hs; simpl;
      (destruct (Py.eq_str (Py.dict_get m "role" (JStr "")) "toolResult");
       [|eauto]);
      unfold extract_subagent_details; simpl;
      repeat (match goal with
              | |- context [if ?b then _ else _] => destruct b; simpl
              end); eauto.
  - simpl. rewrite Hs. simpl.
    destruct (Py.eq_str (Py.dict_get m "role" (JStr "")) "toolResult");
      [|eauto].
    unfold extract_subagent_details; simpl.
    repeat (match goal with
            | |- context [if ?b then _ else _] => destruct b; simpl
            end); eauto.
Qed.

(** C1. For a well-formed session file the parser and the normaliser both
    return, the raw messages kept by the parser are the [message]-typed
    records of the file in file order, and the turns are in one-to-one,
    order-preserving correspondence with them: as many turns as message
    records, the i-th turn being the one extracted from the i-th message
    record. Records of another or of no type give no turn. *)
Theorem one_turn_per_message_record
  (json_loads : string -> option json) (file : list string) :
  well_formed json_loads file = true ->
  exists metadata events turns,
    parse_session json_loads file
    = Ok (metadata, events, message_records json_loads file)
    /\ extract_turns (message_records json_loads file) = Ok turns
    /\ List.length turns = List.length (message_records json_loads file)
    /\ Forall2 (fun entry t => extract_turn entry = Ok t)
         (message_records json_loads file) turns.
Proof.
  intros Hwf.
  destruct (parse_lines_ok json_loads file (JDict [], [], []) Hwf)
    as (metadata & events & Hparse).
  assert (Htotal : exists turns,
             extract_turns (message_records json_loads file) = Ok turns).
  { apply mapM_total.
    eapply Forall_impl; [|apply message_records_ok, Hwf].
    intros entry. apply extract_turn_total. }
  destruct Htotal as [turns Hturns].
  exists metadata, events, turns.
  pose proof (proj1 (mapM_Forall2 _ _ _) Hturns) as Hall.
  repeat split; try assumption.
  symmetry. eapply Forall2_length, Hall.
Qed.

Lemma one_turn_per_message_record_witness :
  exists metadata events turns,
    parse_session sample_loads hello_file
    = Ok (metadata, events, message_records sample_loads hello_file)
    /\ extract_turns (message_records sample_loads hello_file) = Ok turns
    /\ List.length turns
       = List.length (message_records sample_loads hello_file)
    /\ Forall2 (fun entry t => extract_turn entry = Ok t)
         (message_records sample_loads hello_file) turns.
Proof.
  apply (one_turn_per_message_record sample_loads hello_file).
  vm_compute. reflexivity.
Defined.

Example hello_file_messages :
  message_records sample_loads hello_file = [user_value; assistant_value].
Proof. vm_compute. reflexivity. Qed.

(** ** A line that is not JSON *)

Section Abort.

Variable json_loads : string -> option json.
Variable json_dumps : json -> string.
Variable clock : json -> result string.
Variable path_exists : string -> bool.

Lemma parse_line_bad st line :
  PyStr.strip line <> "" ->
  json_loads (PyStr.strip line) = None ->
  parse_line json_loads st line = Raise JSONDecodeError.
Proof.
  intros Hnb Hbad. destruct st as [[metadata events] messages].
  unfold parse_line. apply String.eqb_neq in Hnb. rewrite Hnb, Hbad.
  reflexivity.
Qed.

Lemma parse_lines_bad file line :
  In line file ->
  PyStr.strip line <> "" ->
  json_loads (PyStr.strip line) = None ->
  forall st, exists e, Py.foldM (parse_line json_loads) file st = Raise e.
Proof.
  intros Hin Hnb Hbad.
  induction file as [|l file IH]; [destruct Hin|]. intros st. simpl.
  destruct (parse_line json_loads st l) as [st'|e] eqn:Hl; simpl.
  - destruct Hin as [->|Hin].
    + rewrite (parse_line_bad st line Hnb Hbad) in Hl. discriminate.
    + apply IH, Hin.
  - eauto.
Qed.

(** C9. If some non-blank line of the session file is not valid JSON,
    [parse_session] raises, and [main] ends with that exception having
    printed nothing on standard output, whatever the output mode: the bad
    line is not skipped and no renderer runs. *)
Theorem malformed_line_aborts (file : list string) (a : args_t) (line : string) :
  In line file ->
  PyStr.strip line <> "" ->
  json_loads (PyStr.strip line) = None ->
  exists e,
    parse_session json_loads file = Raise e
    /\ main json_loads json_dumps clock path_exists (Some file) a
       = ([], Raise e).
Proof.
  intros Hin Hnb Hbad.
  destruct (parse_lines_bad file line Hin Hnb Hbad (JDict [], [], []))
    as [e He].
  exists e. split; [exact He|].
  unfold main, parse_session. rewrite He. reflexivity.
Qed.

End Abort.

Lemma malformed_line_aborts_witness :
  exists e,
    parse_session sample_loads broken_file = Raise e
    /\ main sample_loads (fun _ => "") no_clock (fun _ => false)
         (Some broken_file) (Args Overview 0 0 2000)
       = ([], Raise e).
Proof.
  apply (malformed_line_aborts sample_loads (fun _ => "") no_clock
           (fun _ => false) broken_file (Args Overview 0 0 2000)
           ("not json" ++ nl)).
  - simpl. auto.
  - vm_compute. discriminate.
  - vm_compute. reflexivity.
Defined.

(** The scenario of the specification, run through [main]. *)
Example hello_overview :
  Out.stdout (main sample_loads (fun _ => "") no_clock (fun _ => false)
                (Some hello_file) (Args Overview 0 0 2000))
  = [ [Str (rule "=" 70)]; [Str "SESSION OVERVIEW"]; [Str (rule "=" 70)];
      [Str "  ID:        "; Repr (JStr "S1")];
      [Str "  CWD:       "; Repr (JStr "N/A")];
      [Str "  Started:   "; Repr (JStr "N/A")];
      [Str "  Version:   "; Repr (JStr "N/A")];
      [Str "  Session cost: $"; Fixed4 0 (0 + 0 + (2 # 100))];
      [Str "  Session tokens: "; Grouped 0 (0 + 0 + 0 + (0 + 0 + 0));
       Str " (in:"; Grouped 0 (0 + 0 + 0); Str " out:"; Grouped 0 (0 + 0 + 0);
       Str ")"];
      [Str "  Turns:     "; Int 2; Str " total ("; Int 1; Str " user, ";
       Int 1; Str " assistant, "; Int 0; Str " tool results)"];
      [];
      [Str (rule "-" 70)]; [Str "TURN SUMMARY"]; [Str (rule "-" 70)];
      [Str nl; Str "["; Str "?"; Str "] "; Glyph "user"; Str " USER #";
       Int 1; Str ": "; Str "hello"];
      [Str "["; Str "?"; Str "] "; Glyph "assistant"; Str " ASSISTANT: ";
       Str (dquote ++ "hi" ++ dquote); Str " ($"; Fixed4 0 (2 # 100);
       Str ")"] ].
Proof. vm_compute. reflexivity. Qed.

(** ** The subagents view: the look-back for the triggering call *)

Example lookback_indices : range_down (3 - 1) (Z.max (3 - 5) (-1)) = [2; 1; 0].
Proof. reflexivity. Qed.

Example lookback_indices_far :
  range_down (9 - 1) (Z.max (9 - 5) (-1)) = [8; 7; 6; 5].
Proof. reflexivity. Qed.

Example lookback_single : find_call_args two_invocations 1 = Ok first_args.
Proof. reflexivity. Qed.

Example lookback_out_of_reach : find_call_args distant_call 5 = Ok (JDict []).
Proof. reflexivity. Qed.

(** The look-back visits at most the 4 messages before index [i]. *)
Lemma lookback_window (i j : Z) :
  0 <= i ->
  In j (range_down (i - 1) (Z.max (i - 5) (-1))) ->
  0 <= j /\ i - 4 <= j <= i - 1.
Proof.
  unfold range_down. intros Hi Hin.
  apply in_map_iff in Hin as (k & <- & Hk). apply in_seq in Hk. lia.
Qed.

Lemma lookback_length (i : Z) :
  (List.length (range_down (i - 1) (Z.max (i - 5) (-1))) <= 4)%nat.
Proof. unfold range_down. rewrite length_map, length_seq. lia. Qed.

(** C7 at its failing input. For the second result of [two_invocations]
    (index 3) the scan meets the matching call at index 2 first, but the
    [break] leaves only the inner loop over the content items: the scan
    goes on to index 0 and the arguments of the earlier call overwrite the
    match. The arguments recovered are those of the first call. *)
Theorem lookback_takes_farthest_call :
  find_call_args two_invocations 3 = Ok first_args
  /\ nth_error two_invocations 2 = Some (subagent_call second_args)
  /\ first_args <> second_args.
Proof. repeat split. discriminate. Qed.

(** ** The texts of a toolResult *)

Lemma type_is_text d :
  Py.eq_str (Py.dict_get d "type" (JStr "")) "text"
  = Py.eq_str (Py.dict_get d "type" JNull) "text".
Proof. unfold Py.dict_get. destruct (Py.lookup "type" d); reflexivity. Qed.

Lemma result_items_spec items : forall acc,
  fold_left result_item items acc
  = (acc ++ map item_text (filter is_text_item items))%list.
Proof.
  induction items as [|item items IH]; intros acc; simpl.
  - now rewrite app_nil_r.
  - rewrite IH. destruct item as [| | | | |d]; simpl; try reflexivity.
    destruct (Py.eq_str (Py.dict_get d "type" JNull) "text"); simpl.
    + now rewrite <- app_assoc.
    + reflexivity.
Qed.

Lemma content_item_texts acc item seg :
  content_item acc item = Ok seg ->
  seg_texts seg
  = (seg_texts acc
     ++ filter non_blank (map item_text (filter is_text_item [item])))%list.
Proof.
  destruct item as [| | | | |d]; simpl;
    try (intros [= <-]; now rewrite app_nil_r).
  rewrite <- (type_is_text d).
  destruct (Py.eq_str (Py.dict_get d "type" (JStr "")) "text") eqn:Et; simpl.
  - rewrite (eq_str_exclusive _ "text" "toolCall" Et) by discriminate.
    rewrite (eq_str_exclusive _ "text" "thinking" Et) by discriminate.
    unfold Py.dict_get.
    destruct (Py.lookup "text" d) as [v|] eqn:L; simpl.
    + destruct v; simpl; try discriminate.
      destruct (negb (String.eqb (PyStr.strip s) "")); simpl;
        intros [= <-]; simpl; [reflexivity | now rewrite app_nil_r].
    + intros [= <-]. now rewrite app_nil_r.
  - destruct (Py.eq_str (Py.dict_get d "type" (JStr "")) "toolCall");
      [intros [= <-]; simpl; now rewrite app_nil_r|].
    destruct (Py.eq_str (Py.dict_get d "type" (JStr "")) "thinking");
      [|intros [= <-]; now rewrite app_nil_r].
    destruct (Py.truthy _); intros [= <-]; simpl; now rewrite app_nil_r.
Qed.

Lemma content_items_texts items : forall acc seg,
  Py.foldM content_item items acc = Ok seg ->
  seg_texts seg
  = (seg_texts acc
     ++ filter non_blank (map item_text (filter is_text_item items)))%list.
Proof.
  induction items as [|item items IH]; intros acc seg; simpl.
  - intros [= <-]. now rewrite app_nil_r.
  - destruct (content_item acc item) as [acc'|e] eqn:Hi; simpl;
      [|discriminate].
    intros H. rewrite (IH _ _ H), (content_item_texts _ _ _ Hi).
    rewrite <- app_assoc. f_equal. simpl.
    destruct (is_text_item item); simpl; [|reflexivity].
    destruct (non_blank (item_text item)); reflexivity.
Qed.

Lemma generic_texts_spec content segs :
  generic_texts content = Ok segs -> segs = filter non_blank (result_texts content).
Proof.
  unfold generic_texts.
  destruct content as [| | |s|items|d]; simpl;
    try (intros [= <-]; reflexivity).
  - destruct (negb (String.eqb (PyStr.strip s) "")) eqn:Eb; simpl;
      intros [= <-]; simpl; [rewrite Eb|]; reflexivity.
  - destruct (Py.foldM content_item items (Segments [] [] [])) as [seg|e] eqn:F;
      simpl; [|discriminate].
    intros [= <-]. rewrite (content_items_texts _ _ _ F).
    rewrite result_items_spec. reflexivity.
Qed.

Example blank_result_extracted : extract_turn blank_result = Ok blank_result_turn.
Proof. reflexivity. Qed.

(** C6 at its failing input. A toolResult whose content is a list holding
    one [text] item with an empty text gets one (empty) text segment,
    where the generic rule gives none for the same content: the loop over
    the result content appends the text of every [text] item without the
    non-blank test that the generic loop, and the string branch next to
    it, apply. *)
Theorem result_texts_keep_blank_items :
  extract_turn blank_result = Ok blank_result_turn
  /\ texts blank_result_turn = [JStr ""]
  /\ generic_texts blank_content = Ok []
  /\ Ok (texts blank_result_turn) <> generic_texts blank_content.
Proof. repeat split. discriminate. Qed.

(** What the code does for a toolResult, in general. Its texts are those
    rebuilt from the result's own content field and nothing else (replaced,
    never merged): a non-blank string gives one segment; in a list every
    item tagged [text] gives a segment holding its text, the empty string
    when it has none, blank or not; any other content gives none. The
    segments of the generic rule are exactly the non-blank ones among
    them. *)
Lemma tool_result_texts_replaced (entry : json) (t : turn) :
  extract_turn entry = Ok t ->
  is_tool_result t = true ->
  exists e m,
    entry = JDict e
    /\ Py.dict_get e "message" (JDict []) = JDict m
    /\ texts t = result_texts (Py.dict_get m "content" (JStr ""))
    /\ (forall s, Py.dict_get m "content" (JStr "") = JStr s ->
          texts t = if non_blank (JStr s) then [JStr s] else [])
    /\ (forall items, Py.dict_get m "content" (JStr "") = JList items ->
          texts t = map item_text (filter is_text_item items))
    /\ (match Py.dict_get m "content" (JStr "") with
        | JStr _ | JList _ => True
        | _ => texts t = []
        end)
    /\ generic_texts (Py.dict_get m "content" (JStr ""))
       = Ok (filter non_blank (texts t)).
Proof.
  intros H Hr. unfold is_tool_result in Hr.
  destruct (extract_turn_fields entry t H)
    as (e & m & seg & He & Hm & Hg & _ & Ht & _).
  rewrite Hr in Ht. exists e, m.
  assert (Hgen : generic_texts (Py.dict_get m "content" (JStr ""))
                 = Ok (seg_texts seg))
    by (unfold generic_texts; rewrite Hg; reflexivity).
  repeat split; try assumption.
  - intros s Hs. rewrite Ht, Hs. reflexivity.
  - intros items Hi. rewrite Ht, Hi. simpl. apply result_items_spec.
  - rewrite Ht. destruct (Py.dict_get m "content" (JStr "")); simpl; auto.
  - rewrite Hgen, Ht. f_equal. apply generic_texts_spec, Hgen.
Qed.

Lemma tool_result_texts_replaced_witness :
  exists e m,
    blank_result = JDict e
    /\ Py.dict_get e "message" (JDict []) = JDict m
    /\ texts blank_result_turn
       = result_texts (Py.dict_get m "content" (JStr ""))
    /\ (forall s, Py.dict_get m "content" (JStr "") = JStr s ->
          texts blank_result_turn = if non_blank (JStr s) then [JStr s] else [])
    /\ (forall items, Py.dict_get m "content" (JStr "") = JList items ->
          texts blank_result_turn = map item_text (filter is_text_item items))
    /\ (match Py.dict_get m "content" (JStr "") with
        | JStr _ | JList _ => True
        | _ => texts blank_result_turn = []
        end)
    /\ generic_texts (Py.dict_get m "content" (JStr ""))
       = Ok (filter non_blank (texts blank_result_turn)).
Proof.
  apply (tool_result_texts_replaced blank_result blank_result_turn);
    reflexivity.
Defined.

(** ** Printing computations *)

Lemma bind_ret_l {A B} (a : A) (k : A -> out B) : Out.bind (Out.ret a) k = k a.
Proof. unfold Out.bind, Out.ret. destruct (k a). reflexivity. Qed.

Lemma bind_assoc {A B C} (c : out A) (k : A -> out B) (h : B -> out C) :
  Out.bind (Out.bind c k) h = Out.bind c (fun x => Out.bind (k x) h).
Proof.
  destruct c as [o [a|e]]; simpl; [|reflexivity].
  destruct (k a) as [o1 [b|e]]; simpl; [|reflexivity].
  destruct (h b) as [o2 r]. now rewrite app_assoc.
Qed.

Lemma bind_ext {A B} (c : out A) (k1 k2 : A -> out B) :
  (forall x, k1 x = k2 x) -> Out.bind c k1 = Out.bind c k2.
Proof.
  intros H. destruct c as [o [a|e]]; simpl; [|reflexivity]. now rewrite H.
Qed.

Lemma printed_ret {S} (s : S) : printed (Out.ret s) = Out.ret tt.
Proof. reflexivity. Qed.

Lemma bind_lift_l {A B} (a : A) (k : A -> out B) :
  Out.bind (Out.lift (Ok a)) k = k a.
Proof. apply bind_ret_l. Qed.

Lemma bind_lift_ok {A B} (r : result A) (k : A -> out B) o b :
  Out.bind (Out.lift r) k = (o, Ok b) ->
  exists a, r = Ok a /\ k a = (o, Ok b).
Proof.
  destruct r as [a|e]; simpl; [|discriminate].
  destruct (k a) as [o' r'] eqn:K. intros [= <- ->]. eauto.
Qed.

Lemma bind_ok {A B} (c : out A) (k : A -> out B) o b :
  Out.bind c k = (o, Ok b) ->
  exists o1 a o2, c = (o1, Ok a) /\ k a = (o2, Ok b) /\ o = (o1 ++ o2)%list.
Proof.
  destruct c as [o1 [a|e]]; simpl; [|discriminate].
  destruct (k a) as [o2 r2] eqn:K. intros [= <- ->]. eauto 6.
Qed.

Ltac lift_ok H :=
  let E := fresh "E" in
  apply bind_lift_ok in H as (? & E & H); cbv zeta in H.

Lemma py_bind_ok {A B} (r : result A) (k : A -> result B) b :
  Py.bind r k = Ok b -> exists a, r = Ok a /\ k a = Ok b.
Proof. destruct r as [a|e]; simpl; [eauto | discriminate]. Qed.

Ltac py_ok H :=
  let E := fresh "E" in
  apply py_bind_ok in H as (? & E & H); cbv zeta in H.

(** ** Turn numbers *)

Lemma count_role_app r xs ys :
  count_role r (xs ++ ys) = count_role r xs + count_role r ys.
Proof. unfold count_role. rewrite filter_app, length_app. lia. Qed.

Lemma count_role_rev r xs : count_role r (rev xs) = count_role r xs.
Proof.
  unfold count_role. induction xs as [|x xs IH]; simpl; [reflexivity|].
  rewrite filter_app, length_app. simpl.
  destruct (Py.eq_str (role x) r); simpl; lia.
Qed.

Lemma count_role_one r t :
  count_role r [t] = if Py.eq_str (role t) r then 1 else 0.
Proof. unfold count_role. simpl. now destruct (Py.eq_str (role t) r). Qed.

Lemma count_role_nonneg r xs : 0 <= count_role r xs.
Proof. unfold count_role. lia. Qed.

(** The number inherited from the nearest user turn is the count of the
    user turns so far. *)
Lemma nearest_user_number_count before :
  nearest_user_number (rev before) = count_role "user" before.
Proof.
  induction before as [|x before IH] using rev_ind; [reflexivity|].
  rewrite rev_app_distr. cbn [rev app nearest_user_number].
  rewrite count_role_app, count_role_one.
  unfold is_user. destruct (Py.eq_str (role x) "user").
  - rewrite count_role_rev. lia.
  - rewrite IH. lia.
Qed.

Lemma turn_number_count before t :
  turn_number before t
  = if is_user t then count_role "user" before + 1
    else count_role "user" before.
Proof.
  unfold turn_number. rewrite nearest_user_number_count.
  destruct (is_user t); lia.
Qed.

Lemma turn_number_next before t :
  count_role "user" (before ++ [t]) = turn_number before t.
Proof.
  rewrite turn_number_count, count_role_app, count_role_one.
  unfold is_user. destruct (Py.eq_str (role t) "user"); lia.
Qed.

(** Turn numbers never decrease along the session. *)
Lemma turn_number_monotone before t between t' :
  turn_number before t <= turn_number (before ++ t :: between) t'.
Proof.
  rewrite !turn_number_count.
  change (t :: between) with ([t] ++ between)%list.
  rewrite !count_role_app, count_role_one.
  pose proof (count_role_nonneg "user" between).
  unfold is_user.
  destruct (Py.eq_str (role t) "user"), (Py.eq_str (role t') "user"); lia.
Qed.

(** ** The window tests *)

Lemma before_window_hidden a n :
  before_window a n = true -> shown_window (offset a) (limit a) n = false.
Proof.
  unfold before_window, shown_window. intros H.
  apply andb_true_iff in H as [H1 H2].
  apply negb_true_iff in H1. rewrite H1. simpl.
  apply Z.leb_le in H2.
  rewrite Z.gtb_ltb.
  replace (offset a <? n) with false by (symmetry; apply Z.ltb_ge; lia).
  reflexivity.
Qed.

Lemma after_window_hidden a n m :
  after_window a n = true -> n <= m ->
  shown_window (offset a) (limit a) m = false.
Proof.
  unfold after_window, shown_window. intros H Hm.
  apply andb_true_iff in H as [H1 H2].
  apply negb_true_iff in H1. rewrite H1. simpl.
  rewrite Z.gtb_ltb in H2. apply Z.ltb_lt in H2.
  replace (m <=? offset a + limit a) with false
    by (symmetry; apply Z.leb_gt; lia).
  apply andb_false_r.
Qed.

Lemma inside_window_shown a n :
  before_window a n = false -> after_window a n = false ->
  shown_window (offset a) (limit a) n = true.
Proof.
  unfold before_window, after_window, shown_window. intros H1 H2.
  apply andb_true_iff. split.
  - destruct (offset a =? 0); simpl in *; [reflexivity|].
    rewrite Z.gtb_ltb. apply Z.ltb_lt. apply Z.leb_gt in H1. lia.
  - destruct (limit a =? 0); simpl in *; [reflexivity|].
    apply Z.leb_le. rewrite Z.gtb_ltb in H2. apply Z.ltb_ge in H2. lia.
Qed.

Lemma shown_window_inside a n :
  shown_window (offset a) (limit a) n = true ->
  before_window a n = false /\ after_window a n = false.
Proof.
  intros H. split.
  - destruct (before_window a n) eqn:E; [|reflexivity].
    rewrite (before_window_hidden a n E) in H. discriminate.
  - destruct (after_window a n) eqn:E; [|reflexivity].
    rewrite (after_window_hidden a n n E (Z.le_refl n)) in H. discriminate.
Qed.

Lemma before_window_not_past a n :
  before_window a n = true -> past_window (offset a) (limit a) n = false.
Proof.
  unfold before_window, past_window. intros H.
  apply andb_true_iff in H as [H1 H2].
  apply negb_true_iff in H1. rewrite H1. simpl.
  apply Z.leb_le in H2. rewrite Z.gtb_ltb.
  replace (offset a <? n) with false by (symmetry; apply Z.ltb_ge; lia).
  reflexivity.
Qed.

Lemma after_window_past a n :
  before_window a n = false -> after_window a n = true ->
  past_window (offset a) (limit a) n = true.
Proof.
  unfold before_window, after_window, past_window. intros H1 H2.
  rewrite <- andb_assoc, H2, andb_true_r.
  destruct (offset a =? 0); simpl in *; [reflexivity|].
  rewrite Z.gtb_ltb. apply Z.ltb_lt. apply Z.leb_gt in H1. lia.
Qed.

(** Where a view ends, no later turn number is inside the window. *)
Lemma past_window_closed offset limit n m :
  past_window offset limit n = true -> n <= m ->
  shown_window offset limit m = false.
Proof.
  unfold past_window, shown_window. intros H Hm.
  apply andb_true_iff in H as [H H2].
  apply andb_true_iff in H as [_ H1].
  apply negb_true_iff in H1. rewrite H1. simpl.
  rewrite Z.gtb_ltb in H2. apply Z.ltb_lt in H2.
  replace (m <=? offset + limit) with false
    by (symmetry; apply Z.leb_gt; lia).
  apply andb_false_r.
Qed.

(** The two tests of the renderers decide as [windowed_under] says. *)
Lemma windowed_cases {S} a k (s : S) (block : out S) :
  windowed_under (offset a) (limit a) k s
    (s' <~ block ;; Out.ret (s', Next)) (windowed a k s block).
Proof.
  unfold windowed_under, windowed, before_window, after_window.
  repeat split.
  - intros [Ho Hk].
    apply Z.eqb_neq in Ho. apply Z.leb_le in Hk. now rewrite Ho, Hk.
  - intros Hlow [Hl Hk].
    replace (negb (offset a =? 0) && (k <=? offset a)) with false.
    + apply Z.eqb_neq in Hl. rewrite Hl. rewrite Z.gtb_ltb.
      apply Z.ltb_lt in Hk. now rewrite Hk.
    + symmetry. destruct Hlow as [->|Hlow]; [reflexivity|].
      apply andb_false_iff. right. apply Z.leb_gt. exact Hlow.
  - intros Hlow Hup.
    replace (negb (offset a =? 0) && (k <=? offset a)) with false.
    + replace (negb (limit a =? 0) && (k >? offset a + limit a)) with false;
        [reflexivity|].
      symmetry. destruct Hup as [->|Hup]; [reflexivity|].
      apply andb_false_iff. right. rewrite Z.gtb_ltb. apply Z.ltb_ge.
      exact Hup.
    + symmetry. destruct Hlow as [->|Hlow]; [reflexivity|].
      apply andb_false_iff. right. apply Z.leb_gt. exact Hlow.
Qed.

Lemma windowed_under_shown {S} a k (s : S) (block : out S) shown :
  (s' <~ block ;; Out.ret (s', Next)) = shown ->
  windowed_under (offset a) (limit a) k s shown (windowed a k s block).
Proof. intros <-. apply windowed_cases. Qed.

Lemma keep_then {S T} (s : S) (c : out unit) (k : S -> out T) :
  Out.bind (keep s c) k = c ;;; k s.
Proof.
  unfold keep. rewrite bind_assoc. apply bind_ext. intros _.
  apply bind_ret_l.
Qed.

(** ** A loop written with the two window tests is a windowed view *)

Section LoopForm.

Variables St S G : Type.
Variable pack : Z -> S -> St.
Variable body : St -> turn -> out (St * flow).
Variable a : args_t.
Variable guard : turn -> out G.
Variable shows : turn -> bool.
Variable pre : S -> turn -> S.
Variable block : G -> Z -> S -> turn -> out S.

Hypothesis body_is_step : forall n s t,
  body (pack n s) t = windowed_step guard shows pre block pack a n s t.

Lemma step_counter before t :
  (if is_user t then count_role "user" before + 1
   else count_role "user" before) = turn_number before t.
Proof. symmetry. apply turn_number_count. Qed.

Lemma loop_is_view turns : forall before s,
  printed (for_each body turns (pack (count_role "user" before) s))
  = windowed_view (shown_window (offset a) (limit a))
      (past_window (offset a) (limit a)) guard shows pre block
      before s turns.
Proof.
  induction turns as [|t rest IH]; intros before s; [reflexivity|].
  cbn [for_each windowed_view].
  rewrite body_is_step. unfold windowed_step. rewrite step_counter.
  unfold printed at 1. rewrite !bind_assoc. apply bind_ext. intros g.
  destruct (shows t).
  - unfold windowed.
    destruct (before_window a (turn_number before t)) eqn:Hb.
    + rewrite (before_window_hidden _ _ Hb), (before_window_not_past _ _ Hb).
      rewrite bind_ret_l. rewrite <- turn_number_next. apply IH.
    + destruct (after_window a (turn_number before t)) eqn:Ha.
      * rewrite (after_window_hidden _ _ _ Ha (Z.le_refl _)).
        rewrite (after_window_past _ _ Hb Ha).
        rewrite bind_ret_l. reflexivity.
      * rewrite (inside_window_shown _ _ Hb Ha).
        rewrite !bind_assoc. apply bind_ext. intros s2.
        rewrite !bind_ret_l. rewrite <- turn_number_next. apply IH.
  - rewrite bind_ret_l. rewrite <- turn_number_next. apply IH.
Qed.

(** Whenever a step returns, the counter has advanced for a user turn and
    for no other. *)
Lemma step_state n s t o st' f :
  body (pack n s) t = (o, Ok (st', f)) ->
  exists s', st' = pack (if is_user t then n + 1 else n) s'.
Proof.
  rewrite body_is_step. unfold windowed_step, windowed. intros H.
  apply bind_ok in H as (o1 & g & o2 & _ & H & _). revert H.
  destruct (shows t).
  - destruct (before_window a _); [intros [= _ <- _]; eauto|].
    destruct (after_window a _); [intros [= _ <- _]; eauto|].
    intros H. apply bind_ok in H as (o3 & s2 & o4 & H1 & H & _).
    apply bind_ok in H1 as (o5 & s3 & o6 & _ & H1 & _).
    injection H1 as _ <-. injection H as _ <- _. eauto.
  - intros [= _ <- _]. eauto.
Qed.

(** While the loop runs on, its counter is the count of the user turns. *)
Lemma reaches_counter done : forall st st',
  reaches body st done st' ->
  forall n s, st = pack n s ->
  exists s', st' = pack (n + count_role "user" done) s'.
Proof.
  intros st st' H. induction H as [st|st t o st1 rest st2 Hstep Hrest IH];
    intros n s ->.
  - exists s. f_equal. unfold count_role. simpl. lia.
  - destruct (step_state _ _ _ _ _ _ Hstep) as [s1 ->].
    destruct (IH _ s1 eq_refl) as [s2 ->]. exists s2. f_equal.
    change (t :: rest) with ([t] ++ rest)%list.
    rewrite count_role_app, count_role_one. unfold is_user.
    destruct (Py.eq_str (role t) "user"); lia.
Qed.

End LoopForm.

(** ** The five windowed renderers are written in that form *)

Section RendererSteps.

Variable json_dumps : json -> string.
Variable clock : json -> result string.
Variable a : args_t.

(** A role equal to two different literals. *)
Ltac clash :=
  match goal with
  | H1 : Py.eq_str ?v ?x = true, H2 : Py.eq_str ?v ?y = true |- _ =>
      rewrite (eq_str_exclusive v x y H1) in H2 by discriminate; discriminate
  end.

Ltac by_role t :=
  unfold is_user, is_assistant, is_tool_result;
  destruct (Py.eq_str (role t) "user") eqn:Eu;
  destruct (Py.eq_str (role t) "assistant") eqn:Ea;
  destruct (Py.eq_str (role t) "toolResult") eqn:Er;
  try clash;
  cbn [andb orb negb].

Lemma overview_is_step n s t :
  overview_body clock a n t
  = windowed_step (timestamp_guard clock) overview_shows (fun u _ => u)
      overview_block (fun m (_ : unit) => m) a n s t.
Proof.
  unfold overview_body, windowed_step, timestamp_guard, overview_shows,
    overview_block, keep.
  apply bind_ext. intros ts. by_role t; reflexivity.
Qed.

Lemma conversation_is_step n s t :
  conversation_body clock a n t
  = windowed_step no_guard conversation_shows (fun u _ => u)
      (conversation_block clock a) (fun m (_ : unit) => m) a n s t.
Proof.
  unfold windowed_step, no_guard. rewrite bind_ret_l.
  unfold conversation_body, conversation_shows, conversation_block, keep.
  by_role t; try reflexivity;
    repeat match goal with
           | |- context [if ?b then _ else _] => destruct b; cbn [andb orb]
           end; reflexivity.
Qed.

Lemma full_is_step n s t :
  full_body json_dumps clock a n t
  = windowed_step (timestamp_guard clock) overview_shows (fun u _ => u)
      (full_block json_dumps a) (fun m (_ : unit) => m) a n s t.
Proof.
  unfold full_body, windowed_step, timestamp_guard, overview_shows,
    full_block, keep.
  apply bind_ext. intros ts. by_role t; reflexivity.
Qed.

Lemma keep_keep {S1 S2} (s1 : S1) (s2 : S2) (c : out unit) (k : S1 -> S2) :
  k s1 = s2 -> Out.bind (keep s1 c) (fun x => Out.ret (k x)) = keep s2 c.
Proof.
  intros <-. unfold keep. rewrite bind_assoc. apply bind_ext. intros _.
  now rewrite bind_ret_l.
Qed.

Lemma tools_is_step n tool_num t :
  tools_body json_dumps clock a (n, tool_num) t
  = windowed_step no_guard tools_shows (fun u _ => u)
      (tools_block json_dumps clock a) (fun m k => (m, k)) a n tool_num t.
Proof.
  unfold windowed_step, no_guard. rewrite bind_ret_l.
  unfold tools_body, tools_shows, tools_block.
  by_role t; destruct (nonempty (tool_calls t)); cbn [andb orb];
    try reflexivity;
    unfold windowed;
    repeat match goal with
           | |- context [if ?b then _ else _] => destruct b
           end; try reflexivity;
    f_equal;
    first [ symmetry; apply keep_keep; reflexivity
          | rewrite bind_assoc; reflexivity ].
Qed.

Lemma costs_is_step n s t :
  costs_body clock a (fst s, n, snd s) t
  = windowed_step no_guard costs_shows costs_count (costs_block clock)
      (fun m u => (fst u, m, snd u)) a n s t.
Proof.
  unfold windowed_step, no_guard. rewrite bind_ret_l.
  unfold costs_body, costs_shows, costs_block, costs_count.
  unfold is_user, is_assistant.
  destruct (Py.eq_str (role t) "assistant"); cbn [andb orb negb];
    [|reflexivity].
  destruct (Py.truthy (opt_get (usage t) JNull)); cbn [andb orb negb];
    [|reflexivity].
  unfold windowed. cbn [fst snd].
  repeat match goal with
         | |- context [if ?b then _ else _] => destruct b
         end; try reflexivity;
    f_equal; rewrite bind_assoc; apply bind_ext; intros c;
    now rewrite bind_ret_l.
Qed.

End RendererSteps.

(** ** The window predicate *)

Example hello_turns :
  extract_turns [user_value; assistant_value] = Ok [user_turn; assistant_turn].
Proof. reflexivity. Qed.

Example early_turn_extracted : extract_turns [early_message] = Ok [early_turn].
Proof. reflexivity. Qed.


(** The displayed window and the stated one agree on every turn number
    from 1 on; they differ at 0, the number of the turns before the first
    user turn, when the offset is 0. *)
Lemma shown_window_from_one offset limit n :
  1 <= n -> shown_window offset limit n = claimed_window offset limit n.
Proof.
  intros Hn. unfold shown_window, claimed_window.
  destruct (offset =? 0) eqn:E0; [|reflexivity].
  apply Z.eqb_eq in E0. subst offset.
  replace (n >? 0) with true; [reflexivity|].
  symmetry. rewrite Z.gtb_ltb. apply Z.ltb_lt. lia.
Qed.

Lemma shown_window_at_zero limit :
  0 <= limit -> shown_window 0 limit 0 = true /\ claimed_window 0 limit 0 = false.
Proof.
  intros Hl. unfold shown_window, claimed_window. simpl. split; [|reflexivity].
  destruct (limit =? 0); [reflexivity|]. simpl. apply Z.leb_le. lia.
Qed.


Example window_skips_first_user :
  Out.stdout (for_each (overview_body no_clock (Args Overview 1 0 2000))
                [user_turn; assistant_turn; user_turn] 0)
  = [ [Str nl; Str "["; Str "?"; Str "] "; Glyph "user"; Str " USER #";
       Int 2; Str ": "; Str "hello"] ].
Proof. vm_compute. reflexivity. Qed.

Example window_stops_after_limit :
  Out.stdout (for_each (overview_body no_clock (Args Overview 0 1 2000))
                [user_turn; user_turn; assistant_turn] 0)
  = [ [Str nl; Str "["; Str "?"; Str "] "; Glyph "user"; Str " USER #";
       Int 1; Str ": "; Str "hello"] ].
Proof. vm_compute. reflexivity. Qed.

(** A timestamp out of range past the end of the window is never
    formatted: the overview has ended before. *)
Example window_ends_before_far_turn :
  for_each (overview_body bounded_clock (Args Overview 0 1 2000))
    [user_turn; user_turn; far_user_turn] 0
  = ([ [Str nl; Str "["; Str "?"; Str "] "; Glyph "user"; Str " USER #";
        Int 1; Str ": "; Str "hello"] ], Ok 2).
Proof. vm_compute. reflexivity. Qed.

(** ** The user-turn counter *)

Section Counter.

Variable json_dumps : json -> string.
Variable clock : json -> result string.
Variable a : args_t.

Lemma not_user_turn t :
  is_assistant t = true \/ is_tool_result t = true -> is_user t = false.
Proof.
  unfold is_user, is_assistant, is_tool_result. intros [H|H].
  - apply (eq_str_exclusive _ "assistant" "user" H). discriminate.
  - apply (eq_str_exclusive _ "toolResult" "user" H). discriminate.
Qed.

(** The overview step for a turn that is not a user turn, its timestamp
    formatted. *)
Lemma overview_step_shown n t ts :
  is_assistant t = true \/ is_tool_result t = true ->
  format_timestamp clock (timestamp t) = Ok ts ->
  overview_body clock a n t
  = windowed a n n
      (keep n (if is_assistant t then overview_assistant ts t
               else overview_result ts t)).
Proof.
  intros Hrole Hts. pose proof (not_user_turn t Hrole) as Hu.
  unfold overview_body. rewrite Hts, bind_lift_l.
  unfold is_user, is_assistant, is_tool_result in *. rewrite Hu.
  destruct (Py.eq_str (role t) "assistant") eqn:Ea; [reflexivity|].
  destruct Hrole as [Hr|Hr]; [discriminate|]. now rewrite Hr.
Qed.

(** The tools step for a turn the view has a block for, other than a user
    turn. *)
Lemma tools_step_shown n k t :
  is_assistant t = true /\ nonempty (tool_calls t) = true
  \/ is_tool_result t = true ->
  tools_body json_dumps clock a (n, k) t
  = windowed a n (n, k)
      (if is_assistant t
       then ts <~ Out.lift (format_timestamp clock (timestamp t)) ;;
            m <~ tools_calls json_dumps a ts k (tool_calls t) ;;
            Out.ret (n, m)
       else keep (n, k) (tools_result a t)).
Proof.
  intros Hrole.
  assert (Hu : is_user t = false)
    by (apply not_user_turn; destruct Hrole as [[H _]|H]; auto).
  unfold tools_body.
  unfold is_user, is_assistant, is_tool_result in *. rewrite Hu.
  destruct Hrole as [[Ha Hc]|Hr].
  - now rewrite Ha, Hc.
  - rewrite (eq_str_exclusive _ "toolResult" "assistant" Hr) by discriminate.
    cbn [andb]. now rewrite Hr.
Qed.

End Counter.

(** C2. While the turn loop of the overview, or that of the tools view,
    runs on, its counter [turn_num] is the number of [user] turns it has
    met, and whenever a step returns the counter has advanced by one for a
    user turn and not at all for a turn of any other role. An assistant or
    toolResult turn [t] that comes next is windowed under the number of the
    nearest preceding user turn, 0 when there is none: with that number at
    or below a non-zero offset the step prints nothing and the loop goes
    on; with it past the upper bound of a non-zero limit the step prints
    nothing and the loop ends; otherwise the step is the block of the turn,
    the counter unchanged. (The overview formats the timestamp before the
    tests; the tools view inside the block, where it has a block for the
    turn: a toolResult, or an assistant turn with tool calls.) *)
Theorem user_turn_counter (json_dumps : json -> string)
  (clock : json -> result string) (a : args_t) (before : list turn) :
  (forall n,
     reaches (overview_body clock a) 0 before n ->
     n = count_role "user" before
     /\ (forall t o n' f,
           overview_body clock a n t = (o, Ok (n', f)) ->
           n' = if is_user t then n + 1 else n)
     /\ (forall t ts,
           is_assistant t = true \/ is_tool_result t = true ->
           format_timestamp clock (timestamp t) = Ok ts ->
           windowed_under (offset a) (limit a)
             (nearest_user_number (rev before)) n
             ((if is_assistant t then overview_assistant ts t
               else overview_result ts t) ;;; Out.ret (n, Next))
             (overview_body clock a n t)))
  /\ (forall st,
        reaches (tools_body json_dumps clock a) (0, 0) before st ->
        fst st = count_role "user" before
        /\ (forall t o st' f,
              tools_body json_dumps clock a st t = (o, Ok (st', f)) ->
              fst st' = if is_user t then fst st + 1 else fst st)
        /\ (forall t,
              is_assistant t = true /\ nonempty (tool_calls t) = true
              \/ is_tool_result t = true ->
              windowed_under (offset a) (limit a)
                (nearest_user_number (rev before)) st
                (if is_assistant t
                 then ts <~ Out.lift (format_timestamp clock (timestamp t)) ;;
                      m <~ tools_calls json_dumps a ts (snd st)
                             (tool_calls t) ;;
                      Out.ret (fst st, m, Next)
                 else tools_result a t ;;; Out.ret (st, Next))
                (tools_body json_dumps clock a st t))).
Proof.
  split.
  - intros n Ho.
    destruct (reaches_counter Z unit string (fun m _ => m)
                (overview_body clock a) a (timestamp_guard clock)
                overview_shows (fun u _ => u) overview_block
                (overview_is_step clock a) before 0 n Ho 0 tt eq_refl)
      as [_ Hn].
    simpl in Hn. split; [exact Hn|]. split.
    + intros t o n' f Hb.
      destruct (step_state Z unit string (fun m _ => m)
                  (overview_body clock a) a (timestamp_guard clock)
                  overview_shows (fun u _ => u) overview_block
                  (overview_is_step clock a) n tt t o n' f Hb) as [_ ->].
      reflexivity.
    + intros t ts Hrole Hts.
      rewrite (overview_step_shown clock a n t ts Hrole Hts).
      rewrite nearest_user_number_count, <- Hn.
      apply windowed_under_shown.
      apply (keep_then n _ (fun s' => Out.ret (s', Next))).
  - intros st Ht.
    destruct (reaches_counter (Z * Z) Z unit (fun m k => (m, k))
                (tools_body json_dumps clock a) a no_guard
                tools_shows (fun u _ => u) (tools_block json_dumps clock a)
                (tools_is_step json_dumps clock a) before (0, 0) st Ht 0 0
                eq_refl)
      as [k ->].
    cbn [fst snd]. split; [reflexivity|]. split.
    + intros t o st' f Hb.
      destruct (step_state (Z * Z) Z unit (fun m k => (m, k))
                  (tools_body json_dumps clock a) a no_guard
                  tools_shows (fun u _ => u) (tools_block json_dumps clock a)
                  (tools_is_step json_dumps clock a) _ k t o st' f Hb)
        as [k' ->].
      reflexivity.
    + intros t Hrole.
      rewrite (tools_step_shown json_dumps clock a _ k t Hrole).
      rewrite nearest_user_number_count.
      replace (0 + count_role "user" before) with (count_role "user" before)
        by lia.
      apply windowed_under_shown.
      destruct (is_assistant t).
      * rewrite bind_assoc. apply bind_ext. intros ts.
        rewrite bind_assoc. apply bind_ext. intros m.
        rewrite bind_ret_l. reflexivity.
      * apply (keep_then _ _ (fun s' => Out.ret (s', Next))).
Qed.

Lemma user_turn_counter_witness :
  (1 = count_role "user" [user_turn; assistant_turn]
   /\ (forall t o n' f,
         overview_body no_clock (Args Overview 1 1 2000) 1 t
         = (o, Ok (n', f)) ->
         n' = if is_user t then 1 + 1 else 1)
   /\ (forall t ts,
         is_assistant t = true \/ is_tool_result t = true ->
         format_timestamp no_clock (timestamp t) = Ok ts ->
         windowed_under 1 1
           (nearest_user_number (rev [user_turn; assistant_turn])) 1
           ((if is_assistant t then overview_assistant ts t
             else overview_result ts t) ;;; Out.ret (1, Next))
           (overview_body no_clock (Args Overview 1 1 2000) 1 t)))
  /\ (fst (1, 0) = count_role "user" [user_turn; assistant_turn]
      /\ (forall t o st' f,
            tools_body (fun _ => "") no_clock (Args Tools 1 1 2000) (1, 0) t
            = (o, Ok (st', f)) ->
            fst st' = if is_user t then fst (1, 0) + 1 else fst (1, 0))
      /\ (forall t,
            is_assistant t = true /\ nonempty (tool_calls t) = true
            \/ is_tool_result t = true ->
            windowed_under 1 1
              (nearest_user_number (rev [user_turn; assistant_turn])) (1, 0)
              (if is_assistant t
               then ts <~ Out.lift (format_timestamp no_clock (timestamp t)) ;;
                    m <~ tools_calls (fun _ => "") (Args Tools 1 1 2000) ts
                           (snd (1, 0)) (tool_calls t) ;;
                    Out.ret (fst (1, 0), m, Next)
               else tools_result (Args Tools 1 1 2000) t
                    ;;; Out.ret (1, 0, Next))
              (tools_body (fun _ => "") no_clock (Args Tools 1 1 2000)
                 (1, 0) t))).
Proof.
  split.
  - apply (proj1 (user_turn_counter (fun _ => "") no_clock
                    (Args Overview 1 1 2000) [user_turn; assistant_turn]) 1).
    eapply reaches_cons; [vm_compute; reflexivity|].
    eapply reaches_cons; [vm_compute; reflexivity|].
    apply reaches_nil.
  - apply (proj2 (user_turn_counter (fun _ => "") no_clock
                    (Args Tools 1 1 2000) [user_turn; assistant_turn]) (1, 0)).
    eapply reaches_cons; [vm_compute; reflexivity|].
    eapply reaches_cons; [vm_compute; reflexivity|].
    apply reaches_nil.
Defined.

Example nearest_user_of_result :
  turn_number [user_turn; assistant_turn; user_turn; assistant_turn]
    long_result_turn = 2
  /\ turn_number [] long_result_turn = 0.
Proof. split; reflexivity. Qed.

(** An assistant turn under number 1 with offset 1: hidden, the loop goes
    on; with offset 0 and limit 1 under number 2: the loop ends. *)
Example assistant_windowed_under_user_number :
  overview_body no_clock (Args Overview 1 0 2000) 1 assistant_turn
  = Out.ret (1, Next)
  /\ overview_body no_clock (Args Overview 0 1 2000) 2 assistant_turn
     = Out.ret (2, Break).
Proof. split; reflexivity. Qed.

(** ** Turns of another role *)

Lemma Forall2_nth_error {A B} (R : A -> B -> Prop) xs ys :
  Forall2 R xs ys ->
  forall i x, nth_error xs i = Some x ->
  exists y, nth_error ys i = Some y /\ R x y.
Proof.
  induction 1 as [|x0 y0 xs ys Hxy _ IH]; intros [|i] x; simpl;
    try discriminate.
  - intros [= <-]. eauto.
  - apply IH.
Qed.

Lemma role_default_irrelevant m lit :
  lit <> "" ->
  Py.eq_str (Py.dict_get m "role" JNull) lit
  = Py.eq_str (Py.dict_get m "role" (JStr "")) lit.
Proof.
  intros Hl. unfold Py.dict_get. destruct (Py.lookup "role" m); simpl;
    [reflexivity|].
  destruct lit; [congruence | reflexivity].
Qed.

(** The line of counts is among the lines of the header, whenever the
    header is printed to its end. *)
Lemma overview_header_counts metadata events turns o :
  overview_header metadata events turns = (o, Ok tt) ->
  In [Str "  Turns:     "; Int (Z.of_nat (List.length turns));
      Str " total ("; Int (count_role "user" turns); Str " user, ";
      Int (count_role "assistant" turns); Str " assistant, ";
      Int (count_role "toolResult" turns); Str " tool results)"] o.
Proof.
  unfold overview_header. intros H.
  do 11 (apply bind_ok in H as (? & ? & ? & _ & H & ->);
         apply in_or_app; right).
  apply bind_ok in H as (? & ? & ? & _ & H & ->); apply in_or_app; right.
  apply bind_ok in H as (? & [[total_cost total_input] total_output] & ?
                         & _ & H & ->); apply in_or_app; right.
  apply bind_ok in H as (? & [subagent_cost subagent_count] & ? & _ & H & ->);
    apply in_or_app; right.
  do 2 (apply bind_ok in H as (? & ? & ? & _ & H & ->);
        apply in_or_app; right).
  apply bind_ok in H as (? & ? & ? & Hp & _ & ->).
  apply in_or_app. left. injection Hp as <- _. left. reflexivity.
Qed.

Section Silent.

Variable json_dumps : json -> string.
Variable clock : json -> result string.
Variable path_exists : string -> bool.
Variable a : args_t.

(** A turn of another role carrying neither usage nor subagent details
    goes through every turn loop without output and without effect; the
    overview and the full view format its timestamp, and do nothing else
    with it. *)
Lemma other_role_bodies t :
  other_role t = true ->
  usage t = None ->
  subagent_details t = None ->
  (forall n, overview_body clock a n t
             = (_ <~ Out.lift (format_timestamp clock (timestamp t)) ;;
                Out.ret (n, Next)))
  /\ (forall n, conversation_body clock a n t = Out.ret (n, Next))
  /\ (forall n, full_body json_dumps clock a n t
                = (_ <~ Out.lift (format_timestamp clock (timestamp t)) ;;
                   Out.ret (n, Next)))
  /\ (forall st, tools_body json_dumps clock a st t = Out.ret (st, Next))
  /\ (forall st, costs_body clock a st t = Out.ret (st, Next))
  /\ (forall st, costs_subagent_body st t = Out.ret (st, Next))
  /\ (forall acc, overview_subagent_step acc t = Ok acc)
  /\ (forall c i o,
        exists c' i' o',
          overview_cost_step (c, i, o) t = Ok (c', i', o')
          /\ c' == c /\ i' == i /\ o' == o).
Proof.
  unfold other_role, is_user, is_assistant, is_tool_result.
  intros Hrole Hu Hd.
  apply andb_true_iff in Hrole as [Hrole Hr].
  apply andb_true_iff in Hrole as [Huser Ha].
  apply negb_true_iff in Huser, Ha, Hr.
  repeat split.
  - intros n. unfold overview_body. now rewrite Huser, Ha, Hr.
  - intros n. unfold conversation_body. now rewrite Huser, Ha, Hr.
  - intros n. unfold full_body. now rewrite Huser, Ha, Hr.
  - intros [n k]. unfold tools_body. now rewrite Huser, Ha, Hr.
  - intros [[c n] k]. unfold costs_body. now rewrite Huser, Ha.
  - intros st. unfold costs_subagent_body. now rewrite Hd.
  - intros [c k]. unfold overview_subagent_step. now rewrite Hd.
  - intros c i o. unfold overview_cost_step. rewrite Hu. simpl.
    do 3 eexists. split; [reflexivity|].
    repeat split; apply Qplus_0_r.
Qed.

Lemma lift_then_ret {A B} (r : result A) (b : B) :
  Out.stdout (_ <~ Out.lift r ;; Out.ret b) = []
  /\ Out.outcome (_ <~ Out.lift r ;; Out.ret b) = (_ <- r ;; Ok b).
Proof. destruct r; split; reflexivity. Qed.

End Silent.

(** C10. Every message record yields a turn, so the total the overview
    prints in its line of counts, [len(turns)], is the number of message
    records and counts the turn whatever its role; the turn carries the
    record's inner role (the empty string when the role is missing). When
    that role is none of [user], [assistant], [toolResult], every turn loop
    (overview, conversation, full, tools, costs, the subagent rows of the
    costs view) and the loop of the subagents view prints nothing for it
    and leaves its variables, the user-turn counter among them, unchanged;
    it adds nothing to the session and subagent totals. The overview and
    the full view format the timestamp of the turn all the same: their
    step returns the unchanged counter when that succeeds and ends with
    the exception of the conversion otherwise; the other loops pass over
    the turn. *)
Theorem other_roles_silent (json_dumps : json -> string)
  (clock : json -> result string)
  (path_exists : string -> bool) (a : args_t)
  (messages : list json) (turns : list turn) :
  extract_turns messages = Ok turns ->
  List.length turns = List.length messages
  /\ (forall metadata events o,
        overview_header metadata events turns = (o, Ok tt) ->
        In [Str "  Turns:     "; Int (Z.of_nat (List.length messages));
            Str " total ("; Int (count_role "user" turns); Str " user, ";
            Int (count_role "assistant" turns); Str " assistant, ";
            Int (count_role "toolResult" turns); Str " tool results)"]
           (Out.stdout (print_overview clock metadata events turns a)))
  /\ forall i entry,
       nth_error messages i = Some entry ->
       exists t,
         nth_error turns i = Some t
         /\ role t = inner_role entry
         /\ (other_role t = true ->
             (forall n,
                Out.stdout (overview_body clock a n t) = []
                /\ Out.outcome (overview_body clock a n t)
                   = (_ <- format_timestamp clock (timestamp t) ;;
                      Ok (n, Next)))
             /\ (forall n, conversation_body clock a n t = Out.ret (n, Next))
             /\ (forall n,
                   Out.stdout (full_body json_dumps clock a n t) = []
                   /\ Out.outcome (full_body json_dumps clock a n t)
                      = (_ <- format_timestamp clock (timestamp t) ;;
                         Ok (n, Next)))
             /\ (forall st, tools_body json_dumps clock a st t
                            = Out.ret (st, Next))
             /\ (forall st, costs_body clock a st t = Out.ret (st, Next))
             /\ (forall st, costs_subagent_body st t = Out.ret (st, Next))
             /\ (forall acc, overview_subagent_step acc t = Ok acc)
             /\ (forall c i o,
                   exists c' i' o',
                     overview_cost_step (c, i, o) t = Ok (c', i', o')
                     /\ c' == c /\ i' == i /\ o' == o)
             /\ (forall st j,
                   subagents_body path_exists messages st (j, entry)
                   = Out.ret (st, Next))).
Proof.
  intros H. apply mapM_Forall2 in H.
  assert (Hlen : List.length turns = List.length messages)
    by (symmetry; eapply Forall2_length, H).
  split; [exact Hlen|]. split.
  - intros metadata events o Hh. rewrite <- Hlen.
    pose proof (overview_header_counts _ _ _ _ Hh) as Hin.
    unfold print_overview. rewrite Hh. unfold Out.bind.
    destruct (_ <~ for_each (overview_body clock a) turns 0 ;; Out.ret tt)
      as [o' r].
    destruct (for_each (overview_body clock a) turns 0) as [o1 [n|e]];
      cbn [Out.stdout fst]; apply in_or_app; left; exact Hin.
  - intros i entry Hi.
    destruct (Forall2_nth_error _ _ _ H i entry Hi) as (t & Ht & Hex).
    exists t. split; [exact Ht|].
    destruct (extract_turn_fields entry t Hex)
      as (e & m & seg & -> & Hm & _ & Hrole & _ & Hu & Hd).
    split; [simpl; rewrite Hm; exact Hrole|].
    intros Hother.
    assert (Hparts := Hother). unfold other_role in Hparts.
    apply andb_true_iff in Hparts as [Hparts Hr].
    apply andb_true_iff in Hparts as [_ Ha].
    apply negb_true_iff in Ha, Hr. unfold is_assistant, is_tool_result in *.
    assert (Hu' : usage t = None).
    { destruct (usage t) as [u|]; [|reflexivity].
      destruct (Hu u eq_refl) as [Hc _]. congruence. }
    assert (Hd' : subagent_details t = None).
    { destruct (subagent_details t) as [d|]; [|reflexivity].
      destruct (Hd d eq_refl) as [Hc _]. congruence. }
    destruct (other_role_bodies json_dumps clock a t Hother Hu' Hd')
      as (B1 & B2 & B3 & B4 & B5 & B6 & B7 & B8).
    split; [intros n; rewrite B1; apply lift_then_ret|].
    split; [exact B2|].
    split; [intros n; rewrite B3; apply lift_then_ret|].
    repeat split; try assumption.
    intros [sub_num found] j. unfold subagents_body. simpl. rewrite Hm.
    unfold extract_subagent_details. simpl.
    rewrite role_default_irrelevant by discriminate.
    rewrite <- Hrole, Hr. reflexivity.
Qed.

Lemma other_roles_silent_witness :
  List.length [user_turn; system_turn]
  = List.length [user_value; system_message]
  /\ (forall metadata events o,
        overview_header metadata events [user_turn; system_turn] = (o, Ok tt) ->
        In [Str "  Turns:     ";
            Int (Z.of_nat (List.length [user_value; system_message]));
            Str " total (";
            Int (count_role "user" [user_turn; system_turn]); Str " user, ";
            Int (count_role "assistant" [user_turn; system_turn]);
            Str " assistant, ";
            Int (count_role "toolResult" [user_turn; system_turn]);
            Str " tool results)"]
           (Out.stdout (print_overview no_clock metadata events
                          [user_turn; system_turn] (Args Overview 0 0 2000))))
  /\ forall i entry,
       nth_error [user_value; system_message] i = Some entry ->
       exists t,
         nth_error [user_turn; system_turn] i = Some t
         /\ role t = inner_role entry
         /\ (other_role t = true ->
             (forall n,
                Out.stdout (overview_body no_clock (Args Overview 0 0 2000) n t)
                = []
                /\ Out.outcome
                     (overview_body no_clock (Args Overview 0 0 2000) n t)
                   = (_ <- format_timestamp no_clock (timestamp t) ;;
                      Ok (n, Next)))
             /\ (forall n, conversation_body no_clock
                             (Args Overview 0 0 2000) n t
                           = Out.ret (n, Next))
             /\ (forall n,
                   Out.stdout (full_body (fun _ => "") no_clock
                                 (Args Overview 0 0 2000) n t) = []
                   /\ Out.outcome (full_body (fun _ => "") no_clock
                                     (Args Overview 0 0 2000) n t)
                      = (_ <- format_timestamp no_clock (timestamp t) ;;
                         Ok (n, Next)))
             /\ (forall st, tools_body (fun _ => "") no_clock
                              (Args Overview 0 0 2000) st t
                            = Out.ret (st, Next))
             /\ (forall st, costs_body no_clock (Args Overview 0 0 2000) st t
                            = Out.ret (st, Next))
             /\ (forall st, costs_subagent_body st t = Out.ret (st, Next))
             /\ (forall acc, overview_subagent_step acc t = Ok acc)
             /\ (forall c i o,
                   exists c' i' o',
                     overview_cost_step (c, i, o) t = Ok (c', i', o')
                     /\ c' == c /\ i' == i /\ o' == o)
             /\ (forall st j,
                   subagents_body (fun _ => false)
                     [user_value; system_message] st (j, entry)
                   = Out.ret (st, Next))).
Proof.
  apply (other_roles_silent (fun _ => "") no_clock (fun _ => false)
           (Args Overview 0 0 2000)
           [user_value; system_message] [user_turn; system_turn]).
  reflexivity.
Defined.

Example roleless_message_turn :
  exists t,
    extract_turn roleless_message = Ok t
    /\ role t = JStr "" /\ other_role t = true.
Proof. eexists. repeat split. Qed.

Example system_turn_counted :
  In [Str "  Turns:     "; Int 2; Str " total ("; Int 1; Str " user, ";
      Int 0; Str " assistant, "; Int 0; Str " tool results)"]
     (Out.stdout (print_overview no_clock (JDict []) []
                    [user_turn; system_turn] (Args Overview 0 0 2000)))
  /\ Out.stdout (for_each (overview_body no_clock (Args Overview 0 0 2000))
                   [user_turn; system_turn] 0)
     = [ [Str nl; Str "["; Str "?"; Str "] "; Glyph "user"; Str " USER #";
          Int 1; Str ": "; Str "hello"] ].
Proof. split; [vm_compute; tauto | reflexivity]. Qed.

(** A turn of another role whose timestamp is out of range ends the
    overview, having printed nothing for it. *)
Example far_system_turn_ends_overview :
  overview_body bounded_clock (Args Overview 0 0 2000) 1 far_system_turn
  = ([], Raise OverflowError)
  /\ conversation_body bounded_clock (Args Conversation 0 0 2000) 1
       far_system_turn
     = Out.ret (1, Next).
Proof. split; reflexivity. Qed.

(** ** Session cost: the overview against the costs view *)

Lemma for_each_cons_next {S A} (body : S -> A -> out (S * flow)) s x xs
  o1 s1 o fin :
  body s x = (o1, Ok (s1, Next)) ->
  for_each body (x :: xs) s = (o, Ok fin) ->
  exists o', for_each body xs s1 = (o', Ok fin).
Proof.
  intros Hb. cbn [for_each]. rewrite Hb. unfold Out.bind.
  destruct (for_each body xs s1) as [o' r]. intros [= _ ->]. eauto.
Qed.

Lemma for_each_cons_break {S A} (body : S -> A -> out (S * flow)) s x xs
  o1 s1 o fin :
  body s x = (o1, Ok (s1, Break)) ->
  for_each body (x :: xs) s = (o, Ok fin) ->
  fin = s1.
Proof. intros Hb. cbn [for_each]. rewrite Hb. now intros [= _ ->]. Qed.

Lemma for_each_cons_raise {S A} (body : S -> A -> out (S * flow)) s x xs
  o1 e o fin :
  body s x = (o1, Raise e) ->
  for_each body (x :: xs) s = (o, Ok fin) ->
  False.
Proof. intros Hb. cbn [for_each]. rewrite Hb. discriminate. Qed.

(** The overview adds [usage.cost.total] of every turn, which is the cost
    of the turn when usage is carried by assistant turns only. *)
Lemma overview_step_cost c i o t c' i' o' :
  (forall u, usage t = Some u ->
             is_assistant t = true /\ Py.truthy u = true) ->
  overview_cost_step (c, i, o) t = Ok (c', i', o') ->
  c' = (c + turn_cost t)%Q.
Proof.
  intros Hinv. unfold overview_cost_step, turn_cost, usage_cost_total.
  destruct (usage t) as [u|] eqn:Eu.
  - destruct (Hinv u eq_refl) as [Ha Ht]. rewrite Ha. simpl. rewrite Ht.
    destruct (Py.get u "cost" (JDict [])) as [cost|e]; simpl;
      [|discriminate].
    destruct (Py.get cost "total" (JNum 0)) as [total|e]; simpl;
      [|discriminate].
    destruct (Py.number total) as [x|e]; simpl; [|discriminate].
    destruct (Py.get u "input" (JNum 0)) as [inp|e]; simpl; [|discriminate].
    destruct (Py.number inp) as [xi|e]; simpl; [|discriminate].
    destruct (Py.get u "output" (JNum 0)) as [outp|e]; simpl;
      [|discriminate].
    destruct (Py.number outp) as [xo|e]; simpl; [|discriminate].
    intros [= <- _ _]. reflexivity.
  - simpl. rewrite andb_false_r. intros [= <- _ _]. reflexivity.
Qed.

Lemma overview_totals_sum turns : forall c i o c' i' o' acc,
  Forall (fun t => forall u, usage t = Some u ->
                             is_assistant t = true /\ Py.truthy u = true)
    turns ->
  Py.foldM overview_cost_step turns (c, i, o) = Ok (c', i', o') ->
  c == acc ->
  c' == fold_left (fun acc t => (acc + turn_cost t)%Q) turns acc.
Proof.
  induction turns as [|t rest IH]; intros c i o c' i' o' acc Hinv H Hc.
  - simpl in H. injection H as <- _ _. exact Hc.
  - inversion Hinv as [|? ? Ht Hrest]; subst.
    cbn [Py.foldM] in H.
    destruct (overview_cost_step (c, i, o) t) as [[[c1 i1] o1]|e] eqn:Hs;
      cbn [Py.bind] in H; [|discriminate].
    apply (overview_step_cost _ _ _ _ _ _ _ Ht) in Hs. subst c1.
    simpl. eapply IH; [exact Hrest | exact H |].
    rewrite Hc. reflexivity.
Qed.

(** A printed row adds [usage.cost.total] of its turn. *)
Lemma costs_row_cost clock c k t o c' :
  costs_row clock c k t = (o, Ok c') ->
  exists x, usage_cost_total t = Ok x /\ c' = (c + x)%Q.
Proof.
  unfold costs_row, usage_cost_total. intros H.
  destruct (usage t) as [u|]; [|discriminate]. cbn [opt_item opt_get] in *.
  rewrite bind_lift_l in H.
  do 3 lift_ok H. rewrite E; cbn [Py.bind]. rewrite E0; cbn [Py.bind].
  rewrite E1. do 8 lift_ok H.
  apply bind_ok in H as (o1 & u1 & o2 & _ & H & _).
  injection H as _ <-. eauto.
Qed.

(** The cost of a turn the costs view has no row for is nothing. *)
Lemma turn_cost_unshown t : costs_shows t = false -> turn_cost t = 0%Q.
Proof. unfold costs_shows, turn_cost. now intros ->. Qed.

Lemma turn_cost_shown t x :
  costs_shows t = true -> usage_cost_total t = Ok x -> turn_cost t = x.
Proof. unfold costs_shows, turn_cost. now intros -> ->. Qed.

(** Past the upper bound no turn is inside the window. *)
Lemma window_cost_closed a n rest : forall before acc,
  after_window a n = true ->
  n <= count_role "user" before ->
  window_cost_from (offset a) (limit a) before rest acc = acc.
Proof.
  induction rest as [|t rest IH]; intros before acc Ha Hn; [reflexivity|].
  cbn [window_cost_from].
  assert (Hle : n <= turn_number before t).
  { rewrite turn_number_count. destruct (is_user t); lia. }
  rewrite (after_window_hidden a n _ Ha Hle).
  apply IH; [exact Ha|]. rewrite turn_number_next. exact Hle.
Qed.

(** The total of the costs loop is the cost of the turns inside the
    window, whatever the window. *)
Lemma costs_rows_window clock a rest : forall before c k o fin acc,
  for_each (costs_body clock a) rest (c, count_role "user" before, k)
  = (o, Ok fin) ->
  c == acc ->
  fst (fst fin) == window_cost_from (offset a) (limit a) before rest acc.
Proof.
  induction rest as [|t rest IH]; intros before c k o fin acc H Hc.
  - simpl in H. injection H as _ <-. exact Hc.
  - pose proof (costs_is_step clock a (count_role "user" before) (c, k) t)
      as Hstep.
    cbn [fst snd] in Hstep. unfold windowed_step, no_guard in Hstep.
    rewrite bind_ret_l, step_counter in Hstep.
    cbn [window_cost_from].
    destruct (costs_shows t) eqn:Hs.
    + unfold windowed in Hstep.
      destruct (before_window a (turn_number before t)) eqn:Hb.
      * rewrite (before_window_hidden _ _ Hb).
        destruct (for_each_cons_next _ _ _ _ _ _ _ _ Hstep H) as [o' H'].
        rewrite <- turn_number_next in H'.
        apply (IH _ _ _ _ _ _ H' Hc).
      * destruct (after_window a (turn_number before t)) eqn:Ha.
        -- rewrite (after_window_hidden _ _ _ Ha (Z.le_refl _)).
           rewrite (for_each_cons_break _ _ _ _ _ _ _ _ Hstep H).
           rewrite (window_cost_closed a _ rest (before ++ [t]) acc Ha)
             by (rewrite turn_number_next; lia).
           exact Hc.
        -- rewrite (inside_window_shown _ _ Hb Ha).
           unfold costs_block, costs_count in Hstep. cbn [fst snd] in Hstep.
           destruct (costs_row clock c (k + 1) t) as [o1 [c1|e]] eqn:Hrow.
           ++ destruct (costs_row_cost _ _ _ _ _ _ Hrow) as (x & Hx & ->).
              simpl in Hstep.
              destruct (for_each_cons_next _ _ _ _ _ _ _ _ Hstep H)
                as [o' H'].
              rewrite <- turn_number_next in H'.
              apply (IH _ _ _ _ _ _ H').
              rewrite (turn_cost_shown t x Hs Hx), Hc. reflexivity.
           ++ simpl in Hstep.
              destruct (for_each_cons_raise (costs_body clock a)
                          (c, count_role "user" before, k) t rest o1 e o fin
                          Hstep H).
    + destruct (for_each_cons_next _ _ _ _ _ _ _ _ Hstep H) as [o' H'].
      rewrite <- turn_number_next in H'.
      apply (IH _ _ _ _ _ _ H').
      rewrite (turn_cost_unshown t Hs). cbn [fst].
      destruct (shown_window _ _ _); rewrite Hc;
        [symmetry; apply Qplus_0_r | reflexivity].
Qed.

(** When every turn the costs view has a row for is inside the window,
    the cost of the turns inside the window is the cost of the session. *)
Lemma window_cost_covered offset limit rest : forall before acc1 acc2,
  (forall b t r, rest = (b ++ t :: r)%list ->
                 costs_shows t = true ->
                 shown_window offset limit (turn_number (before ++ b) t)
                 = true) ->
  acc1 == acc2 ->
  window_cost_from offset limit before rest acc1
  == fold_left (fun acc t => (acc + turn_cost t)%Q) rest acc2.
Proof.
  induction rest as [|t rest IH]; intros before acc1 acc2 Hcover Hacc.
  - exact Hacc.
  - cbn [window_cost_from fold_left]. apply IH.
    + intros b t0 r -> Hs. rewrite <- app_assoc.
      apply (Hcover (t :: b) t0 r eq_refl Hs).
    + destruct (costs_shows t) eqn:Hs.
      * pose proof (Hcover [] t rest eq_refl Hs) as Hin.
        rewrite app_nil_r in Hin. rewrite Hin, Hacc. reflexivity.
      * rewrite (turn_cost_unshown t Hs).
        destruct (shown_window _ _ _); rewrite Hacc; [reflexivity|].
        symmetry. apply Qplus_0_r.
Qed.

Lemma extracted_usage_is_assistant messages turns :
  extract_turns messages = Ok turns ->
  Forall (fun t => forall u, usage t = Some u ->
                             is_assistant t = true /\ Py.truthy u = true)
    turns.
Proof.
  intros H. apply mapM_Forall2 in H.
  induction H as [|entry t messages turns Hex _ IH]; constructor; [|exact IH].
  destruct (extract_turn_fields entry t Hex)
    as (e & m & seg & _ & _ & _ & _ & _ & Hu & _).
  exact Hu.
Qed.

(** C5, as stated, fails: with offset 1 the costs view skips the assistant
    turn that answers the first user turn and totals 0, while the overview
    still totals that turn's cost, 0.02. *)
Lemma windowed_costs_total_differs :
  overview_totals [user_turn; assistant_turn] = Ok (2 # 100, 0, 0)%Q
  /\ costs_rows no_clock [user_turn; assistant_turn] (Args Costs 1 0 2000)
     = ([], Ok (0%Q, 1, 1))
  /\ ~ (2 # 100 == 0)
  /\ In [Str "  Session cost: $"; Fixed4 0 (2 # 100)]
       (Out.stdout (print_overview no_clock (JDict []) []
                      [user_turn; assistant_turn] (Args Overview 1 0 2000)))
  /\ In [Padded 54 (Str "TOTAL"); Str " $"; Fixed4 9 (0 + 0)]
       (Out.stdout (print_costs no_clock [user_turn; assistant_turn]
                      (Args Costs 1 0 2000))).
Proof.
  split; [reflexivity|]. split; [reflexivity|]. split; [discriminate|].
  split; vm_compute; tauto.
Qed.

(** C5, amended. For the turns of a parsed session:
    the aggregate session cost of the overview, whenever its loop returns,
    is the sum over the assistant turns carrying usage of the usage cost
    total field, whatever the offset and limit and whatever the costs view
    does;
    the session total of the costs view, whenever its loop returns, is the
    same sum restricted to the turns whose turn number is inside the
    offset/limit window, whatever the window;
    when every assistant turn carrying usage has its turn number inside
    the window the two sums are the same, and the two totals are equal;
    such is the case with offset 0 and limit 0. *)
Theorem session_cost_agreement (clock : json -> result string) (a : args_t)
  (messages : list json) (turns : list turn) :
  extract_turns messages = Ok turns ->
  (forall c i o,
     overview_totals turns = Ok (c, i, o) -> c == session_cost turns)
  /\ (forall rows fin,
        costs_rows clock turns a = (rows, Ok fin) ->
        fst (fst fin) == window_cost (offset a) (limit a) turns)
  /\ ((forall before t after,
         turns = (before ++ t :: after)%list ->
         costs_shows t = true ->
         shown_window (offset a) (limit a) (turn_number before t) = true) ->
      window_cost (offset a) (limit a) turns == session_cost turns
      /\ forall c i o rows fin,
           overview_totals turns = Ok (c, i, o) ->
           costs_rows clock turns a = (rows, Ok fin) ->
           c == fst (fst fin))
  /\ window_cost 0 0 turns == session_cost turns.
Proof.
  intros Hex.
  assert (H1 : forall c i o,
             overview_totals turns = Ok (c, i, o) -> c == session_cost turns).
  { intros c i o Hov. eapply overview_totals_sum;
      [eapply extracted_usage_is_assistant, Hex | exact Hov | reflexivity]. }
  assert (H2 : forall rows fin,
             costs_rows clock turns a = (rows, Ok fin) ->
             fst (fst fin) == window_cost (offset a) (limit a) turns).
  { intros rows fin Hco.
    apply (costs_rows_window clock a turns [] 0%Q 0 rows fin 0%Q Hco).
    reflexivity. }
  split; [exact H1|]. split; [exact H2|]. split.
  - intros Hcover.
    assert (H3 : window_cost (offset a) (limit a) turns == session_cost turns).
    { apply (window_cost_covered (offset a) (limit a) turns [] 0%Q 0%Q);
        [exact Hcover | reflexivity]. }
    split; [exact H3|].
    intros c i o rows fin Hov Hco.
    rewrite (H1 _ _ _ Hov), (H2 _ _ Hco), H3. reflexivity.
  - apply (window_cost_covered 0 0 turns [] 0%Q 0%Q); [|reflexivity].
    intros b t r _ _. unfold shown_window. reflexivity.
Qed.

Lemma session_cost_agreement_witness :
  (forall c i o,
     overview_totals [user_turn; assistant_turn; user_turn; assistant_turn]
     = Ok (c, i, o) ->
     c == session_cost [user_turn; assistant_turn; user_turn; assistant_turn])
  /\ (forall rows fin,
        costs_rows no_clock
          [user_turn; assistant_turn; user_turn; assistant_turn]
          (Args Costs 1 0 2000)
        = (rows, Ok fin) ->
        fst (fst fin)
        == window_cost 1 0
             [user_turn; assistant_turn; user_turn; assistant_turn])
  /\ ((forall before t after,
         [user_turn; assistant_turn; user_turn; assistant_turn]
         = (before ++ t :: after)%list ->
         costs_shows t = true ->
         shown_window 1 0 (turn_number before t) = true) ->
      window_cost 1 0 [user_turn; assistant_turn; user_turn; assistant_turn]
      == session_cost [user_turn; assistant_turn; user_turn; assistant_turn]
      /\ forall c i o rows fin,
           overview_totals
             [user_turn; assistant_turn; user_turn; assistant_turn]
           = Ok (c, i, o) ->
           costs_rows no_clock
             [user_turn; assistant_turn; user_turn; assistant_turn]
             (Args Costs 1 0 2000)
           = (rows, Ok fin) ->
           c == fst (fst fin))
  /\ window_cost 0 0 [user_turn; assistant_turn; user_turn; assistant_turn]
     == session_cost [user_turn; assistant_turn; user_turn; assistant_turn].
Proof.
  apply (session_cost_agreement no_clock (Args Costs 1 0 2000)
           [user_value; assistant_value; user_value; assistant_value]
           [user_turn; assistant_turn; user_turn; assistant_turn]).
  reflexivity.
Defined.

(** With offset 1 the costs view totals the second exchange only, the
    overview both. *)
Example windowed_costs_total :
  Out.outcome (costs_rows no_clock
                 [user_turn; assistant_turn; user_turn; assistant_turn]
                 (Args Costs 1 0 2000))
  = Ok ((0 + (2 # 100))%Q, 2, 2)
  /\ window_cost 1 0 [user_turn; assistant_turn; user_turn; assistant_turn]
     == 2 # 100
  /\ session_cost [user_turn; assistant_turn; user_turn; assistant_turn]
     == 4 # 100.
Proof. repeat split. Qed.

(** * Further properties of the code *)

(** ** [parse_session]: what the three results hold *)

Lemma foldM_app {A S} (f : S -> A -> result S) xs ys s :
  Py.foldM f (xs ++ ys) s = Py.bind (Py.foldM f xs s) (Py.foldM f ys).
Proof.
  revert s; induction xs as [|x xs IH]; intros s; simpl; [reflexivity|].
  destruct (f s x) as [s'|e]; simpl; [apply IH | reflexivity].
Qed.

Lemma last_cons {A} (x : A) l d : last (x :: l) d = last l x.
Proof.
  revert x d; induction l as [|y l IH]; intros x d; [reflexivity|].
  change (last (x :: y :: l) d) with (last (y :: l) d).
  rewrite (IH y d), (IH y x). reflexivity.
Qed.

Section ParserContents.

Variable json_loads : string -> option json.

(** What one line does to the three loop variables. *)
Lemma parse_line_effect metadata events messages line st' :
  parse_line json_loads (metadata, events, messages) line = Ok st' ->
  st' = (last (filter is_session_record (records json_loads [line])) metadata,
         (events ++ filter is_event_record (records json_loads [line]))%list,
         (messages ++ message_records json_loads [line])%list)
  /\ (blank line = true
      \/ exists d, json_loads (PyStr.strip line) = Some (JDict d)).
Proof.
  unfold parse_line, message_records, records, blank. simpl.
  destruct (String.eqb (PyStr.strip line) "") eqn:Eb.
  - intros [= <-]. simpl. rewrite !app_nil_r. auto.
  - destruct (json_loads (PyStr.strip line)) as [obj|]; [|discriminate].
    destruct obj as [| | | | |d]; try discriminate. simpl.
    intros H. split; [|right; eauto]. revert H.
    destruct (Py.eq_str (Py.dict_get d "type" JNull) "session") eqn:E1.
    { rewrite (eq_str_exclusive _ "session" "model_change" E1),
        (eq_str_exclusive _ "session" "thinking_level_change" E1),
        (eq_str_exclusive _ "session" "message" E1) by discriminate.
      intros [= <-]. simpl. now rewrite !app_nil_r. }
    destruct (Py.eq_str (Py.dict_get d "type" JNull) "model_change") eqn:E2.
    { rewrite (eq_str_exclusive _ "model_change" "message" E2) by discriminate.
      intros [= <-]. simpl. now rewrite !app_nil_r. }
    destruct (Py.eq_str (Py.dict_get d "type" JNull) "thinking_level_change")
      eqn:E3.
    { rewrite (eq_str_exclusive _ "thinking_level_change" "message" E3)
        by discriminate.
      intros [= <-]. simpl. now rewrite !app_nil_r. }
    simpl.
    destruct (Py.eq_str (Py.dict_get d "type" JNull) "message") eqn:E4;
      intros [= <-]; simpl; now rewrite ?app_nil_r.
Qed.

Lemma records_cons line file :
  records json_loads (line :: file)
  = (records json_loads [line] ++ records json_loads file)%list.
Proof. unfold records. simpl. now rewrite app_nil_r. Qed.

Lemma last_filter_app (f : json -> bool) xs ys d :
  last (filter f (xs ++ ys)) d = last (filter f ys) (last (filter f xs) d).
Proof.
  rewrite filter_app. revert d.
  induction (filter f xs) as [|x l IH]; intros d; [reflexivity|].
  rewrite <- app_comm_cons, !last_cons. apply IH.
Qed.

Lemma parse_lines_effect file : forall metadata events messages st',
  Py.foldM (parse_line json_loads) file (metadata, events, messages) = Ok st' ->
  st' = (last (filter is_session_record (records json_loads file)) metadata,
         (events ++ filter is_event_record (records json_loads file))%list,
         (messages ++ message_records json_loads file)%list)
  /\ Forall (fun line =>
               blank line = true
               \/ exists d, json_loads (PyStr.strip line) = Some (JDict d))
       file.
Proof.
  induction file as [|line file IH]; intros metadata events messages st' H.
  - simpl in H. injection H as <-. unfold message_records. simpl.
    rewrite !app_nil_r. auto.
  - cbn [Py.foldM] in H.
    destruct (parse_line json_loads (metadata, events, messages) line)
      as [st1|e] eqn:Hl; cbn [Py.bind] in H; [|discriminate].
    destruct (parse_line_effect _ _ _ _ _ Hl) as [-> Hline].
    destruct (IH _ _ _ _ H) as [-> Hrest]. split; [|constructor; assumption].
    rewrite (records_cons line file), (message_records_cons json_loads line file).
    rewrite last_filter_app, filter_app, !app_assoc. reflexivity.
Qed.

(** X1. When [parse_session] returns, every non-blank line of the file
    held a JSON object; the metadata is the last [session] record of the
    file (the empty dict when there is none), the events are the
    [model_change] and [thinking_level_change] records in file order, and
    the messages are the [message] records in file order. *)
Theorem parse_session_contents (file : list string)
  (metadata : json) (events messages : list json) :
  parse_session json_loads file = Ok (metadata, events, messages) ->
  metadata = last (filter is_session_record (records json_loads file)) (JDict [])
  /\ events = filter is_event_record (records json_loads file)
  /\ messages = message_records json_loads file
  /\ Forall (fun line =>
               blank line = true
               \/ exists d, json_loads (PyStr.strip line) = Some (JDict d))
       file.
Proof.
  intros H. destruct (parse_lines_effect file _ _ _ _ H) as [E Hall].
  injection E as -> -> ->. auto.
Qed.

Lemma parse_lines_skip_blank file : forall st,
  Py.foldM (parse_line json_loads)
    (filter (fun line => negb (blank line)) file) st
  = Py.foldM (parse_line json_loads) file st.
Proof.
  induction file as [|line file IH]; intros st; [reflexivity|].
  cbn [filter]. destruct (blank line) eqn:Eb; cbn [negb Py.foldM].
  - rewrite IH. destruct st as [[metadata events] messages].
    unfold parse_line at 2. unfold blank in Eb. rewrite Eb. reflexivity.
  - destruct (parse_line json_loads st line); cbn [Py.bind];
      [apply IH | reflexivity].
Qed.

(** X2. Blank lines are invisible to the parser: removing every line that
    is empty once stripped changes neither the result nor the failure. *)
Theorem parse_session_skips_blank_lines (file : list string) :
  parse_session json_loads (filter (fun line => negb (blank line)) file)
  = parse_session json_loads file.
Proof. apply parse_lines_skip_blank. Qed.

End ParserContents.

Lemma parse_session_contents_witness :
  session_value
  = last (filter is_session_record (records sample_loads hello_file)) (JDict [])
  /\ [] = filter is_event_record (records sample_loads hello_file)
  /\ [user_value; assistant_value] = message_records sample_loads hello_file
  /\ Forall (fun line =>
               blank line = true
               \/ exists d, sample_loads (PyStr.strip line) = Some (JDict d))
       hello_file.
Proof.
  apply (parse_session_contents sample_loads hello_file session_value []
           [user_value; assistant_value]).
  vm_compute. reflexivity.
Defined.

(** ** When the tool gets to render *)

Lemma content_items_ok items : forall acc seg,
  Py.foldM content_item items acc = Ok seg ->
  forallb text_item_ok items = true.
Proof.
  induction items as [|item items IH]; intros acc seg H; [reflexivity|].
  cbn [Py.foldM] in H.
  destruct (content_item acc item) as [acc'|e] eqn:Hi; cbn [Py.bind] in H;
    [|discriminate].
  cbn [forallb]. rewrite (IH _ _ H), andb_true_r.
  destruct item as [| | | | |d]; try reflexivity.
  simpl in Hi |- *.
  destruct (Py.eq_str (Py.dict_get d "type" (JStr "")) "text");
    [|reflexivity].
  destruct (Py.dict_get d "text" (JStr "")); try discriminate. reflexivity.
Qed.

Lemma extract_turn_message_ok entry t :
  extract_turn entry = Ok t -> message_ok entry = true.
Proof.
  intros H.
  destruct (extract_turn_fields entry t H)
    as (e & m & seg & -> & Hm & Hg & _).
  unfold message_ok. rewrite Hm.
  destruct (Py.dict_get m "content" (JStr "")) as [| | |s|items|d];
    try reflexivity.
  apply (content_items_ok items _ _ Hg).
Qed.

Lemma mapM_raise {A B} (f : A -> result B) xs :
  (forall ys, Py.mapM f xs <> Ok ys) -> exists e, Py.mapM f xs = Raise e.
Proof.
  intros H. destruct (Py.mapM f xs) as [ys|e]; [|eauto].
  destruct (H ys eq_refl).
Qed.

Section Rendering.

Variable json_loads : string -> option json.
Variable json_dumps : json -> string.
Variable clock : json -> result string.
Variable path_exists : string -> bool.

Lemma rendering_needs_well_formed file metadata events messages turns :
  parse_session json_loads file = Ok (metadata, events, messages) ->
  extract_turns messages = Ok turns ->
  well_formed json_loads file = true.
Proof.
  intros Hp Ht.
  destruct (parse_lines_effect json_loads file _ _ _ _ Hp) as [E Hall].
  injection E as _ _ ->. simpl in Ht.
  apply mapM_Forall2 in Ht.
  assert (Hok : forall entry, In entry (message_records json_loads file) ->
                              message_ok entry = true).
  { intros entry Hin. apply In_nth_error in Hin as [i Hi].
    destruct (Forall2_nth_error _ _ _ Ht i entry Hi) as (t & _ & Hex).
    apply (extract_turn_message_ok entry t Hex). }
  unfold well_formed. apply forallb_forall. intros line Hin.
  rewrite Forall_forall in Hall. specialize (Hall line Hin).
  unfold line_ok. unfold blank in Hall.
  destruct (String.eqb (PyStr.strip line) "") eqn:Eb; [reflexivity|].
  destruct Hall as [Hb|[d Hd]]; [discriminate|]. rewrite Hd.
  destruct (is_message_record (JDict d)) eqn:Em; [|reflexivity].
  apply Hok. unfold message_records. apply filter_In. split; [|exact Em].
  unfold records. apply in_flat_map. exists line. split; [exact Hin|].
  simpl. rewrite Eb, Hd. now left.
Qed.

(** X3. The tool gets as far as a renderer exactly for the well-formed
    files: [parse_session] and [extract_turns] both return iff every
    non-blank line holds a JSON object and, in every [message] record, the
    inner message (when present) is an object whose content items tagged
    [text] carry a string (when they carry a text). *)
Theorem rendering_iff_well_formed (file : list string) :
  (exists metadata events messages turns,
     parse_session json_loads file = Ok (metadata, events, messages)
     /\ extract_turns messages = Ok turns)
  <-> well_formed json_loads file = true.
Proof.
  split.
  - intros (metadata & events & messages & turns & Hp & Ht).
    eapply rendering_needs_well_formed; eassumption.
  - intros Hwf.
    destruct (parse_lines_ok json_loads file (JDict [], [], []) Hwf)
      as (metadata & events & Hparse).
    destruct (mapM_total extract_turn (message_records json_loads file))
      as [turns Hturns].
    { eapply Forall_impl; [|apply message_records_ok, Hwf].
      intros entry. apply extract_turn_total. }
    exists metadata, events, (message_records json_loads file), turns.
    split; [exact Hparse | exact Hturns].
Qed.

(** X4. On a file that is not well formed, [main] ends with an exception
    and has printed nothing on standard output, in every mode: a failure
    of the normaliser, like one of the parser, comes before any report
    line. *)
Theorem ill_formed_file_prints_nothing (file : list string) (a : args_t) :
  well_formed json_loads file = false ->
  exists e,
    main json_loads json_dumps clock path_exists (Some file) a = ([], Raise e).
Proof.
  intros Hwf. unfold main.
  destruct (parse_session json_loads file) as [[[metadata events] messages]|e]
    eqn:Hp; [|exists e; reflexivity].
  destruct (extract_turns messages) as [turns|e] eqn:Ht.
  - rewrite (rendering_needs_well_formed _ _ _ _ _ Hp Ht) in Hwf.
    discriminate.
  - exists e. unfold Out.lift, Out.bind. rewrite Ht. reflexivity.
Qed.

End Rendering.

Lemma ill_formed_file_prints_nothing_witness :
  exists e,
    main sample_loads' (fun _ => "") no_clock (fun _ => false)
      (Some stringly_file) (Args Conversation 0 0 2000)
    = ([], Raise e).
Proof.
  apply (ill_formed_file_prints_nothing sample_loads' (fun _ => "") no_clock
           (fun _ => false) stringly_file (Args Conversation 0 0 2000)).
  vm_compute. reflexivity.
Defined.

Example stringly_file_parses :
  parse_session sample_loads' stringly_file
  = Ok (session_value, [], [user_value; stringly_message])
  /\ extract_turns [user_value; stringly_message] = Raise AttributeError.
Proof. split; vm_compute; reflexivity. Qed.

(** ** Appending to a session file *)

Lemma mapM_app {A B} (f : A -> result B) xs ys :
  Py.mapM f (xs ++ ys)
  = Py.bind (Py.mapM f xs)
      (fun a => Py.bind (Py.mapM f ys) (fun b => Ok (a ++ b)%list)).
Proof.
  induction xs as [|x xs IH]; simpl.
  - destruct (Py.mapM f ys); reflexivity.
  - destruct (f x) as [y|e]; simpl; [|reflexivity].
    rewrite IH. destruct (Py.mapM f xs) as [a|e]; simpl; [|reflexivity].
    destruct (Py.mapM f ys); reflexivity.
Qed.

(** X5. A session file is append-only, and so are the results: when a
    file extended by more lines is parsed and normalised, the shorter file
    is too, and the events, the messages and the turns of the longer file
    are those of the shorter one followed by those of the added lines. *)
Theorem appended_lines_extend_the_session
  (json_loads : string -> option json) (file more : list string)
  (metadata' : json) (events' messages' : list json) (turns' : list turn) :
  parse_session json_loads (file ++ more) = Ok (metadata', events', messages') ->
  extract_turns messages' = Ok turns' ->
  exists metadata events messages turns added,
    parse_session json_loads file = Ok (metadata, events, messages)
    /\ extract_turns messages = Ok turns
    /\ events'
       = (events ++ filter is_event_record (records json_loads more))%list
    /\ messages' = (messages ++ message_records json_loads more)%list
    /\ extract_turns (message_records json_loads more) = Ok added
    /\ turns' = (turns ++ added)%list.
Proof.
  unfold parse_session. rewrite foldM_app. intros Hp Ht.
  destruct (Py.foldM (parse_line json_loads) file (JDict [], [], []))
    as [[[metadata events] messages]|e] eqn:Hfile; cbn [Py.bind] in Hp;
    [|discriminate].
  destruct (parse_lines_effect json_loads more _ _ _ _ Hp) as [E _].
  injection E as _ -> ->.
  unfold extract_turns in *. rewrite mapM_app in Ht.
  destruct (Py.mapM extract_turn messages) as [turns|e] eqn:H1;
    cbn [Py.bind] in Ht; [|discriminate].
  destruct (Py.mapM extract_turn (message_records json_loads more))
    as [added|e] eqn:H2; cbn [Py.bind] in Ht; [|discriminate].
  injection Ht as <-.
  exists metadata, events, messages, turns, added. repeat split; assumption.
Qed.

Lemma appended_lines_extend_the_session_witness :
  exists metadata events messages turns added,
    parse_session sample_loads [session_line; nl; user_line]
    = Ok (metadata, events, messages)
    /\ extract_turns messages = Ok turns
    /\ []
       = (events ++ filter is_event_record (records sample_loads
                                              [assistant_line]))%list
    /\ [user_value; assistant_value]
       = (messages ++ message_records sample_loads [assistant_line])%list
    /\ extract_turns (message_records sample_loads [assistant_line]) = Ok added
    /\ [user_turn; assistant_turn] = (turns ++ added)%list.
Proof.
  apply (appended_lines_extend_the_session sample_loads
           [session_line; nl; user_line] [assistant_line]
           session_value [] [user_value; assistant_value]
           [user_turn; assistant_turn]).
  - vm_compute. reflexivity.
  - reflexivity.
Defined.

(** ** The turns [extract_turns] builds *)

Lemma default_irrelevant m k lit :
  lit <> "" ->
  Py.eq_str (Py.dict_get m k JNull) lit
  = Py.eq_str (Py.dict_get m k (JStr "")) lit.
Proof.
  intros Hl. unfold Py.dict_get. destruct (Py.lookup k m); simpl;
    [reflexivity|].
  destruct lit; [congruence | reflexivity].
Qed.

Lemma non_blank_is_str v : non_blank v = true -> exists s, v = JStr s.
Proof. destruct v; simpl; try discriminate. eauto. Qed.

Lemma result_texts_are_strings content seg :
  generic_content content = Ok seg ->
  Forall (fun v => exists s, v = JStr s) (result_texts content).
Proof.
  destruct content as [| | |s|items|d]; simpl; try (intros _; constructor).
  - intros _. destruct (negb (String.eqb (PyStr.strip s) ""));
      repeat constructor. eauto.
  - intros H. apply content_items_ok in H.
    rewrite result_items_spec. simpl.
    induction items as [|item items IH]; [constructor|].
    cbn [forallb] in H. apply andb_true_iff in H as [Hi Hr].
    cbn [filter]. destruct (is_text_item item) eqn:Et; [|apply IH, Hr].
    cbn [map]. constructor; [|apply IH, Hr].
    destruct item as [| | | | |d]; try discriminate.
    simpl in Et, Hi |- *. rewrite type_is_text, Et in Hi.
    destruct (Py.dict_get d "text" (JStr "")); try discriminate. eauto.
Qed.

Lemma join_texts_total sep vs :
  Forall (fun v => exists s, v = JStr s) vs ->
  exists joined, join_texts sep vs = Ok joined.
Proof.
  intros H. unfold join_texts.
  destruct (mapM_total Py.text vs) as [ss Hss].
  { eapply Forall_impl; [|exact H]. intros v [s ->]. simpl. eauto. }
  rewrite Hss. simpl. eauto.
Qed.

Lemma truncate_value_str v max_len :
  (exists s, v = JStr s) ->
  exists s, v = JStr s /\ truncate_value v max_len = Ok (Str (truncate s max_len)).
Proof. intros [s ->]. exists s. split; reflexivity. Qed.

(** X6. Every text segment of an extracted turn is a string, for a
    toolResult as well: its texts are taken without a test, but the generic
    pass over the same content has already raised on a text that is not a
    string. So neither joining the texts of such a turn nor truncating one
    of them raises: [join] and [truncate] get the strings they expect. *)
Theorem extracted_texts_are_strings (entry : json) (t : turn) :
  extract_turn entry = Ok t ->
  Forall (fun v => exists s, v = JStr s) (texts t)
  /\ (forall sep, exists joined, join_texts sep (texts t) = Ok joined)
  /\ (forall a, exists shown, tools_result_text a t = Ok shown)
  /\ (forall v max_len,
        In v (texts t) ->
        exists s, v = JStr s
                  /\ truncate_value v max_len = Ok (Str (truncate s max_len))).
Proof.
  intros H.
  destruct (extract_turn_fields entry t H)
    as (e & m & seg & _ & _ & Hg & _ & Ht & _).
  assert (Hs : Forall (fun v => exists s, v = JStr s) (texts t)).
  { rewrite Ht. destruct (Py.eq_str (role t) "toolResult").
    - apply (result_texts_are_strings _ seg Hg).
    - assert (Hgen : generic_texts (Py.dict_get m "content" (JStr ""))
                     = Ok (seg_texts seg))
        by (unfold generic_texts; rewrite Hg; reflexivity).
      rewrite (generic_texts_spec _ _ Hgen).
      apply Forall_forall. intros v Hin. apply filter_In in Hin as [_ Hv].
      apply non_blank_is_str, Hv. }
  split; [exact Hs|]. split; [|split].
  - intros sep. apply join_texts_total, Hs.
  - intros a. unfold tools_result_text.
    destruct (join_texts_total " " _ Hs) as [joined ->]. simpl. eauto.
  - intros v max_len Hin. apply truncate_value_str.
    apply (proj1 (Forall_forall _ _) Hs v Hin).
Qed.

Lemma extracted_texts_are_strings_witness :
  Forall (fun v => exists s, v = JStr s) (texts blank_result_turn)
  /\ (forall sep, exists joined,
        join_texts sep (texts blank_result_turn) = Ok joined)
  /\ (forall a, exists shown, tools_result_text a blank_result_turn = Ok shown)
  /\ (forall v max_len,
        In v (texts blank_result_turn) ->
        exists s, v = JStr s
                  /\ truncate_value v max_len = Ok (Str (truncate s max_len))).
Proof.
  apply (extracted_texts_are_strings blank_result blank_result_turn).
  reflexivity.
Defined.

Ltac role_fields :=
  repeat match goal with
         | |- _ /\ _ => split
         | |- _ \/ _ => first [left; role_fields; fail | right; role_fields; fail]
         | |- exists _, _ => eexists
         | |- forall _, _ => intro
         | H : Some _ = Some _ |- _ => injection H as <-
         | H : None = Some _ |- _ => discriminate H
         | H : Some _ = None |- _ => discriminate H
         | |- _ = _ => first [reflexivity | eassumption]
         end.

(** The optional keys of a turn, by role. *)
Lemma extract_turn_optional_keys entry t :
  extract_turn entry = Ok t ->
  exists e m,
    entry = JDict e
    /\ Py.dict_get e "message" (JDict []) = JDict m
    /\ extract_subagent_details (JDict m) = Ok (subagent_details t)
    /\ ((exists u mo p sr,
           usage t = Some u /\ model t = Some mo /\ provider t = Some p
           /\ stop_reason t = Some sr
           /\ is_assistant t = true /\ Py.truthy u = true)
        \/ (usage t = None /\ model t = None /\ provider t = None
            /\ stop_reason t = None))
    /\ ((exists i n,
           tool_call_id t = Some i /\ tool_name t = Some n
           /\ is_tool_result t = true)
        \/ (tool_call_id t = None /\ tool_name t = None
            /\ subagent_details t = None /\ is_tool_result t = false))
    /\ (forall d, subagent_details t = Some d ->
          Py.eq_str (opt_get (tool_name t) JNull) "subagent" = true
          /\ Py.truthy d = true).
Proof.
  unfold extract_turn, is_assistant, is_tool_result. intros H.
  destruct entry as [| | | | |e]; try discriminate. simpl in H.
  destruct (Py.dict_get e "message" (JDict [])) as [| | | | |m] eqn:Em;
    try discriminate.
  simpl in H. exists e, m.
  assert (Hrole : forall lit, lit <> "" ->
            Py.eq_str (Py.dict_get m "role" JNull) lit
            = Py.eq_str (Py.dict_get m "role" (JStr "")) lit)
    by (intros; now apply default_irrelevant).
  destruct (Py.eq_str (Py.dict_get m "role" (JStr "")) "assistant") eqn:Ea.
  - pose proof (eq_str_exclusive _ "assistant" "toolResult" Ea) as Er.
    rewrite Er in H by discriminate.
    destruct (Py.truthy (Py.dict_get m "usage" (JDict []))) eqn:Eu;
      simpl in H;
      destruct (generic_content (Py.dict_get m "content" (JStr "")))
        as [seg|x] eqn:Eg; simpl in H; try discriminate;
      injection H as <-; unfold extract_subagent_details; simpl;
      rewrite Hrole, Er by discriminate; simpl; rewrite ?Ea, ?Er by discriminate;
      role_fields.
  - simpl in H.
    destruct (generic_content (Py.dict_get m "content" (JStr "")))
      as [seg|x] eqn:Eg; simpl in H; try discriminate.
    destruct (Py.eq_str (Py.dict_get m "role" (JStr "")) "toolResult") eqn:Er.
    + unfold extract_subagent_details in *. simpl in H |- *.
      rewrite Hrole, Er in H |- * by discriminate. simpl in H |- *.
      destruct (Py.eq_str (Py.dict_get m "toolName" JNull) "subagent") eqn:En;
        simpl in H |- *.
      * rewrite default_irrelevant in En by discriminate.
        destruct (Py.truthy (Py.dict_get m "details" JNull)) eqn:Ed;
          simpl in H |- *; injection H as <-; simpl; rewrite ?Ea, ?Er;
          role_fields.
      * injection H as <-; simpl; rewrite ?Ea, ?Er; role_fields.
    + injection H as <-. unfold extract_subagent_details. simpl.
      rewrite Hrole, Er by discriminate. simpl. rewrite ?Ea, ?Er.
      role_fields.
Qed.

(** X7. The keys a turn carries depend on its role alone. The cost keys
    ([usage], [model], [provider], [stop_reason]) are set together, and
    only on an assistant turn whose usage is not empty; [tool_call_id] and
    [tool_name] are set exactly on toolResult turns; subagent details are
    attached only to a toolResult whose tool name is [subagent], and are
    never empty. *)
Theorem turn_keys_follow_role (entry : json) (t : turn) :
  extract_turn entry = Ok t ->
  ((exists u mo p sr,
      usage t = Some u /\ model t = Some mo /\ provider t = Some p
      /\ stop_reason t = Some sr
      /\ is_assistant t = true /\ Py.truthy u = true)
   \/ (usage t = None /\ model t = None /\ provider t = None
       /\ stop_reason t = None))
  /\ ((exists i n,
         tool_call_id t = Some i /\ tool_name t = Some n
         /\ is_tool_result t = true)
      \/ (tool_call_id t = None /\ tool_name t = None
          /\ subagent_details t = None /\ is_tool_result t = false))
  /\ (forall d, subagent_details t = Some d ->
        Py.eq_str (opt_get (tool_name t) JNull) "subagent" = true
        /\ Py.truthy d = true).
Proof.
  intros H.
  destruct (extract_turn_optional_keys entry t H)
    as (e & m & _ & _ & _ & H1 & H2 & H3).
  auto.
Qed.

Lemma turn_keys_follow_role_witness :
  ((exists u mo p sr,
      usage assistant_turn = Some u /\ model assistant_turn = Some mo
      /\ provider assistant_turn = Some p
      /\ stop_reason assistant_turn = Some sr
      /\ is_assistant assistant_turn = true /\ Py.truthy u = true)
   \/ (usage assistant_turn = None /\ model assistant_turn = None
       /\ provider assistant_turn = None
       /\ stop_reason assistant_turn = None))
  /\ ((exists i n,
         tool_call_id assistant_turn = Some i
         /\ tool_name assistant_turn = Some n
         /\ is_tool_result assistant_turn = true)
      \/ (tool_call_id assistant_turn = None /\ tool_name assistant_turn = None
          /\ subagent_details assistant_turn = None
          /\ is_tool_result assistant_turn = false))
  /\ (forall d, subagent_details assistant_turn = Some d ->
        Py.eq_str (opt_get (tool_name assistant_turn) JNull) "subagent" = true
        /\ Py.truthy d = true).
Proof.
  apply (turn_keys_follow_role assistant_value assistant_turn). reflexivity.
Defined.

(** ** [format_duration] *)

Example duration_of_1500_ms : format_duration 1500 = [Int 1; Str "s"].
Proof. reflexivity. Qed.

Example duration_of_90_s : format_duration 90500
  = [Int 1; Str "m"; Int 30; Str "s"].
Proof. reflexivity. Qed.

(** X8. Whatever whole number of seconds [int(ms / 1000)] comes to,
    [format_duration] shows it under a minute as [<secs>s] (a negative
    number included) and from a minute on as [<mins>m<secs>s] with at
    least one minute, fewer than 60 seconds, and minutes and seconds
    adding up to it. *)
Theorem duration_minutes_and_seconds (secs : Z) :
  (secs < 60 /\ format_seconds secs = [Int secs; Str "s"])
  \/ (60 <= secs
      /\ exists mins rest,
           format_seconds secs = [Int mins; Str "m"; Int rest; Str "s"]
           /\ 1 <= mins /\ 0 <= rest < 60
           /\ 60 * mins + rest = secs).
Proof.
  unfold format_seconds.
  destruct (secs <? 60) eqn:E.
  - left. apply Z.ltb_lt in E. auto.
  - right. apply Z.ltb_ge in E. split; [exact E|].
    exists (secs / 60), (secs mod 60).
    split; [reflexivity|].
    pose proof (Z.div_mod secs 60 ltac:(lia)).
    pose proof (Z.mod_pos_bound secs 60 ltac:(lia)).
    repeat split; try lia.
Qed.

(** ** Subagent cost: three computations of one amount *)

Lemma costs_subagent_run_cost s k r o s' k' :
  costs_subagent_run (s, k) r = (o, Ok (s', k')) ->
  subagent_cost_run s r = Ok s' /\ k' = k + 1.
Proof.
  unfold costs_subagent_run, subagent_cost_run. intros H.
  do 3 lift_ok H. rewrite E; cbn [Py.bind]. rewrite E0; cbn [Py.bind].
  rewrite E1; cbn [Py.bind].
  do 11 lift_ok H.
  apply bind_ok in H as (o1 & [] & o2 & _ & H & _).
  injection H as _ <- <-. auto.
Qed.

Lemma costs_subagent_runs_cost rs : forall s k o s' k',
  costs_subagent_runs (s, k) rs = (o, Ok (s', k')) ->
  Py.foldM subagent_cost_run rs s = Ok s'.
Proof.
  induction rs as [|r rs IH]; intros s k o s' k' H.
  - injection H as _ <- _. reflexivity.
  - cbn [costs_subagent_runs] in H.
    apply bind_ok in H as (o1 & [s1 k1] & o2 & Hr & H & _).
    apply costs_subagent_run_cost in Hr as [Hr _].
    cbn [Py.foldM]. rewrite Hr. cbn [Py.bind]. apply (IH _ _ _ _ _ H).
Qed.

Lemma count_details_cons t turns :
  Z.of_nat (List.length (filter has_details (t :: turns)))
  = (if has_details t then 1 else 0)
    + Z.of_nat (List.length (filter has_details turns)).
Proof. cbn [filter]. destruct (has_details t); cbn [List.length]; lia. Qed.

Lemma costs_subagent_rows_cost turns : forall s k cnt rows s' k',
  for_each costs_subagent_body turns (s, k) = (rows, Ok (s', k')) ->
  Py.foldM overview_subagent_step turns (s, cnt)
  = Ok (s', cnt + Z.of_nat (List.length (filter has_details turns))).
Proof.
  induction turns as [|t turns IH]; intros s k cnt rows s' k' H.
  - injection H as _ <- _. cbn. now rewrite Z.add_0_r.
  - cbn [for_each] in H.
    apply bind_ok in H as (o1 & [[s1 k1] f] & o2 & Hb & H & _).
    rewrite count_details_cons. cbn [Py.foldM].
    unfold costs_subagent_body in Hb. unfold overview_subagent_step at 1.
    destruct (has_details t) eqn:Hd; unfold has_details in Hd;
      rewrite Hd in Hb |- *; cbn [negb] in Hb.
    + do 2 lift_ok Hb.
      apply bind_ok in Hb as (o3 & [s2 k2] & o4 & Hruns & Hb & _).
      injection Hb as _ <- <- <-.
      rewrite E; cbn [Py.bind]. rewrite E0; cbn [Py.bind].
      rewrite (costs_subagent_runs_cost _ _ _ _ _ _ Hruns). cbn [Py.bind].
      rewrite (IH _ _ (cnt + 1) _ _ _ H). f_equal. f_equal. lia.
    + injection Hb as _ <- <- <-. cbn [Py.bind].
      rewrite (IH _ _ cnt _ _ _ H). f_equal.
Qed.

(** X9. The subagent cost is the same amount in the overview and in the
    costs view, whatever the offset and limit, which neither loop looks
    at: when the costs view has printed its subagent rows, the subagent
    loop of the overview returns too, with the same total, and its count of
    invocations is the number of turns carrying subagent details. *)
Theorem subagent_cost_agreement (turns : list turn) (rows : list line)
  (subagent_cost : Q) (sub_num : Z) :
  for_each costs_subagent_body turns (0%Q, 0)
  = (rows, Ok (subagent_cost, sub_num)) ->
  Py.foldM overview_subagent_step turns (0%Q, 0)
  = Ok (subagent_cost, Z.of_nat (List.length (filter has_details turns))).
Proof. intros H. apply (costs_subagent_rows_cost turns _ _ 0 _ _ _ H). Qed.

Lemma subagent_cost_agreement_witness :
  Py.foldM overview_subagent_step [user_turn; subagent_turn] (0%Q, 0)
  = Ok ((5 # 100)%Q,
        Z.of_nat (List.length (filter has_details [user_turn; subagent_turn]))).
Proof.
  eapply (subagent_cost_agreement [user_turn; subagent_turn] _ (5 # 100) 1).
  reflexivity.
Defined.

Example run_summary :
  format_subagent_summary run_details
  = Ok [Glyph "subagent"; Str " SUBAGENT ["; Repr (JStr "chain"); Str "] -- ";
        Int 1; Str " run(s), $"; Fixed4 0 (0 + (5 # 100)); Str ", ";
        Int 1; Str "s"; Str nl;
        Str "  "; Glyph "ok"; Str " "; Repr (JStr "scout"); Str " (";
        Repr (JStr "m1"); Str "): "; Str "look around"; Str nl;
        Str "    $"; Fixed4 0 (5 # 100); Str " | "; Int 1; Str "s";
        Str " | "; Repr (JNum 0); Str " tools"].
Proof. vm_compute. reflexivity. Qed.

Lemma summary_run_cost c d parts r c' d' parts' :
  summary_run (c, d, parts) r = Ok (c', d', parts') ->
  subagent_cost_run c r = Ok c'
  /\ exists cost duration head detail,
       run_cost r = Ok cost
       /\ run_duration r = Ok duration
       /\ parts' = (parts ++ (if Py.truthy cost || Py.truthy duration
                              then [head; detail] else [head]))%list.
Proof.
  unfold summary_run, subagent_cost_run, run_cost, run_duration. intros H.
  do 6 py_ok H. rewrite E2; cbn [Py.bind]. rewrite E3; cbn [Py.bind].
  rewrite E4; cbn [Py.bind].
  do 6 py_ok H. rewrite E5; cbn [Py.bind]. injection H as <- _ <-.
  split; [reflexivity|].
  do 4 eexists. split; [reflexivity|]. split; [exact E6|].
  destruct (Py.truthy _ || Py.truthy _); reflexivity.
Qed.

Lemma summary_runs_cost rs : forall c d parts c' d' parts',
  Py.foldM summary_run rs (c, d, parts) = Ok (c', d', parts') ->
  Py.foldM subagent_cost_run rs c = Ok c'
  /\ exists per_run,
       parts' = (parts ++ List.concat per_run)%list
       /\ Forall2 (fun r ls =>
                     exists cost duration head detail,
                       run_cost r = Ok cost
                       /\ run_duration r = Ok duration
                       /\ ls = if Py.truthy cost || Py.truthy duration
                               then [head; detail] else [head])
            rs per_run.
Proof.
  induction rs as [|r rs IH]; intros c d parts c' d' parts' H.
  - injection H as <- _ <-. simpl. split; [reflexivity|].
    exists []. split; [now rewrite app_nil_r | constructor].
  - cbn [Py.foldM] in H. py_ok H. destruct x as [[c1 d1] parts1].
    destruct (summary_run_cost _ _ _ _ _ _ _ E)
      as (Hc & cost & duration & head & detail & Hcost & Hdur & ->).
    destruct (IH _ _ _ _ _ _ H) as (Hc' & per_run & -> & Hall).
    cbn [Py.foldM]. rewrite Hc. cbn [Py.bind]. split; [exact Hc'|].
    exists ((if Py.truthy cost || Py.truthy duration
             then [head; detail] else [head]) :: per_run).
    split; [cbn [List.concat]; now rewrite app_assoc|].
    constructor; [|exact Hall]. eauto 8.
Qed.



(** ** The look-back of the subagents view, in general *)

Lemma lookback_step_effect messages acc j r :
  lookback_step messages acc j = Ok r ->
  exists entry,
    nth_error messages (Z.to_nat j) = Some entry
    /\ (triggering_call entry = Some r
        \/ (triggering_call entry = None /\ r = acc)).
Proof.
  unfold lookback_step, triggering_call.
  destruct (nth_error messages (Z.to_nat j)) as [entry|]; [|discriminate].
  intros H. exists entry. split; [reflexivity|].
  destruct entry as [| | | | |e]; try discriminate. simpl in H.
  destruct (Py.dict_get e "message" (JDict [])) as [| | | | |m];
    try discriminate.
  simpl in H.
  destruct (Py.dict_get m "content" (JList [])) as [| | | |items|d];
    try (injection H as <-; auto).
  destruct (subagent_call_in items); injection H as <-; auto.
Qed.

(** Folding the steps over any list of indices: the last index visited
    that holds a call decides. *)
Lemma lookback_fold messages js : forall acc r,
  Py.foldM (lookback_step messages) js acc = Ok r ->
  (r = acc
   /\ forall j, In j js ->
        exists entry, nth_error messages (Z.to_nat j) = Some entry
                      /\ triggering_call entry = None)
  \/ (exists l1 j l2 entry,
        js = (l1 ++ j :: l2)%list
        /\ nth_error messages (Z.to_nat j) = Some entry
        /\ triggering_call entry = Some r
        /\ forall j', In j' l2 ->
             exists entry', nth_error messages (Z.to_nat j') = Some entry'
                            /\ triggering_call entry' = None).
Proof.
  induction js as [|j js IH]; intros acc r H.
  - injection H as <-. left. split; [reflexivity | intros j []].
  - cbn [Py.foldM] in H. apply py_bind_ok in H as (acc1 & Hs & H).
    destruct (lookback_step_effect _ _ _ _ Hs) as (entry & Hn & Hc).
    destruct (IH _ _ H) as [[-> Hnone]|(l1 & j1 & l2 & e1 & -> & Hn1 & Hc1 & Hl2)].
    + destruct Hc as [Hc|[Hc ->]].
      * right. exists [], j, js, entry. repeat split; assumption.
      * left. split; [reflexivity|].
        intros j' [<-|Hin]; [eauto | apply Hnone, Hin].
    + right. exists (j :: l1), j1, l2, e1. repeat split; assumption.
Qed.

Lemma range_down_split start stop l1 j l2 :
  range_down start stop = (l1 ++ j :: l2)%list ->
  forall x, In x (range_down start stop) -> x < j -> In x l2.
Proof.
  unfold range_down.
  generalize (Z.to_nat (start - stop)) as n. intros n. revert start l1.
  induction n as [|n IH]; intros start l1 H x Hin Hlt.
  - destruct l1; discriminate.
  - rewrite <- cons_seq, <- seq_shift, map_cons, map_map in H, Hin.
    assert (Hshift : map (fun k => start - Z.of_nat (S k)) (seq 0 n)
                     = map (fun k => (start - 1) - Z.of_nat k) (seq 0 n)).
    { apply map_ext. intros k. lia. }
    rewrite Hshift in H, Hin.
    assert (Hbelow : forall y,
               In y (map (fun k => (start - 1) - Z.of_nat k) (seq 0 n)) ->
               y < start).
    { intros y Hy. apply in_map_iff in Hy as (k & <- & _). lia. }
    destruct l1 as [|a l1]; simpl in H.
    + injection H as <- <-. destruct Hin as [Hx|Hx]; [lia | exact Hx].
    + injection H as <- H.
      destruct Hin as [Hx|Hx].
      * exfalso. assert (j < start); [|lia].
        apply Hbelow. rewrite H. apply in_elt.
      * apply (IH (start - 1) l1 H x Hx Hlt).
Qed.

(** X11. What the look-back recovers, for every session: among the (at
    most four) raw messages before the result, the earliest one whose list
    content holds a [subagent] toolCall supplies the arguments, those of
    its first such item; when none of them holds one, the arguments are
    the empty dict. *)
Theorem lookback_recovers_earliest_call (messages : list json) (i : Z)
  (call_args : json) :
  0 <= i ->
  find_call_args messages i = Ok call_args ->
  (call_args = JDict []
   /\ forall j, in_lookback i j ->
        exists entry, nth_error messages (Z.to_nat j) = Some entry
                      /\ triggering_call entry = None)
  \/ (exists j entry,
        in_lookback i j
        /\ nth_error messages (Z.to_nat j) = Some entry
        /\ triggering_call entry = Some call_args
        /\ forall j', in_lookback i j' -> j' < j ->
             exists entry', nth_error messages (Z.to_nat j') = Some entry'
                            /\ triggering_call entry' = None).
Proof.
  intros Hi H. unfold find_call_args in H.
  assert (Hin : forall j, in_lookback i j ->
                          In j (range_down (i - 1) (Z.max (i - 5) (-1)))).
  { intros j [H0 [H1 H2]]. unfold range_down. apply in_map_iff.
    exists (Z.to_nat (i - 1 - j)). split; [lia|]. apply in_seq. lia. }
  destruct (lookback_fold _ _ _ _ H)
    as [[-> Hnone]|(l1 & j & l2 & entry & Hsplit & Hn & Hc & Hl2)].
  - left. split; [reflexivity|]. intros j Hj. apply Hnone, Hin, Hj.
  - right. exists j, entry.
    assert (Hj : In j (range_down (i - 1) (Z.max (i - 5) (-1))))
      by (rewrite Hsplit; apply in_elt).
    split; [apply (lookback_window i j Hi Hj)|].
    split; [exact Hn|]. split; [exact Hc|].
    intros j' Hj' Hlt. apply Hl2.
    apply (range_down_split _ _ _ _ _ Hsplit j' (Hin j' Hj') Hlt).
Qed.

Lemma lookback_recovers_earliest_call_witness :
  (first_args = JDict []
   /\ forall j, in_lookback 3 j ->
        exists entry, nth_error two_invocations (Z.to_nat j) = Some entry
                      /\ triggering_call entry = None)
  \/ (exists j entry,
        in_lookback 3 j
        /\ nth_error two_invocations (Z.to_nat j) = Some entry
        /\ triggering_call entry = Some first_args
        /\ forall j', in_lookback 3 j' -> j' < j ->
             exists entry', nth_error two_invocations (Z.to_nat j') = Some entry'
                            /\ triggering_call entry' = None).
Proof.
  apply (lookback_recovers_earliest_call two_invocations 3 first_args).
  - lia.
  - reflexivity.
Defined.

Lemma foldM_ext_in {A S} (f g : S -> A -> result S) xs :
  (forall x s, In x xs -> f s x = g s x) ->
  forall s, Py.foldM f xs s = Py.foldM g xs s.
Proof.
  induction xs as [|x xs IH]; intros H s; [reflexivity|].
  cbn [Py.foldM]. rewrite (H x s (or_introl eq_refl)).
  destruct (g s x) as [s'|e]; cbn [Py.bind]; [|reflexivity].
  apply IH. intros y s0 Hy. apply H. now right.
Qed.

(** X12. The look-back consults nothing but the (at most four) raw
    messages just before the result: two sessions that agree on those
    positions give the same arguments, or the same exception, whatever
    stands earlier or later in them. *)
Theorem lookback_is_local (messages messages' : list json) (i : Z) :
  0 <= i ->
  (forall j, in_lookback i j ->
             nth_error messages (Z.to_nat j) = nth_error messages' (Z.to_nat j)) ->
  find_call_args messages i = find_call_args messages' i.
Proof.
  intros Hi Hsame. unfold find_call_args. apply foldM_ext_in.
  intros j acc Hj. unfold lookback_step.
  rewrite (Hsame j (lookback_window i j Hi Hj)). reflexivity.
Qed.

Lemma lookback_is_local_witness :
  find_call_args distant_call 5
  = find_call_args (JNull :: tl distant_call) 5.
Proof.
  apply (lookback_is_local distant_call (JNull :: tl distant_call) 5).
  - lia.
  - intros j [H0 [H1 H2]].
    assert (Hj : j = 1 \/ j = 2 \/ j = 3 \/ j = 4) by lia.
    destruct Hj as [->|[->|[->| ->]]]; reflexivity.
Defined.

(** ** Row and call numbers *)

Lemma costs_step_number clock a c n k t o st' :
  costs_body clock a (c, n, k) t = (o, Ok (st', Next)) ->
  snd st' = k + (if costs_shows t then 1 else 0).
Proof.
  pose proof (costs_is_step clock a n (c, k) t) as Hstep.
  cbn [fst snd] in Hstep. rewrite Hstep.
  unfold windowed_step, no_guard. rewrite bind_ret_l.
  unfold windowed, costs_count, costs_block. cbn [fst snd].
  destruct (costs_shows t).
  - destruct (before_window a _); [intros [= _ <-]; reflexivity|].
    destruct (after_window a _); [discriminate|].
    intros H. apply bind_ok in H as (o1 & s1 & o2 & Hb & H & _).
    apply bind_ok in Hb as (o3 & s2 & o4 & Hrow & Hb & _).
    apply bind_ok in Hrow as (o5 & c1 & o6 & _ & Hrow & _).
    injection Hrow as _ <-. injection Hb as _ <-. injection H as _ <-.
    reflexivity.
  - intros [= _ <-]. cbn [snd]. lia.
Qed.

Lemma costs_reaches_number clock a done : forall st st',
  reaches (costs_body clock a) st done st' ->
  snd st' = snd st + Z.of_nat (List.length (filter costs_shows done)).
Proof.
  intros st st' H.
  induction H as [st|st t o st1 rest st2 Hstep Hrest IH].
  - simpl. lia.
  - destruct st as [[c n] k].
    apply costs_step_number in Hstep. rewrite IH, Hstep. cbn [snd filter].
    destruct (costs_shows t); cbn [List.length]; lia.
Qed.

(** X13. The row numbers of the costs view count every assistant turn
    carrying usage from the start of the session, the ones the offset hides
    included: while the loop runs on, [assistant_num] is the number of such
    turns met so far, so a displayed row bears the rank of its turn among
    all of them, not among the displayed ones. *)
Theorem costs_rows_numbered_across_session (clock : json -> result string)
  (a : args_t) (before : list turn) (st : Q * Z * Z) :
  reaches (costs_body clock a) (0%Q, 0, 0) before st ->
  snd st = Z.of_nat (List.length (filter costs_shows before)).
Proof. intros H. apply costs_reaches_number in H. exact H. Qed.

Lemma costs_rows_numbered_across_session_witness :
  snd (0%Q, 1, 1)
  = Z.of_nat (List.length (filter costs_shows [user_turn; assistant_turn])).
Proof.
  apply (costs_rows_numbered_across_session no_clock (Args Costs 1 0 2000)
           [user_turn; assistant_turn] (0%Q, 1, 1)).
  eapply reaches_cons; [vm_compute; reflexivity|].
  eapply reaches_cons; [vm_compute; reflexivity|].
  apply reaches_nil.
Defined.

Lemma tools_calls_count json_dumps a ts tcs : forall k,
  exists o, tools_calls json_dumps a ts k tcs
            = (o, Ok (k + Z.of_nat (List.length tcs))).
Proof.
  induction tcs as [|tc tcs IH]; intros k.
  - exists []. cbn. now rewrite Z.add_0_r.
  - destruct (IH (k + 1)) as [o Ho]. cbn [tools_calls].
    unfold Out.print, Out.bind. rewrite Ho. eexists. f_equal. f_equal.
    cbn [List.length]. lia.
Qed.

Lemma tools_step_number json_dumps clock a n k t o st' :
  offset a = 0 -> limit a = 0 ->
  tools_body json_dumps clock a (n, k) t = (o, Ok (st', Next)) ->
  snd st'
  = k + (if is_assistant t then Z.of_nat (List.length (tool_calls t)) else 0).
Proof.
  intros Ho Hl. rewrite (tools_is_step json_dumps clock a n k t).
  unfold windowed_step, no_guard. rewrite bind_ret_l.
  unfold windowed, before_window, after_window, tools_shows, tools_block.
  rewrite Ho, Hl. cbn [Z.eqb negb andb].
  unfold is_assistant, is_tool_result.
  destruct (Py.eq_str (role t) "assistant") eqn:Ea.
  - destruct (tool_calls t) as [|tc tcs] eqn:Et; cbn [nonempty andb orb].
    + rewrite (eq_str_exclusive _ "assistant" "toolResult" Ea) by discriminate.
      intros [= _ <-]. cbn. lia.
    + intros H. apply bind_ok in H as (o1 & s1 & o2 & Hb & H & _).
      apply bind_ok in Hb as (o3 & k1 & o4 & Hk & Hb & _).
      apply bind_lift_ok in Hk as (ts & _ & Hk).
      destruct (tools_calls_count json_dumps a ts (tc :: tcs) k) as [o5 Hc].
      rewrite Hc in Hk. injection Hk as _ <-.
      injection Hb as _ <-. injection H as _ <-. reflexivity.
  - cbn [andb orb].
    destruct (Py.eq_str (role t) "toolResult").
    + intros H. apply bind_ok in H as (o1 & s1 & o2 & Hb & H & _).
      apply bind_ok in Hb as (o3 & k1 & o4 & Hk & Hb & _).
      unfold keep in Hk. apply bind_ok in Hk as (o5 & u & o6 & _ & Hk & _).
      injection Hk as _ <-. injection Hb as _ <-. injection H as _ <-.
      cbn. lia.
    + intros [= _ <-]. cbn. lia.
Qed.

(** X14. With no window (offset 0 and limit 0) the tools view numbers the
    tool calls sequentially across the whole session: while the loop runs
    on, [tool_num] is the number of tool calls of the assistant turns met
    so far. *)
Theorem tool_calls_numbered_across_session (json_dumps : json -> string)
  (clock : json -> result string)
  (a : args_t) (before : list turn) (st : Z * Z) :
  offset a = 0 ->
  limit a = 0 ->
  reaches (tools_body json_dumps clock a) (0, 0) before st ->
  snd st
  = Z.of_nat (List.length
                (flat_map (fun t => if is_assistant t then tool_calls t else [])
                   before)).
Proof.
  intros Ho Hl H.
  assert (G : forall s0 s1,
             reaches (tools_body json_dumps clock a) s0 before s1 ->
             snd s1
             = snd s0
               + Z.of_nat (List.length
                             (flat_map
                                (fun t => if is_assistant t then tool_calls t
                                          else []) before))).
  { clear H st. intros s0 s1 H.
    induction H as [s|s t o s' rest s'' Hstep Hrest IH].
    - simpl. lia.
    - destruct s as [n k].
      apply (tools_step_number _ _ _ _ _ _ _ _ Ho Hl) in Hstep.
      rewrite IH, Hstep. cbn [snd flat_map]. rewrite length_app.
      destruct (is_assistant t); cbn [List.length]; lia. }
  apply G in H. exact H.
Qed.

Lemma tool_calls_numbered_across_session_witness :
  snd (1, 2)
  = Z.of_nat (List.length
                (flat_map (fun t => if is_assistant t then tool_calls t else [])
                   [user_turn; calling_turn])).
Proof.
  apply (tool_calls_numbered_across_session (fun _ => "") no_clock
           (Args Tools 0 0 2000) [user_turn; calling_turn] (1, 2)).
  - reflexivity.
  - reflexivity.
  - eapply reaches_cons; [vm_compute; reflexivity|].
    eapply reaches_cons; [vm_compute; reflexivity|].
    apply reaches_nil.
Defined.

(** With an offset the numbering starts at the window instead. *)
Example tool_calls_numbered_from_window :
  Out.outcome (for_each (tools_body (fun _ => "") no_clock (Args Tools 1 0 2000))
                 [user_turn; calling_turn; user_turn; calling_turn] (0, 0))
  = Ok (2, 2).
Proof. reflexivity. Qed.

(** ** The counts of the overview *)

(** X15. The three role counts of the overview's [Turns] line and the
    number of turns of any other role add up to the total it prints: the
    counts are of disjoint sets of turns, and they fall short of the total
    exactly by the turns whose role is none of the three. *)
Theorem role_counts_add_up (turns : list turn) :
  Z.of_nat (List.length turns)
  = count_role "user" turns + count_role "assistant" turns
    + count_role "toolResult" turns
    + Z.of_nat (List.length (filter other_role turns)).
Proof.
  unfold count_role.
  induction turns as [|t turns IH]; [reflexivity|].
  cbn [filter List.length].
  assert (Ho : other_role t
               = negb (Py.eq_str (role t) "user")
                 && negb (Py.eq_str (role t) "assistant")
                 && negb (Py.eq_str (role t) "toolResult")) by reflexivity.
  rewrite Ho. clear Ho.
  destruct (Py.eq_str (role t) "user") eqn:Eu;
    destruct (Py.eq_str (role t) "assistant") eqn:Ea;
    destruct (Py.eq_str (role t) "toolResult") eqn:Er;
    try (rewrite (eq_str_exclusive _ "user" "assistant" Eu) in Ea
           by discriminate; discriminate);
    try (rewrite (eq_str_exclusive _ "user" "toolResult" Eu) in Er
           by discriminate; discriminate);
    try (rewrite (eq_str_exclusive _ "assistant" "toolResult" Ea) in Er
           by discriminate; discriminate);
    cbn [negb andb List.length]; lia.
Qed.

(** ** [truncate] keeps the head of the text *)

Lemma take_take_le k m s : (k <= m)%nat ->
  PyStr.take k (PyStr.take m s) = PyStr.take k s.
Proof.
  revert m s; induction k as [|k IH]; intros [|m] [|c s] H; simpl;
    try reflexivity; try lia.
  rewrite IH; [reflexivity | lia].
Qed.

Lemma take_app_le k s t : (k <= String.length s)%nat ->
  PyStr.take k (s ++ t) = PyStr.take k s.
Proof.
  revert s; induction k as [|k IH]; intros [|c s] H; simpl in *;
    try reflexivity; try lia.
  rewrite IH; [reflexivity | lia].
Qed.

(** X16. Truncation never alters what it keeps: under a limit [max_len],
    the first [k] characters of the result are the first [k] characters of
    the text, for every [k] up to the limit (and for every [k] when the
    limit is not positive). *)
Theorem truncate_keeps_head (text : string) (max_len : Z) (k : nat) :
  max_len <= 0 \/ Z.of_nat k <= max_len ->
  PyStr.take k (truncate text max_len) = PyStr.take k text.
Proof.
  intros H. unfold truncate.
  destruct ((max_len <=? 0) || (Z.of_nat (String.length text) <=? max_len))
    eqn:E; [reflexivity|].
  apply orb_false_iff in E as [E1 E2].
  apply Z.leb_gt in E1, E2.
  rewrite take_app_le by (rewrite take_length; lia).
  apply take_take_le. lia.
Qed.

Lemma truncate_keeps_head_witness :
  PyStr.take 2 (truncate "abcdef" 4) = PyStr.take 2 "abcdef".
Proof. apply (truncate_keeps_head "abcdef" 4 2). right. simpl. lia. Defined.

(** ** Sessions without subagents, and empty sessions *)

Lemma subagents_loop_idle path_exists messages ies : forall st,
  Forall (fun ie => exists e m,
            snd ie = JDict e
            /\ Py.dict_get e "message" (JDict []) = JDict m
            /\ extract_subagent_details (JDict m) = Ok None) ies ->
  for_each (subagents_body path_exists messages) ies st = Out.ret st.
Proof.
  induction ies as [|[i entry] ies IH]; intros st H; [reflexivity|].
  inversion H as [|? ? (e & m & He & Hm & Hd) Hrest]; subst.
  simpl in He. subst entry. cbn [for_each].
  destruct st as [sub_num found_any].
  unfold subagents_body at 1. cbn [Py.get]. rewrite Hm.
  rewrite bind_lift_l, Hd, bind_lift_l, bind_ret_l.
  apply IH, Hrest.
Qed.

Lemma no_details_no_invocation entry t :
  extract_turn entry = Ok t ->
  has_details t = false ->
  exists e m,
    entry = JDict e
    /\ Py.dict_get e "message" (JDict []) = JDict m
    /\ extract_subagent_details (JDict m) = Ok None.
Proof.
  intros H Hd.
  destruct (extract_turn_optional_keys entry t H)
    as (e & m & He & Hm & Hs & _ & _ & Hk).
  exists e, m. split; [exact He|]. split; [exact Hm|].
  rewrite Hs. f_equal.
  destruct (subagent_details t) as [d|] eqn:Ed; [|reflexivity].
  destruct (Hk d eq_refl) as [_ Ht].
  unfold has_details in Hd. rewrite Ed in Hd. simpl in Hd. congruence.
Qed.

(** X17. For a session none of whose turns carries subagent details, the
    subagents view never raises and prints its title and the line saying
    that no subagent invocation was found, and nothing else. *)
Theorem subagents_view_without_invocations (path_exists : string -> bool)
  (messages : list json) (turns : list turn) (a : args_t) :
  extract_turns messages = Ok turns ->
  existsb has_details turns = false ->
  print_subagents path_exists turns messages a
  = ([ [Str (rule "=" 70)]; [Str "SUBAGENT RUNS"]; [Str (rule "=" 70)];
       [Str nl; Str "  No subagent invocations found in this session."] ],
     Ok tt).
Proof.
  intros Hex Hnone. unfold print_subagents.
  rewrite (subagents_loop_idle path_exists messages (enumerate messages)
             (0, false)); [reflexivity|].
  apply mapM_Forall2 in Hex.
  apply Forall_forall. intros [i entry] Hin. cbn [snd].
  unfold enumerate in Hin. apply in_combine_r in Hin.
  apply In_nth_error in Hin as [n Hn].
  destruct (Forall2_nth_error _ _ _ Hex n entry Hn) as (t & Ht & Hext).
  apply (no_details_no_invocation entry t Hext).
  destruct (has_details t) eqn:Hd; [|reflexivity].
  assert (Hsome : existsb has_details turns = true).
  { apply existsb_exists. exists t. split; [|exact Hd].
    apply (nth_error_In _ _ Ht). }
  congruence.
Qed.

Lemma subagents_view_without_invocations_witness :
  print_subagents (fun _ => false) [user_turn; assistant_turn]
    [user_value; assistant_value] (Args Subagents 0 0 2000)
  = ([ [Str (rule "=" 70)]; [Str "SUBAGENT RUNS"]; [Str (rule "=" 70)];
       [Str nl; Str "  No subagent invocations found in this session."] ],
     Ok tt).
Proof.
  apply (subagents_view_without_invocations (fun _ => false)
           [user_value; assistant_value] [user_turn; assistant_turn]
           (Args Subagents 0 0 2000)); reflexivity.
Defined.

Lemma blank_file_parses json_loads file :
  Forall (fun line => blank line = true) file ->
  parse_session json_loads file = Ok (JDict [], [], []).
Proof.
  intros H. unfold parse_session.
  rewrite <- parse_lines_skip_blank.
  replace (filter (fun line => negb (blank line)) file) with (@nil string);
    [reflexivity|].
  induction H as [|line file Hb _ IH]; [reflexivity|].
  cbn [filter]. rewrite Hb. exact IH.
Qed.

(** X18. An empty session file, or one of blank lines only, is not an
    error in any mode: [main] returns normally, and the overview shows its
    header with the default [N/A] fields, no cost line, zero for every
    count and an empty turn summary. *)
Theorem blank_file_reports (json_loads : string -> option json)
  (json_dumps : json -> string)
  (clock : json -> result string) (path_exists : string -> bool)
  (file : list string) (a : args_t) :
  Forall (fun line => blank line = true) file ->
  Out.outcome (main json_loads json_dumps clock path_exists (Some file) a)
  = Ok tt
  /\ (mode a = Overview ->
      Out.stdout (main json_loads json_dumps clock path_exists (Some file) a)
      = [ [Str (rule "=" 70)]; [Str "SESSION OVERVIEW"]; [Str (rule "=" 70)];
          [Str "  ID:        "; Repr (JStr "N/A")];
          [Str "  CWD:       "; Repr (JStr "N/A")];
          [Str "  Started:   "; Repr (JStr "N/A")];
          [Str "  Version:   "; Repr (JStr "N/A")];
          [Str "  Turns:     "; Int 0; Str " total ("; Int 0; Str " user, ";
           Int 0; Str " assistant, "; Int 0; Str " tool results)"];
          [];
          [Str (rule "-" 70)]; [Str "TURN SUMMARY"]; [Str (rule "-" 70)] ]).
Proof.
  intros H. unfold main. rewrite (blank_file_parses json_loads file H).
  split.
  - destruct a as [m o l mc]. destruct m; reflexivity.
  - intros ->. reflexivity.
Qed.

Lemma blank_file_reports_witness :
  Out.outcome (main sample_loads (fun _ => "") no_clock (fun _ => false)
                 (Some [nl; "  " ++ nl]) (Args Costs 0 0 2000))
  = Ok tt
  /\ (mode (Args Costs 0 0 2000) = Overview ->
      Out.stdout (main sample_loads (fun _ => "") no_clock (fun _ => false)
                    (Some [nl; "  " ++ nl]) (Args Costs 0 0 2000))
      = [ [Str (rule "=" 70)]; [Str "SESSION OVERVIEW"]; [Str (rule "=" 70)];
          [Str "  ID:        "; Repr (JStr "N/A")];
          [Str "  CWD:       "; Repr (JStr "N/A")];
          [Str "  Started:   "; Repr (JStr "N/A")];
          [Str "  Version:   "; Repr (JStr "N/A")];
          [Str "  Turns:     "; Int 0; Str " total ("; Int 0; Str " user, ";
           Int 0; Str " assistant, "; Int 0; Str " tool results)"];
          [];
          [Str (rule "-" 70)]; [Str "TURN SUMMARY"]; [Str (rule "-" 70)] ]).
Proof.
  apply (blank_file_reports sample_loads (fun _ => "") no_clock
           (fun _ => false) [nl; "  " ++ nl] (Args Costs 0 0 2000)).
  repeat constructor.
Defined.

(** ** Views that fail on a timestamp only *)

Lemma print_texts_total a prefix vs :
  Forall (fun v => exists s, v = JStr s) vs ->
  exists o, print_texts a prefix vs = (o, Ok tt).
Proof.
  induction 1 as [|v vs [s ->] _ [o IH]]; [exists []; reflexivity|].
  cbn [print_texts truncate_value]. rewrite bind_lift_l, IH.
  eexists. reflexivity.
Qed.

Lemma returns_or_ret {A} R (x : A) : returns_or R (Out.ret x).
Proof. left. exists [], x. reflexivity. Qed.

Lemma returns_or_bind {A B} R (c : out A) (k : A -> out B) :
  returns_or R c -> (forall x, returns_or R (k x)) ->
  returns_or R (Out.bind c k).
Proof.
  intros [(o & x & ->)|(o & e & -> & He)] Hk.
  - destruct (Hk x) as [(o' & y & Hy)|(o' & e & Hy & He)]; cbn; rewrite Hy.
    + left. eauto.
    + right. eauto.
  - right. exists o, e. split; [reflexivity | exact He].
Qed.

Lemma returns_or_print R l : returns_or R (Out.print l).
Proof. left. exists [l], tt. reflexivity. Qed.

Lemma returns_or_lift {A} (R : exn -> Prop) (r : result A) :
  (forall e, r = Raise e -> R e) -> returns_or R (Out.lift r).
Proof.
  destruct r as [x|e]; intros H.
  - left. exists [], x. reflexivity.
  - right. exists [], e. split; [reflexivity | apply H; reflexivity].
Qed.

Lemma returns_or_windowed {S} R a n (s : S) block :
  returns_or R block -> returns_or R (windowed a n s block).
Proof.
  intros H. unfold windowed.
  destruct (before_window a n); [apply returns_or_ret|].
  destruct (after_window a n); [apply returns_or_ret|].
  apply returns_or_bind; [exact H|]. intros x. apply returns_or_ret.
Qed.

Lemma returns_or_for_each {S A} (R : A -> exn -> Prop)
  (body : S -> A -> out (S * flow)) xs :
  (forall s x, In x xs -> returns_or (R x) (body s x)) ->
  forall s, returns_or (fun e => exists x, In x xs /\ R x e)
              (for_each body xs s).
Proof.
  induction xs as [|x xs IH]; intros H s; [apply returns_or_ret|].
  cbn [for_each].
  destruct (H s x (or_introl eq_refl)) as [(o & [s' f] & Hb)|(o & e & Hb & He)];
    rewrite Hb.
  - destruct f.
    + destruct (IH (fun s0 y Hy => H s0 y (or_intror Hy)) s')
        as [(o' & s'' & Hr)|(o' & e & Hr & y & Hy & He)]; cbn; rewrite Hr.
      * left. eauto.
      * right. exists (o ++ o')%list, e. split; [reflexivity|].
        exists y. split; [right; exact Hy | exact He].
    + left. cbn. eauto.
  - right. exists o, e. split; [reflexivity|].
    exists x. split; [left; reflexivity | exact He].
Qed.

Section TimestampOnly.

Variable json_dumps : json -> string.
Variable clock : json -> result string.
Variable a : args_t.

Lemma returns_or_texts t prefix :
  Forall (fun v => exists s, v = JStr s) (texts t) ->
  returns_or (from_timestamp clock t) (print_texts a prefix (texts t)).
Proof.
  intros Hs. destruct (print_texts_total a prefix _ Hs) as [o Ho].
  left. eauto.
Qed.

Lemma conversation_body_outcome n t :
  Forall (fun v => exists s, v = JStr s) (texts t) ->
  has_details t = false ->
  returns_or (from_timestamp clock t) (conversation_body clock a n t).
Proof.
  intros Hs Hd. unfold conversation_body. unfold has_details in Hd.
  rewrite Hd, andb_false_r.
  destruct (Py.eq_str (role t) "user").
  - apply returns_or_windowed. unfold keep, conversation_user.
    apply returns_or_bind; [|intros; apply returns_or_ret].
    apply returns_or_bind; [apply returns_or_lift; auto|]. intros ts.
    repeat (apply returns_or_bind; [apply returns_or_print|]; intros _).
    apply returns_or_texts, Hs.
  - destruct (Py.eq_str (role t) "assistant" && nonempty (texts t));
      [|apply returns_or_ret].
    apply returns_or_windowed. unfold keep, conversation_assistant.
    apply returns_or_bind; [|intros; apply returns_or_ret].
    apply returns_or_bind; [apply returns_or_lift; auto|]. intros ts.
    apply returns_or_bind; [apply returns_or_print|]. intros _.
    apply returns_or_texts, Hs.
Qed.

Lemma returns_or_tools_calls t ts tcs : forall k,
  returns_or (from_timestamp clock t) (tools_calls json_dumps a ts k tcs).
Proof.
  induction tcs as [|tc tcs IH]; intros k; [apply returns_or_ret|].
  cbn [tools_calls].
  repeat (apply returns_or_bind; [apply returns_or_print|]; intros _).
  apply IH.
Qed.

Lemma tools_body_outcome st t :
  Forall (fun v => exists s, v = JStr s) (texts t) ->
  has_details t = false ->
  returns_or (from_timestamp clock t) (tools_body json_dumps clock a st t).
Proof.
  intros Hs Hd. destruct st as [n k]. unfold tools_body.
  destruct (Py.eq_str (role t) "assistant" && nonempty (tool_calls t)).
  - apply returns_or_windowed.
    apply returns_or_bind; [apply returns_or_lift; auto|]. intros ts.
    apply returns_or_bind; [apply returns_or_tools_calls|]. intros m.
    apply returns_or_ret.
  - destruct (Py.eq_str (role t) "toolResult"); [|apply returns_or_ret].
    apply returns_or_windowed. unfold keep.
    apply returns_or_bind; [|intros; apply returns_or_ret].
    unfold tools_result. unfold has_details in Hd. rewrite Hd.
    unfold tools_result_text.
    destruct (join_texts_total " " _ Hs) as [joined ->].
    cbn [Py.bind]. rewrite bind_lift_l. apply returns_or_print.
Qed.

End TimestampOnly.

(** X19. On a parsed session none of whose turns carries subagent
    details, the conversation view and the tools view raise nothing of
    their own, whatever the offset, the limit and the content limit: every
    text they join or truncate is a string, and tool names and arguments
    are printed as they are. The one exception either view can end with is
    the one [format_timestamp] lets through for the timestamp of one of
    the turns; when the timestamp of every turn can be formatted, both
    views return. (A failure of standard output itself, which the model
    leaves out, is not spoken of.) *)
Theorem views_fail_on_timestamps_only (json_dumps : json -> string)
  (clock : json -> result string) (a : args_t)
  (messages : list json) (turns : list turn) :
  extract_turns messages = Ok turns ->
  existsb has_details turns = false ->
  (forall e,
     Out.outcome (print_conversation clock turns a) = Raise e ->
     exists t, In t turns /\ format_timestamp clock (timestamp t) = Raise e)
  /\ (forall e,
        Out.outcome (print_tools json_dumps clock turns a) = Raise e ->
        exists t, In t turns /\ format_timestamp clock (timestamp t) = Raise e)
  /\ ((forall t, In t turns ->
                 exists ts, format_timestamp clock (timestamp t) = Ok ts) ->
      Out.outcome (print_conversation clock turns a) = Ok tt
      /\ Out.outcome (print_tools json_dumps clock turns a) = Ok tt).
Proof.
  intros Hex Hnone. apply mapM_Forall2 in Hex.
  assert (Hturn : forall t, In t turns ->
            Forall (fun v => exists s, v = JStr s) (texts t)
            /\ has_details t = false).
  { intros t Hin. split.
    - apply In_nth_error in Hin as [n Hn].
      assert (Hrev : Forall2 (fun t0 entry => extract_turn entry = Ok t0)
                       turns messages) by (apply Forall2_flip; exact Hex).
      destruct (Forall2_nth_error _ _ _ Hrev n t Hn) as (entry & _ & He).
      destruct (extract_turn_fields entry t He)
        as (e & m & seg & _ & _ & Hg & _ & Ht & _).
      rewrite Ht. destruct (Py.eq_str (role t) "toolResult").
      + apply (result_texts_are_strings _ seg Hg).
      + assert (Hgen : generic_texts (Py.dict_get m "content" (JStr ""))
                       = Ok (seg_texts seg))
          by (unfold generic_texts; rewrite Hg; reflexivity).
        rewrite (generic_texts_spec _ _ Hgen).
        apply Forall_forall. intros v Hv. apply filter_In in Hv as [_ Hv].
        apply non_blank_is_str, Hv.
    - destruct (has_details t) eqn:Hd; [|reflexivity].
      assert (existsb has_details turns = true); [|congruence].
      apply existsb_exists. eauto. }
  assert (Hc : forall e,
             Out.outcome (print_conversation clock turns a) = Raise e ->
             exists t, In t turns
                       /\ format_timestamp clock (timestamp t) = Raise e).
  { intros e. unfold print_conversation, Out.print.
    destruct (returns_or_for_each (from_timestamp clock)
                (conversation_body clock a) turns) with (s := 0)
      as [(o & s' & Hr)|(o & e' & Hr & t & Hin & Ht)].
    - intros s t Hin. destruct (Hturn t Hin).
      now apply conversation_body_outcome.
    - rewrite Hr. cbn. discriminate.
    - rewrite Hr. cbn. intros [= <-]. eauto. }
  assert (Ht : forall e,
             Out.outcome (print_tools json_dumps clock turns a) = Raise e ->
             exists t, In t turns
                       /\ format_timestamp clock (timestamp t) = Raise e).
  { intros e. unfold print_tools, Out.print.
    destruct (returns_or_for_each (from_timestamp clock)
                (tools_body json_dumps clock a) turns) with (s := (0, 0))
      as [(o & s' & Hr)|(o & e' & Hr & t & Hin & Ht)].
    - intros s t Hin. destruct (Hturn t Hin).
      now apply tools_body_outcome.
    - rewrite Hr. cbn. discriminate.
    - rewrite Hr. cbn. intros [= <-]. eauto. }
  split; [exact Hc|]. split; [exact Ht|].
  intros Hall. split.
  - destruct (Out.outcome (print_conversation clock turns a)) as [[]|e];
      [reflexivity|].
    destruct (Hc e eq_refl) as (t & Hin & Hr).
    destruct (Hall t Hin) as [ts Hts]. congruence.
  - destruct (Out.outcome (print_tools json_dumps clock turns a)) as [[]|e];
      [reflexivity|].
    destruct (Ht e eq_refl) as (t & Hin & Hr).
    destruct (Hall t Hin) as [ts Hts]. congruence.
Qed.

Lemma views_fail_on_timestamps_only_witness :
  (forall e,
     Out.outcome (print_conversation bounded_clock [user_turn; assistant_turn]
                    (Args Conversation 0 1 10)) = Raise e ->
     exists t, In t [user_turn; assistant_turn]
               /\ format_timestamp bounded_clock (timestamp t) = Raise e)
  /\ (forall e,
        Out.outcome (print_tools (fun _ => "") bounded_clock
                       [user_turn; assistant_turn] (Args Conversation 0 1 10))
        = Raise e ->
        exists t, In t [user_turn; assistant_turn]
                  /\ format_timestamp bounded_clock (timestamp t) = Raise e)
  /\ ((forall t, In t [user_turn; assistant_turn] ->
                 exists ts,
                   format_timestamp bounded_clock (timestamp t) = Ok ts) ->
      Out.outcome (print_conversation bounded_clock
                     [user_turn; assistant_turn] (Args Conversation 0 1 10))
      = Ok tt
      /\ Out.outcome (print_tools (fun _ => "") bounded_clock
                        [user_turn; assistant_turn]
                        (Args Conversation 0 1 10))
         = Ok tt).
Proof.
  apply (views_fail_on_timestamps_only (fun _ => "") bounded_clock
           (Args Conversation 0 1 10) [user_value; assistant_value]
           [user_turn; assistant_turn]); reflexivity.
Defined.

(** The conversation view ends on a user turn stamped out of range, once
    the window lets it reach the timestamp. *)
Example conversation_ends_on_far_timestamp :
  print_conversation bounded_clock [far_user_turn]
    (Args Conversation 0 0 2000)
  = ([ [Str (rule "=" 70)]; [Str "CONVERSATION"]; [Str (rule "=" 70)] ],
     Raise OverflowError)
  /\ Out.outcome (print_conversation bounded_clock [far_user_turn; user_turn]
                    (Args Conversation 1 0 2000))
     = Ok tt.
Proof. split; reflexivity. Qed.
